(** * Pose-to-garment fitting: ClothingFit.js and its callers

    A shallow embedding of the virtual try-on core of the storefront:
    [ClothingFit] (measurement extraction, T-pose calibration, garment
    transform solving, smoothing, fit scoring), [PoseDetection.extractKeypoints3D]
    and the calibration polling of the main application; then the objects
    around them: the scene's children ([SceneManager]), the model loader
    ([ModelLoader]), the garment changes of the application, the pose
    detector's own methods and the customization settings.

    Conventions of the embedding.
    - A JavaScript number is a real number ([R]): arithmetic is exact, and
      NaN, the infinities and rounding are outside the model.  Statements
      about ratios therefore assume the divisors the source divides by to be
      non-zero where that matters.
    - A method that mutates [this] or an argument takes the old object and
      returns the new one.
    - A method that can raise a JavaScript exception returns a [completion]:
      [Normal v] for a normal return, [Throw e] for an exception.
    - [undefined] as the value returned by a bare [return;] is [None].
    - [THREE.Vector3] follows three.js; quaternions are kept abstract behind
      the operations the source calls (see [QuaternionOps]). *)

From Stdlib Require Import Reals Lra String List.
From stdpp Require Import base option list gmap strings.
Import ListNotations.

Open Scope R_scope.

(** ** Completions: normal return or exception *)

Inductive error : Type :=
| TypeError.

Inductive completion (A : Type) : Type :=
| Normal (a : A)
| Throw (e : error).

Arguments Normal {A} a.
Arguments Throw {A} e.

#[global] Instance completion_ret : MRet completion := fun A a => Normal a.

#[global] Instance completion_bind : MBind completion := fun A B f m =>
  match m with
  | Normal a => f a
  | Throw e => Throw e
  end.

(** [returns m]: the call completes normally (no exception). *)
Definition returns {A : Type} (m : completion A) : Prop :=
  exists a, m = Normal a.

(** ** THREE.Vector3 (three.js), functional style

    [a.op(b)] mutates [a] and returns it in three.js; here each operation
    returns the new vector. *)

Module THREE.

Record Vector3 : Type := mkVector3 { x : R; y : R; z : R }.

(** [new THREE.Vector3()] *)
Definition zero : Vector3 := mkVector3 0 0 0.

Definition addVectors (a b : Vector3) : Vector3 :=
  mkVector3 (x a + x b) (y a + y b) (z a + z b).

Definition subVectors (a b : Vector3) : Vector3 :=
  mkVector3 (x a - x b) (y a - y b) (z a - z b).

Definition multiplyScalar (v : Vector3) (s : R) : Vector3 :=
  mkVector3 (x v * s) (y v * s) (z v * s).

Definition divideScalar (v : Vector3) (s : R) : Vector3 :=
  multiplyScalar v (1 / s).

Definition negate (v : Vector3) : Vector3 :=
  mkVector3 (- x v) (- y v) (- z v).

Definition dot (a b : Vector3) : R :=
  x a * x b + y a * y b + z a * z b.

Definition crossVectors (a b : Vector3) : Vector3 :=
  mkVector3 (y a * z b - z a * y b)
            (z a * x b - x a * z b)
            (x a * y b - y a * x b).

Definition length (v : Vector3) : R :=
  sqrt (x v * x v + y v * y v + z v * z v).

(** [this.divideScalar(this.length() || 1)] *)
Definition normalize (v : Vector3) : Vector3 :=
  divideScalar v (if Req_dec_T (length v) 0 then 1 else length v).

Definition distanceToSquared (a b : Vector3) : R :=
  let dx := x a - x b in
  let dy := y a - y b in
  let dz := z a - z b in
  dx * dx + dy * dy + dz * dz.

Definition distanceTo (a b : Vector3) : R :=
  sqrt (distanceToSquared a b).

(** [this.x += (v.x - this.x) * alpha], and so on *)
Definition lerp (v target : Vector3) (alpha : R) : Vector3 :=
  mkVector3 (x v + (x target - x v) * alpha)
            (y v + (y target - y v) * alpha)
            (z v + (z target - z v) * alpha).

(** [new THREE.Matrix4().makeBasis(xAxis, yAxis, zAxis)]: the only matrices
    the source builds are bases of three column vectors. *)
Record Matrix4 : Type := makeBasis { xAxis : Vector3; yAxis : Vector3; zAxis : Vector3 }.

(** The quaternion operations of three.js that the source calls.  Their
    bodies involve trigonometry and differ between three.js releases; the
    development holds for any implementation. *)
Class QuaternionOps : Type := {
  Quaternion : Type;
  (** [new THREE.Quaternion()] *)
  identity : Quaternion;
  (** [new THREE.Quaternion().setFromRotationMatrix(m)] *)
  setFromRotationMatrix : Matrix4 -> Quaternion;
  (** [q.slerp(target, t)] *)
  slerp : Quaternion -> Quaternion -> R -> Quaternion
}.

(** The part of a [THREE.Object3D] (the garment mesh) the source touches. *)
Record Object3D `{QuaternionOps} : Type := mkObject3D {
  uuid : string;
  position : Vector3;
  quaternion : Quaternion;
  scale : Vector3
}.

Arguments mkObject3D {_} uuid position quaternion scale.

End THREE.

(** The free implementation: a quaternion is the expression that built it.
    It serves to instantiate the general theorems at concrete inputs. *)
Inductive QuaternionTerm : Type :=
| QIdentity
| QFromMatrix (m : THREE.Matrix4)
| QSlerp (q target : QuaternionTerm) (t : R).

Definition termQuaternions : THREE.QuaternionOps :=
  {| THREE.Quaternion := QuaternionTerm;
     THREE.identity := QIdentity;
     THREE.setFromRotationMatrix := QFromMatrix;
     THREE.slerp := QSlerp |}.

(** ** Keypoints as the pose pipeline hands them over *)

(** The value of a keypoint's [x] slot, as far as [typeof] tells it apart. *)
Inductive Value : Type :=
| VNumber (r : R)
| VUndefined
| VString (s : string).

(** An entry of the keypoint array: [undefined] (also a hole or an index
    past the end), [null], or an object.  An object carries numeric [y], [z]
    and [visibility], as every object built by [extractKeypoints3D] does. *)
Inductive Keypoint : Type :=
| KUndefined
| KNull
| KObject (x : Value) (y z visibility : R).

(** [keypoints[i]] *)
Definition at_index (keypoints : list Keypoint) (i : nat) : Keypoint :=
  default KUndefined (keypoints !! i).

(** JavaScript truthiness of an entry: [!keypoint] is its negation. *)
Definition truthy (keypoint : Keypoint) : bool :=
  match keypoint with
  | KObject _ _ _ _ => true
  | KUndefined | KNull => false
  end.

(** Property reads; reading a property of [null] or [undefined] throws. *)
Definition get_x (keypoint : Keypoint) : completion Value :=
  match keypoint with
  | KObject x _ _ _ => Normal x
  | KUndefined | KNull => Throw TypeError
  end.

Definition get_y (keypoint : Keypoint) : completion R :=
  match keypoint with
  | KObject _ y _ _ => Normal y
  | KUndefined | KNull => Throw TypeError
  end.

Definition get_z (keypoint : Keypoint) : completion R :=
  match keypoint with
  | KObject _ _ z _ => Normal z
  | KUndefined | KNull => Throw TypeError
  end.

(** ClothingFit.keypointToVector3; the [match] on the [x] slot is the test
    [typeof keypoint.x !== 'number']. *)
Definition keypointToVector3 (keypoint : Keypoint) : completion THREE.Vector3 :=
  if negb (truthy keypoint) then Normal THREE.zero
  else
    vx ← get_x keypoint;
    match vx with
    | VNumber x =>
        y ← get_y keypoint;
        z ← get_z keypoint;
        Normal (THREE.mkVector3 x (- y) (- z))
    | VUndefined | VString _ => Normal THREE.zero
    end.

(** ** Decidable comparisons on numbers *)

#[global] Instance Rlt_decision (a b : R) : Decision (a < b) := Rlt_dec a b.
#[global] Instance Rle_decision (a b : R) : Decision (a <= b) := Rle_dec a b.
#[global] Instance Rge_decision (a b : R) : Decision (a >= b) := Rge_dec a b.

(** ** ClothingFit *)

Record BodyMeasurements : Type := mkBodyMeasurements {
  shoulderWidth : R;
  torsoLength : R;
  armLength : R;
  legLength : R;
  hipWidth : R
}.

Record FitQuality : Type := mkFitQuality {
  overall : R;
  shoulders : R;
  torso : R;
  arms : R;
  legs : R
}.

(** The [options] argument of [updateModelFit]; an absent key is [None]. *)
Record Options : Type := mkOptions {
  sizeAdjustment : option R;
  modelType : option string
}.

(** [baseMeasurements.f]: reading a property of a missing object throws. *)
Definition read {A : Type} (baseMeasurements : option BodyMeasurements)
    (f : BodyMeasurements -> A) : completion A :=
  match baseMeasurements with
  | Some b => Normal (f b)
  | None => Throw TypeError
  end.

(** ClothingFit.calculateQualityScore *)
Definition calculateQualityScore (ratio minIdeal maxIdeal : R) : R :=
  if bool_decide (ratio >= minIdeal) && bool_decide (ratio <= maxIdeal) then
    1.0
  else if bool_decide (ratio < minIdeal) then
    let deviation := minIdeal - ratio in
    Rmax 0 (1 - deviation * 2)
  else
    let deviation := ratio - maxIdeal in
    Rmax 0 (1 - deviation * 2).

(** The landmarks a method reads, after conversion. *)
Record Landmarks : Type := mkLandmarks {
  leftShoulder : THREE.Vector3;
  rightShoulder : THREE.Vector3;
  leftHip : THREE.Vector3;
  rightHip : THREE.Vector3;
  leftElbow : THREE.Vector3;
  rightElbow : THREE.Vector3;
  leftWrist : THREE.Vector3;
  rightWrist : THREE.Vector3;
  leftKnee : THREE.Vector3;
  rightKnee : THREE.Vector3;
  leftAnkle : THREE.Vector3;
  rightAnkle : THREE.Vector3
}.

(** The block [const leftShoulder = this.keypointToVector3(keypoints[11]); ...]
    shared by [updateModelFit] and [calculateBodyMeasurements]
    ([checkTpose] reads the first eight of them). *)
Definition getKeyLandmarks (keypoints : list Keypoint) : completion Landmarks :=
  leftShoulder ← keypointToVector3 (at_index keypoints 11);
  rightShoulder ← keypointToVector3 (at_index keypoints 12);
  leftHip ← keypointToVector3 (at_index keypoints 23);
  rightHip ← keypointToVector3 (at_index keypoints 24);
  leftElbow ← keypointToVector3 (at_index keypoints 13);
  rightElbow ← keypointToVector3 (at_index keypoints 14);
  leftWrist ← keypointToVector3 (at_index keypoints 15);
  rightWrist ← keypointToVector3 (at_index keypoints 16);
  leftKnee ← keypointToVector3 (at_index keypoints 25);
  rightKnee ← keypointToVector3 (at_index keypoints 26);
  leftAnkle ← keypointToVector3 (at_index keypoints 27);
  rightAnkle ← keypointToVector3 (at_index keypoints 28);
  Normal (mkLandmarks leftShoulder rightShoulder leftHip rightHip
            leftElbow rightElbow leftWrist rightWrist
            leftKnee rightKnee leftAnkle rightAnkle).

(** [new THREE.Vector3().addVectors(a, b).multiplyScalar(0.5)] *)
Definition midpoint (a b : THREE.Vector3) : THREE.Vector3 :=
  THREE.multiplyScalar (THREE.addVectors a b) 0.5.

(** The measurement assignments of [calculateBodyMeasurements]. *)
Definition measure (l : Landmarks) : BodyMeasurements :=
  let shoulderMidpoint := midpoint (leftShoulder l) (rightShoulder l) in
  let hipMidpoint := midpoint (leftHip l) (rightHip l) in
  let leftArmLength :=
    THREE.distanceTo (leftShoulder l) (leftElbow l)
    + THREE.distanceTo (leftElbow l) (leftWrist l) in
  let rightArmLength :=
    THREE.distanceTo (rightShoulder l) (rightElbow l)
    + THREE.distanceTo (rightElbow l) (rightWrist l) in
  let leftLegLength :=
    THREE.distanceTo (leftHip l) (leftKnee l)
    + THREE.distanceTo (leftKnee l) (leftAnkle l) in
  let rightLegLength :=
    THREE.distanceTo (rightHip l) (rightKnee l)
    + THREE.distanceTo (rightKnee l) (rightAnkle l) in
  {| shoulderWidth := THREE.distanceTo (leftShoulder l) (rightShoulder l);
     hipWidth := THREE.distanceTo (leftHip l) (rightHip l);
     torsoLength := THREE.distanceTo shoulderMidpoint hipMidpoint;
     armLength := (leftArmLength + rightArmLength) / 2;
     legLength := (leftLegLength + rightLegLength) / 2 |}.

(** [!keypoints || keypoints.length < 33], the guard every method opens with;
    [None] is a [null] or [undefined] argument. *)
Definition tooFew (keypoints : option (list Keypoint)) : bool :=
  match keypoints with
  | None => true
  | Some kps => bool_decide (List.length kps < 33)%nat
  end.

Section ClothingFit.

Context {Q : THREE.QuaternionOps}.

(** A garment transform: an entry of [previousTransforms], a solver target,
    or the transform part of what [updateModelFit] returns. *)
Record Transform : Type := mkTransform {
  position : THREE.Vector3;
  rotation : THREE.Quaternion;
  scale : THREE.Vector3
}.

(** The object [updateModelFit] returns:
    [{ position, rotation, scale, fitQuality }]. *)
Record FitResult : Type := mkFitResult {
  applied : Transform;
  resultFitQuality : FitQuality
}.

(** The fields of the [ClothingFit] singleton. *)
Record ClothingFit : Type := mkClothingFit {
  smoothingFactor : R;
  previousTransforms : gmap string Transform;
  userMeasurements : BodyMeasurements;
  isCalibrated : bool;
  fitQuality : FitQuality
}.

(** ClothingFit.constructor *)
Definition constructor : ClothingFit :=
  {| smoothingFactor := 0.8;
     previousTransforms := ∅;
     userMeasurements :=
       {| shoulderWidth := 0; torsoLength := 0; armLength := 0;
          legLength := 0; hipWidth := 0 |};
     isCalibrated := false;
     fitQuality :=
       {| overall := 0; shoulders := 0; torso := 0; arms := 0; legs := 0 |} |}.

Definition set_userMeasurements (this : ClothingFit) (m : BodyMeasurements)
    : ClothingFit :=
  {| smoothingFactor := smoothingFactor this;
     previousTransforms := previousTransforms this;
     userMeasurements := m;
     isCalibrated := isCalibrated this;
     fitQuality := fitQuality this |}.

Definition set_isCalibrated (this : ClothingFit) (b : bool) : ClothingFit :=
  {| smoothingFactor := smoothingFactor this;
     previousTransforms := previousTransforms this;
     userMeasurements := userMeasurements this;
     isCalibrated := b;
     fitQuality := fitQuality this |}.

Definition set_fitQuality (this : ClothingFit) (q : FitQuality) : ClothingFit :=
  {| smoothingFactor := smoothingFactor this;
     previousTransforms := previousTransforms this;
     userMeasurements := userMeasurements this;
     isCalibrated := isCalibrated this;
     fitQuality := q |}.

Definition set_previousTransforms (this : ClothingFit)
    (m : gmap string Transform) : ClothingFit :=
  {| smoothingFactor := smoothingFactor this;
     previousTransforms := m;
     userMeasurements := userMeasurements this;
     isCalibrated := isCalibrated this;
     fitQuality := fitQuality this |}.

(** ClothingFit.calculateBodyMeasurements: returns nothing, mutates
    [this.userMeasurements]. *)
Definition calculateBodyMeasurements (this : ClothingFit)
    (keypoints : option (list Keypoint)) : completion ClothingFit :=
  match keypoints with
  | None => Normal this
  | Some kps =>
      if tooFew (Some kps) then Normal this
      else
        l ← getKeyLandmarks kps;
        Normal (set_userMeasurements this (measure l))
  end.

(** ClothingFit.checkTpose *)
Definition checkTpose (keypoints : option (list Keypoint)) : completion bool :=
  match keypoints with
  | None => Normal false
  | Some kps =>
      if tooFew (Some kps) then Normal false
      else
        leftShoulder ← keypointToVector3 (at_index kps 11);
        rightShoulder ← keypointToVector3 (at_index kps 12);
        leftElbow ← keypointToVector3 (at_index kps 13);
        rightElbow ← keypointToVector3 (at_index kps 14);
        leftWrist ← keypointToVector3 (at_index kps 15);
        rightWrist ← keypointToVector3 (at_index kps 16);
        leftHip ← keypointToVector3 (at_index kps 23);
        rightHip ← keypointToVector3 (at_index kps 24);
        let leftArmVector :=
          THREE.normalize (THREE.subVectors leftWrist leftShoulder) in
        let rightArmVector :=
          THREE.normalize (THREE.subVectors rightWrist rightShoulder) in
        let torsoVector :=
          THREE.normalize
            (THREE.subVectors (midpoint leftShoulder rightShoulder)
                              (midpoint leftHip rightHip)) in
        let leftDot := Rabs (THREE.dot leftArmVector torsoVector) in
        let rightDot := Rabs (THREE.dot rightArmVector torsoVector) in
        let armThreshold := 0.3 in
        Normal (bool_decide (leftDot < armThreshold)
                && bool_decide (rightDot < armThreshold))
  end.

(** ClothingFit.calibrate: the returned boolean and the new [this]. *)
Definition calibrate (this : ClothingFit) (keypoints : option (list Keypoint))
    : completion (bool * ClothingFit) :=
  if tooFew keypoints then Normal (false, this)
  else
    isTpose ← checkTpose keypoints;
    if negb isTpose then Normal (false, this)
    else
      this1 ← calculateBodyMeasurements this keypoints;
      Normal (true, set_isCalibrated this1 true).

(** ClothingFit.calculateFitQuality: returns nothing, replaces
    [this.fitQuality]. *)
Definition calculateFitQuality (this : ClothingFit) (modelType : string)
    (keypoints : option (list Keypoint)) (model : option THREE.Object3D)
    : ClothingFit :=
  match model with
  | None => this
  | Some model =>
      if tooFew keypoints then this
      else
        let m := userMeasurements this in
        let sx := THREE.x (THREE.scale model) in
        let sy := THREE.y (THREE.scale model) in
        if (modelType =? "tshirt")%string || (modelType =? "shirt")%string then
          let shoulderRatio := shoulderWidth m / (sx * 0.4) in
          let shoulders := calculateQualityScore shoulderRatio 0.9 1.1 in
          let torsoRatio := torsoLength m / (sy * 0.6) in
          let torso := calculateQualityScore torsoRatio 0.9 1.1 in
          set_fitQuality this
            {| overall := shoulders * 0.6 + torso * 0.4;
               shoulders := shoulders; torso := torso; arms := 0; legs := 0 |}
        else if (modelType =? "jacket")%string || (modelType =? "hoodie")%string then
          let jacketShoulderRatio := shoulderWidth m / (sx * 0.44) in
          let shoulders := calculateQualityScore jacketShoulderRatio 0.85 1.05 in
          let jacketTorsoRatio := torsoLength m / (sy * 0.63) in
          let torso := calculateQualityScore jacketTorsoRatio 0.85 1.05 in
          let armRatio := armLength m / (sx * 0.7) in
          let arms := calculateQualityScore armRatio 0.9 1.1 in
          set_fitQuality this
            {| overall := shoulders * 0.4 + torso * 0.3 + arms * 0.3;
               shoulders := shoulders; torso := torso; arms := arms; legs := 0 |}
        else if (modelType =? "pants")%string then
          let hipRatio := hipWidth m / (sx * 0.4) in
          let torso := calculateQualityScore hipRatio 0.9 1.1 in
          let legRatio := legLength m / (sy * 0.9) in
          let legs := calculateQualityScore legRatio 0.9 1.1 in
          set_fitQuality this
            {| overall := torso * 0.4 + legs * 0.6;
               shoulders := 0; torso := torso; arms := 0; legs := legs |}
        else
          set_fitQuality this
            {| overall := 0; shoulders := 0; torso := 0; arms := 0; legs := 0 |}
  end.

(** The [switch (modelType)] of [updateModelFit]: the target transform
    [(targetPosition, targetRotation, targetScale)] of the garment category.
    Primed names are the source's locals [shoulderWidth], [torsoLength],
    [hipWidth] and [legLength]. *)
Definition solveTarget (modelType : string) (sizeAdjustment : R)
    (baseMeasurements : option BodyMeasurements) (l : Landmarks)
    : completion Transform :=
  let shoulderMidpoint := midpoint (leftShoulder l) (rightShoulder l) in
  let hipMidpoint := midpoint (leftHip l) (rightHip l) in
  if (modelType =? "tshirt")%string || (modelType =? "shirt")%string then
    let targetPosition := midpoint shoulderMidpoint hipMidpoint in
    let shoulderWidth' := THREE.distanceTo (leftShoulder l) (rightShoulder l) in
    let torsoLength' := THREE.distanceTo shoulderMidpoint hipMidpoint in
    baseShoulderWidth ← read baseMeasurements shoulderWidth;
    let shoulderScale := shoulderWidth' / baseShoulderWidth in
    baseTorsoLength ← read baseMeasurements torsoLength;
    let torsoScale := torsoLength' / baseTorsoLength in
    let targetScale :=
      THREE.mkVector3 (shoulderScale * sizeAdjustment)
                      (torsoScale * sizeAdjustment)
                      ((shoulderScale + torsoScale) / 2 * sizeAdjustment) in
    let shoulderVector :=
      THREE.normalize (THREE.subVectors (rightShoulder l) (leftShoulder l)) in
    let upVector :=
      THREE.normalize (THREE.subVectors shoulderMidpoint hipMidpoint) in
    let forwardVector :=
      THREE.normalize (THREE.crossVectors shoulderVector upVector) in
    let rotationMatrix := THREE.makeBasis shoulderVector upVector forwardVector in
    Normal (mkTransform targetPosition
              (THREE.setFromRotationMatrix rotationMatrix) targetScale)
  else if (modelType =? "jacket")%string || (modelType =? "hoodie")%string then
    let targetPosition := midpoint shoulderMidpoint hipMidpoint in
    let jacketShoulderWidth :=
      THREE.distanceTo (leftShoulder l) (rightShoulder l) in
    let jacketTorsoLength := THREE.distanceTo shoulderMidpoint hipMidpoint in
    baseShoulderWidth ← read baseMeasurements shoulderWidth;
    let jacketShoulderScale := (jacketShoulderWidth / baseShoulderWidth) * 1.1 in
    baseTorsoLength ← read baseMeasurements torsoLength;
    let jacketTorsoScale := (jacketTorsoLength / baseTorsoLength) * 1.05 in
    let targetScale :=
      THREE.mkVector3 (jacketShoulderScale * sizeAdjustment)
                      (jacketTorsoScale * sizeAdjustment)
                      ((jacketShoulderScale + jacketTorsoScale) / 2
                       * sizeAdjustment) in
    let jacketShoulderVector :=
      THREE.normalize (THREE.subVectors (rightShoulder l) (leftShoulder l)) in
    let jacketUpVector :=
      THREE.normalize (THREE.subVectors shoulderMidpoint hipMidpoint) in
    let jacketForwardVector :=
      THREE.normalize (THREE.crossVectors jacketShoulderVector jacketUpVector) in
    let jacketRotationMatrix :=
      THREE.makeBasis jacketShoulderVector jacketUpVector jacketForwardVector in
    Normal (mkTransform targetPosition
              (THREE.setFromRotationMatrix jacketRotationMatrix) targetScale)
  else if (modelType =? "pants")%string then
    let targetPosition := hipMidpoint in
    let hipWidth' := THREE.distanceTo (leftHip l) (rightHip l) in
    let legLength' :=
      (THREE.distanceTo (leftHip l) (leftAnkle l)
       + THREE.distanceTo (rightHip l) (rightAnkle l)) / 2 in
    baseHipWidth ← read baseMeasurements hipWidth;
    let hipScale := hipWidth' / baseHipWidth in
    baseLegLength ← read baseMeasurements legLength;
    let legScale := legLength' / baseLegLength in
    let targetScale :=
      THREE.mkVector3 (hipScale * sizeAdjustment)
                      (legScale * sizeAdjustment)
                      (hipScale * sizeAdjustment) in
    let hipVector :=
      THREE.normalize (THREE.subVectors (rightHip l) (leftHip l)) in
    let legVector :=
      THREE.normalize
        (THREE.subVectors hipMidpoint (midpoint (leftAnkle l) (rightAnkle l))) in
    let pantsForwardVector :=
      THREE.normalize (THREE.crossVectors hipVector legVector) in
    let pantsRotationMatrix :=
      THREE.makeBasis hipVector (THREE.negate legVector) pantsForwardVector in
    Normal (mkTransform targetPosition
              (THREE.setFromRotationMatrix pantsRotationMatrix) targetScale)
  else
    let targetPosition := shoulderMidpoint in
    let targetScale :=
      THREE.multiplyScalar (THREE.mkVector3 1 1 1) sizeAdjustment in
    Normal (mkTransform targetPosition THREE.identity targetScale).

(** The smoothing block of [updateModelFit]: the entry of [modelId] is
    created from the target when the map has none, the mesh's own transform
    is blended toward the target, and the entry receives a copy of it.
    Returns the new map and the new mesh. *)
Definition applySmoothing (smoothingFactor : R)
    (previousTransforms : gmap string Transform)
    (model : THREE.Object3D) (target : Transform)
    : gmap string Transform * THREE.Object3D :=
  let modelId := THREE.uuid model in
  let previousTransforms1 :=
    match previousTransforms !! modelId with
    | Some _ => previousTransforms
    | None => <[modelId := target]> previousTransforms
    end in
  let position' :=
    THREE.lerp (THREE.position model) (position target) (1 - smoothingFactor) in
  let quaternion' :=
    THREE.slerp (THREE.quaternion model) (rotation target)
                (1 - smoothingFactor) in
  let scale' :=
    THREE.lerp (THREE.scale model) (scale target) (1 - smoothingFactor) in
  (<[modelId := mkTransform position' quaternion' scale']> previousTransforms1,
   THREE.mkObject3D modelId position' quaternion' scale').

(** ClothingFit.updateModelFit: the returned value ([None] for [undefined]),
    the new [this] and the mesh after the call. *)
Definition updateModelFit (this : ClothingFit) (model : option THREE.Object3D)
    (keypoints : option (list Keypoint))
    (baseMeasurements : option BodyMeasurements) (options : Options)
    : completion (option FitResult * ClothingFit * option THREE.Object3D) :=
  match model, keypoints with
  | Some model, Some kps =>
      if tooFew (Some kps) then Normal (None, this, Some model)
      else
        let sizeAdjustment := default 1.0 (sizeAdjustment options) in
        let modelType := default "tshirt"%string (modelType options) in
        l ← getKeyLandmarks kps;
        this1 ← calculateBodyMeasurements this (Some kps);
        target ← solveTarget modelType sizeAdjustment baseMeasurements l;
        let '(previousTransforms', model') :=
          applySmoothing (smoothingFactor this1) (previousTransforms this1)
                         model target in
        let this2 := set_previousTransforms this1 previousTransforms' in
        let this3 := calculateFitQuality this2 modelType (Some kps) (Some model') in
        Normal (Some {| applied :=
                          mkTransform (THREE.position model')
                                      (THREE.quaternion model')
                                      (THREE.scale model');
                        resultFitQuality := fitQuality this3 |},
                this3, Some model')
  | _, _ => Normal (None, this, model)
  end.

(** ClothingFit.getMeasurements *)
Definition getMeasurements (this : ClothingFit) : BodyMeasurements :=
  userMeasurements this.

(** ClothingFit.isBodyCalibrated *)
Definition isBodyCalibrated (this : ClothingFit) : bool :=
  isCalibrated this.

(** ClothingFit.setSmoothingFactor *)
Definition setSmoothingFactor (this : ClothingFit) (factor : R) : ClothingFit :=
  {| smoothingFactor := Rmax 0 (Rmin 1 factor);
     previousTransforms := previousTransforms this;
     userMeasurements := userMeasurements this;
     isCalibrated := isCalibrated this;
     fitQuality := fitQuality this |}.

End ClothingFit.

(** ** PoseDetection.extractKeypoints3D *)

Module PoseDetection.

(** A landmark as the pose oracle (MediaPipe) delivers it. *)
Record Landmark : Type := mkLandmark { x : R; y : R; z : R; visibility : R }.

(** The [results] object; [None] is a missing array. *)
Record Results : Type := mkResults {
  poseLandmarks : option (list Landmark);
  poseWorldLandmarks : option (list Landmark)
}.

(** [results.poseWorldLandmarks.map((landmark, i) => ...)], from index [i]
    on; [results.poseLandmarks[i].visibility] throws when the array has no
    entry [i]. *)
Fixpoint mapFrom (i : nat) (poseLandmarks worldLandmarks : list Landmark)
    : completion (list Keypoint) :=
  match worldLandmarks with
  | [] => Normal []
  | landmark :: rest =>
      match poseLandmarks !! i with
      | None => Throw TypeError
      | Some p =>
          let visibility := visibility p in
          keypoints ← mapFrom (S i) poseLandmarks rest;
          Normal (KObject (VNumber (x landmark)) (y landmark) (z landmark)
                          visibility :: keypoints)
      end
  end.

Definition extractKeypoints3D (results : Results) : completion (list Keypoint) :=
  match poseLandmarks results, poseWorldLandmarks results with
  | Some poseLandmarks, Some worldLandmarks =>
      mapFrom 0 poseLandmarks worldLandmarks
  | _, _ => Normal []
  end.

End PoseDetection.

(** ** The application: VirtualTryOn.calibrate and its two timers *)

Section VirtualTryOn.

Context {Q : THREE.QuaternionOps}.

(** The part of the application (and of the singletons it drives) that
    [calibrate] reads or writes. *)
Record VirtualTryOn : Type := mkVirtualTryOn {
  isRunning : bool;
  (** [this.isCalibrated] of the application *)
  appIsCalibrated : bool;
  (** whether [calibrationGuide] carries the class [hidden] *)
  guideHidden : bool;
  (** the last [updateStatus(state, text)] *)
  status : string * string;
  console : list string;
  (** whether the interval timer [checkInterval] is armed *)
  checkInterval : bool;
  (** whether the 10 s timeout is still to fire *)
  timeoutPending : bool;
  (** the [ClothingFit] singleton *)
  clothingFit : ClothingFit;
  (** whether [ModelLoader.currentModel] is set *)
  hasCurrentModel : bool;
  (** [ModelLoader.baseMeasurements] *)
  loaderBaseMeasurements : BodyMeasurements
}.

(** The synchronous part of [VirtualTryOn.calibrate()]: show the guide and
    arm [setInterval(..., 500)] and [setTimeout(..., 10000)]. *)
Definition startCalibration (app : VirtualTryOn) : VirtualTryOn :=
  if negb (isRunning app) then app
  else
    {| isRunning := isRunning app;
       appIsCalibrated := appIsCalibrated app;
       guideHidden := false;
       status := ("initializing", "Calibrating...")%string;
       console := console app;
       checkInterval := true;
       timeoutPending := true;
       clothingFit := clothingFit app;
       hasCurrentModel := hasCurrentModel app;
       loaderBaseMeasurements := loaderBaseMeasurements app |}.

(** The interval callback of [calibrate()]. *)
Definition pollCallback (app : VirtualTryOn) : completion VirtualTryOn :=
  keypoints ← PoseDetection.extractKeypoints3D
                 {| PoseDetection.poseLandmarks := Some [];
                    PoseDetection.poseWorldLandmarks := Some [] |};
  r ← calibrate (clothingFit app) (Some keypoints);
  let '(success, clothingFit') := r in
  if success : bool then
    Normal
      {| isRunning := isRunning app;
         appIsCalibrated := true;
         guideHidden := true;
         status := ("ready", "Calibrated")%string;
         console := console app ++ ["Calibration successful"%string];
         checkInterval := false;
         timeoutPending := timeoutPending app;
         clothingFit := clothingFit';
         hasCurrentModel := hasCurrentModel app;
         loaderBaseMeasurements :=
           if hasCurrentModel app then getMeasurements clothingFit'
           else loaderBaseMeasurements app |}
  else
    Normal
      {| isRunning := isRunning app;
         appIsCalibrated := appIsCalibrated app;
         guideHidden := guideHidden app;
         status := status app;
         console := console app;
         checkInterval := checkInterval app;
         timeoutPending := timeoutPending app;
         clothingFit := clothingFit';
         hasCurrentModel := hasCurrentModel app;
         loaderBaseMeasurements := loaderBaseMeasurements app |}.

(** The timeout callback of [calibrate()]. *)
Definition timeoutCallback (app : VirtualTryOn) : VirtualTryOn :=
  {| isRunning := isRunning app;
     appIsCalibrated := appIsCalibrated app;
     guideHidden := if negb (appIsCalibrated app) then true else guideHidden app;
     status :=
       if negb (appIsCalibrated app) then ("ready", "Ready")%string
       else status app;
     console :=
       if negb (appIsCalibrated app)
       then console app ++ ["Calibration timed out"%string]
       else console app;
     checkInterval := false;
     timeoutPending := false;
     clothingFit := clothingFit app;
     hasCurrentModel := hasCurrentModel app;
     loaderBaseMeasurements := loaderBaseMeasurements app |}.

(** The timers, as events of the browser's event loop: an armed interval
    fires its callback, a cleared one does nothing; the timeout fires once. *)
Inductive TimerEvent : Type :=
| IntervalFires
| TimeoutFires.

Definition fire (app : VirtualTryOn) (e : TimerEvent) : completion VirtualTryOn :=
  match e with
  | IntervalFires => if checkInterval app then pollCallback app else Normal app
  | TimeoutFires =>
      if timeoutPending app then Normal (timeoutCallback app) else Normal app
  end.

Fixpoint run (app : VirtualTryOn) (events : list TimerEvent)
    : completion VirtualTryOn :=
  match events with
  | [] => Normal app
  | e :: rest => app' ← fire app e; run app' rest
  end.

(** The schedule of one [calibrate()] left alone: the interval fires every
    500 ms, [polls] times in all, until the timeout fires at 10 s.  ([polls]
    is 19 or 20 in a browser, by the order it gives the tick and the timeout
    that are both due at 10 s.) *)
Definition pollingSchedule (polls : nat) : list TimerEvent :=
  repeat IntervalFires polls ++ [TimeoutFires].

End VirtualTryOn.

(** ** Notions the statements use *)

(** The vector [keypointToVector3] yields for an entry. *)
Definition vectorOf (keypoint : Keypoint) : THREE.Vector3 :=
  match keypoint with
  | KObject (VNumber x) y z _ => THREE.mkVector3 x (- y) (- z)
  | _ => THREE.zero
  end.

(** The twelve landmarks of a keypoint array, by their fixed indices. *)
Definition landmarksOf (keypoints : list Keypoint) : Landmarks :=
  {| leftShoulder := vectorOf (at_index keypoints 11);
     rightShoulder := vectorOf (at_index keypoints 12);
     leftHip := vectorOf (at_index keypoints 23);
     rightHip := vectorOf (at_index keypoints 24);
     leftElbow := vectorOf (at_index keypoints 13);
     rightElbow := vectorOf (at_index keypoints 14);
     leftWrist := vectorOf (at_index keypoints 15);
     rightWrist := vectorOf (at_index keypoints 16);
     leftKnee := vectorOf (at_index keypoints 25);
     rightKnee := vectorOf (at_index keypoints 26);
     leftAnkle := vectorOf (at_index keypoints 27);
     rightAnkle := vectorOf (at_index keypoints 28) |}.

(** Shoulder-to-wrist arm vectors and the hip-midpoint-to-shoulder-midpoint
    torso vector, before normalisation. *)
Definition leftArm (l : Landmarks) : THREE.Vector3 :=
  THREE.subVectors (leftWrist l) (leftShoulder l).

Definition rightArm (l : Landmarks) : THREE.Vector3 :=
  THREE.subVectors (rightWrist l) (rightShoulder l).

Definition torsoAxis (l : Landmarks) : THREE.Vector3 :=
  THREE.subVectors (midpoint (leftShoulder l) (rightShoulder l))
                   (midpoint (leftHip l) (rightHip l)).

(** The divisor [this.length() || 1] of [normalize]. *)
Definition divisor (v : THREE.Vector3) : R :=
  if Req_dec_T (THREE.length v) 0 then 1 else THREE.length v.

(** [|normalize a . normalize b|] *)
Definition absCosine (a b : THREE.Vector3) : R :=
  Rabs (THREE.dot (THREE.normalize a) (THREE.normalize b)).

(** Distance from [ratio] to the nearest edge of the band [[lo, hi]]. *)
Definition deviation (ratio lo hi : R) : R :=
  Rmin (Rabs (ratio - lo)) (Rabs (ratio - hi)).

(** ** Concrete poses *)

(** A well-formed keypoint in the oracle's coordinates (y grows downward). *)
Definition point (x y z : R) : Keypoint := KObject (VNumber x) y z 1.

(** A 33-entry frame from the twelve landmarks the core reads; the face,
    hand and foot entries are irrelevant and sit at the origin. *)
Definition frame (leftShoulder rightShoulder leftElbow rightElbow
    leftWrist rightWrist leftHip rightHip leftKnee rightKnee
    leftAnkle rightAnkle : Keypoint) : list Keypoint :=
  repeat (point 0 0 0) 11
  ++ [leftShoulder; rightShoulder; leftElbow; rightElbow; leftWrist; rightWrist]
  ++ repeat (point 0 0 0) 6
  ++ [leftHip; rightHip; leftKnee; rightKnee; leftAnkle; rightAnkle]
  ++ repeat (point 0 0 0) 4.

(** Arms stretched out sideways at shoulder height. *)
Definition tposeFrame : list Keypoint :=
  frame (point 0.2 (-0.5) 0) (point (-0.2) (-0.5) 0)
        (point 0.45 (-0.5) 0) (point (-0.45) (-0.5) 0)
        (point 0.7 (-0.5) 0) (point (-0.7) (-0.5) 0)
        (point 0.15 0.1 0) (point (-0.15) 0.1 0)
        (point 0.15 0.5 0) (point (-0.15) 0.5 0)
        (point 0.15 0.9 0) (point (-0.15) 0.9 0).

(** Arms hanging straight down beside the torso. *)
Definition armsDownFrame : list Keypoint :=
  frame (point 0.2 (-0.5) 0) (point (-0.2) (-0.5) 0)
        (point 0.2 (-0.25) 0) (point (-0.2) (-0.25) 0)
        (point 0.2 0 0) (point (-0.2) 0 0)
        (point 0.15 0.1 0) (point (-0.15) 0.1 0)
        (point 0.15 0.5 0) (point (-0.15) 0.5 0)
        (point 0.15 0.9 0) (point (-0.15) 0.9 0).

(** Upper arms sideways, forearms raised at a right angle. *)
Definition bentArmFrame : list Keypoint :=
  frame (point 0.2 (-0.5) 0) (point (-0.2) (-0.5) 0)
        (point 0.5 (-0.5) 0) (point (-0.5) (-0.5) 0)
        (point 0.5 (-0.9) 0) (point (-0.5) (-0.9) 0)
        (point 0.15 0.1 0) (point (-0.15) 0.1 0)
        (point 0.15 0.5 0) (point (-0.15) 0.5 0)
        (point 0.15 0.9 0) (point (-0.15) 0.9 0).

(** The base measurements [ModelLoader] starts with, completed with a hip
    width. *)
Definition defaultBase : BodyMeasurements :=
  {| shoulderWidth := 0.4; torsoLength := 0.6; armLength := 0.7;
     legLength := 0.9; hipWidth := 0.35 |}.

(** A freshly loaded mesh: at the origin, unrotated, unit scale. *)
Definition freshMesh : @THREE.Object3D termQuaternions :=
  @THREE.mkObject3D termQuaternions
    "mesh-1"%string THREE.zero QIdentity (THREE.mkVector3 1 1 1).

(** [updateModelFit] called without [options]. *)
Definition noOptions : Options :=
  {| sizeAdjustment := None; modelType := None |}.

(** The application once started: running, not calibrated, a mesh loaded,
    no timer armed. *)
Definition runningApp : @VirtualTryOn termQuaternions :=
  {| isRunning := true;
     appIsCalibrated := false;
     guideHidden := true;
     status := ("ready", "Ready")%string;
     console := [];
     checkInterval := false;
     timeoutPending := false;
     clothingFit := constructor;
     hasCurrentModel := true;
     loaderBaseMeasurements := defaultBase |}.

(** ** Call sequences on the ClothingFit singleton *)

Section Calls.

Context {Q : THREE.QuaternionOps}.

(** A call of one of the state-changing methods of [ClothingFit], with its
    arguments. *)
Inductive Call : Type :=
| CallUpdateModelFit (model : option THREE.Object3D)
    (keypoints : option (list Keypoint))
    (baseMeasurements : option BodyMeasurements) (options : Options)
| CallCalculateBodyMeasurements (keypoints : option (list Keypoint))
| CallCalibrate (keypoints : option (list Keypoint))
| CallCalculateFitQuality (modelType : string)
    (keypoints : option (list Keypoint)) (model : option THREE.Object3D)
| CallSetSmoothingFactor (factor : R).

(** The state a call leaves behind. *)
Definition perform (this : ClothingFit) (c : Call) : completion ClothingFit :=
  match c with
  | CallUpdateModelFit model keypoints baseMeasurements options =>
      r ← updateModelFit this model keypoints baseMeasurements options;
      Normal r.1.2
  | CallCalculateBodyMeasurements keypoints =>
      calculateBodyMeasurements this keypoints
  | CallCalibrate keypoints =>
      r ← calibrate this keypoints;
      Normal r.2
  | CallCalculateFitQuality modelType keypoints model =>
      Normal (calculateFitQuality this modelType keypoints model)
  | CallSetSmoothingFactor factor =>
      Normal (setSmoothingFactor this factor)
  end.

Fixpoint performAll (this : ClothingFit) (calls : list Call)
    : completion ClothingFit :=
  match calls with
  | [] => Normal this
  | c :: rest => this' ← perform this c; performAll this' rest
  end.

(** [updateModelFit] called [n] times in a row on the same mesh with the
    same arguments, as for a user who stands still: the final state and
    mesh. *)
Fixpoint fitTimes (n : nat) (this : ClothingFit) (model : THREE.Object3D)
    (keypoints : option (list Keypoint))
    (baseMeasurements : option BodyMeasurements) (options : Options)
    : completion (ClothingFit * THREE.Object3D) :=
  match n with
  | O => Normal (this, model)
  | S n' =>
      r ← updateModelFit this (Some model) keypoints baseMeasurements options;
      fitTimes n' r.1.2 (default model r.2) keypoints baseMeasurements options
  end.

End Calls.

(** [0 <= r <= 1] *)
Definition inUnit (r : R) : Prop := 0 <= r <= 1.



(** [m] lies between [a] and [b], whichever of the two is larger. *)
Definition between (a m b : R) : Prop := Rmin a b <= m <= Rmax a b.

Definition betweenVectors (a m b : THREE.Vector3) : Prop :=
  between (THREE.x a) (THREE.x m) (THREE.x b)
  /\ between (THREE.y a) (THREE.y m) (THREE.y b)
  /\ between (THREE.z a) (THREE.z m) (THREE.z b).

(** The five category names [updateModelFit] knows. *)
Definition knownCategory (modelType : string) : Prop :=
  modelType ∈ ["tshirt"; "shirt"; "jacket"; "hoodie"; "pants"]%string.

(** ** What every reachable state of the singleton satisfies *)

Section StateInvariant.

Context {Q : THREE.QuaternionOps}.


End StateInvariant.

(** ** Moving and resizing a pose *)

(** A well-formed entry: an object with a numeric [x]. *)
Definition wellFormed (keypoint : Keypoint) : Prop :=
  match keypoint with
  | KObject (VNumber _) _ _ _ => True
  | _ => False
  end.

(** The entry of a user standing [(dx, dy, dz)] further along the oracle's
    axes; entries that are not well formed carry no position to move. *)
Definition translate (dx dy dz : R) (keypoint : Keypoint) : Keypoint :=
  match keypoint with
  | KObject (VNumber x) y z v => KObject (VNumber (x + dx)) (y + dy) (z + dz) v
  | _ => keypoint
  end.

(** The entry of a pose magnified by [c] about the oracle's origin. *)
Definition magnify (c : R) (keypoint : Keypoint) : Keypoint :=
  match keypoint with
  | KObject (VNumber x) y z v => KObject (VNumber (x * c)) (y * c) (z * c) v
  | _ => keypoint
  end.

(** The same map applied to each of the twelve landmarks. *)
Definition mapLandmarks (f : THREE.Vector3 -> THREE.Vector3) (l : Landmarks)
    : Landmarks :=
  {| leftShoulder := f (leftShoulder l); rightShoulder := f (rightShoulder l);
     leftHip := f (leftHip l); rightHip := f (rightHip l);
     leftElbow := f (leftElbow l); rightElbow := f (rightElbow l);
     leftWrist := f (leftWrist l); rightWrist := f (rightWrist l);
     leftKnee := f (leftKnee l); rightKnee := f (rightKnee l);
     leftAnkle := f (leftAnkle l); rightAnkle := f (rightAnkle l) |}.

(** All five measurements multiplied by [c]. *)
Definition scaleMeasurements (c : R) (m : BodyMeasurements) : BodyMeasurements :=
  {| shoulderWidth := c * shoulderWidth m; torsoLength := c * torsoLength m;
     armLength := c * armLength m; legLength := c * legLength m;
     hipWidth := c * hipWidth m |}.

(** The keypoint [extractKeypoints3D] builds from a world landmark and the
    image landmark of the same index. *)
Definition pairLandmarks (world pose : PoseDetection.Landmark) : Keypoint :=
  KObject (VNumber (PoseDetection.x world)) (PoseDetection.y world)
          (PoseDetection.z world) (PoseDetection.visibility pose).

(** ** SceneManager: the children of the scene

    The scene graph is one [THREE.Scene] whose children are the lights and
    the garment; an object is told from another by its identity (its uuid),
    and [isLight] is the flag three.js sets on lights.  [THREE.Object3D.add]
    detaches the object from its parent before appending it, and
    [THREE.Object3D.remove] splices out the first occurrence. *)

Module SceneManager.

Record Object3D : Type := mkObject { uuid : string; isLight : bool }.

#[global] Instance Object3D_eq_dec : EqDecision Object3D.
Proof. solve_decision. Defined.

(** [scene.remove(object)] *)
Fixpoint remove (object : Object3D) (children : list Object3D)
    : list Object3D :=
  match children with
  | [] => []
  | child :: rest =>
      if decide (child = object) then rest else child :: remove object rest
  end.

(** [scene.add(object)] *)
Definition add (object : Object3D) (children : list Object3D)
    : list Object3D :=
  remove object children ++ [object].

(** SceneManager.addObject; the scene is [None] before [initialize], the
    object is [None] for [null] or [undefined]. *)
Definition addObject (scene : option (list Object3D))
    (object : option Object3D) : option (list Object3D) :=
  match scene, object with
  | Some children, Some object => Some (add object children)
  | _, _ => scene
  end.

(** SceneManager.removeObject *)
Definition removeObject (scene : option (list Object3D))
    (object : option Object3D) : option (list Object3D) :=
  match scene, object with
  | Some children, Some object => Some (remove object children)
  | _, _ => scene
  end.

(** The three lights of SceneManager.setupLights. *)
Definition ambientLight : Object3D := mkObject "ambientLight" true.
Definition directionalLight : Object3D := mkObject "directionalLight" true.
Definition fillLight : Object3D := mkObject "fillLight" true.

(** SceneManager.setupLights *)
Definition setupLights (children : list Object3D) : list Object3D :=
  add fillLight (add directionalLight (add ambientLight children)).

(** The body of the [while] loop of SceneManager.clearScene, on a non-empty
    list of children whose first is [object]. *)
Definition clearStep (object : Object3D) (children : list Object3D)
    : list Object3D :=
  if isLight object then add object (remove object children)
  else remove object children.

(** The loop [while (this.scene.children.length > 0) ...] of clearScene,
    run for at most [fuel] iterations: [Some] of the children it ends with,
    [None] when the loop is still running after [fuel] iterations. *)
Fixpoint clearLoop (fuel : nat) (children : list Object3D)
    : option (list Object3D) :=
  match children with
  | [] => Some []
  | object :: _ =>
      match fuel with
      | O => None
      | S fuel' => clearLoop fuel' (clearStep object children)
      end
  end.

End SceneManager.

(** ** ModelLoader

    A JavaScript object used as a map (the URL table, the model cache, the
    base measurements) is a finite map from its own keys; names inherited
    from [Object.prototype] are not looked up.  The network is an argument:
    for each URL the root object of the asset it serves, or [None] when the
    load fails.  The loader's awaits are taken as one step, and of the
    loading overlay only its visibility is kept.  The network is a function
    of the URL: two loads of one URL during one call give the same object. *)

Module ModelLoader.

Definition Network : Type := string -> option SceneManager.Object3D.

Definition tshirtUrl : string :=
  "https://res.cloudinary.com/customxshop/image/upload/v1744037917/CustomXShop/l4plnsl7o5r6qqxotasx.glb".

(** [this.modelUrls] *)
Definition modelUrls : gmap string string :=
  list_to_map
    [("tshirt", tshirtUrl);
     ("shirt", "https://res.cloudinary.com/customxshop/image/upload/v1744041431/check_shirt.compressed_u3k3bc.glb");
     ("jacket", "https://res.cloudinary.com/customxshop/image/upload/v1744041395/jacket.compressed_xfe0sv.glb");
     ("hoodie", "https://res.cloudinary.com/customxshop/image/upload/v1744041395/hoodie.compressed.glb");
     ("polo", "https://res.cloudinary.com/customxshop/image/upload/v1744041395/polo_shirt.compressed.glb");
     ("sweater", "https://res.cloudinary.com/customxshop/image/upload/v1744041395/sweater.compressed.glb");
     ("necklace", "https://res.cloudinary.com/customxshop/image/upload/v1744041395/necklace.compressed.glb");
     ("scarf", "https://res.cloudinary.com/customxshop/image/upload/v1744041395/scarf.compressed.glb")]%string.

(** The fields of the [ModelLoader] singleton. *)
Record t : Type := mk {
  models : gmap string SceneManager.Object3D;
  currentModel : option SceneManager.Object3D;
  isLoading : bool;
  (** [None] until [initialize] hands over the overlay element, then
      whether the overlay is displayed *)
  loadingOverlay : option bool;
  baseMeasurements : gmap string R
}.

(** ModelLoader.constructor *)
Definition constructor : t :=
  {| models := ∅;
     currentModel := None;
     isLoading := false;
     loadingOverlay := None;
     baseMeasurements :=
       list_to_map [("shoulderWidth", 0.4); ("torsoLength", 0.6);
                    ("armLength", 0.7); ("legLength", 0.9)]%string |}.

(** ModelLoader.showLoadingOverlay and hideLoadingOverlay, on the
    overlay. *)
Definition showLoadingOverlay (overlay : option bool) : option bool :=
  match overlay with
  | Some _ => Some true
  | None => None
  end.

Definition hideLoadingOverlay (overlay : option bool) : option bool :=
  match overlay with
  | Some _ => Some false
  | None => None
  end.

(** ModelLoader.loadGLTF: the asset of [url], or after a failure the asset
    of the fallback URL unless [url] is the fallback URL itself; [None] when
    the promise is rejected. *)
Definition loadGLTF (net : Network) (url : string)
    : option SceneManager.Object3D :=
  let fallbackUrl := tshirtUrl in
  match net url with
  | Some gltf => Some gltf
  | None => if negb (url =? fallbackUrl)%string then net fallbackUrl else None
  end.

(** How a call of [loadModel] ends: with the model, with the error
    'Model type ... not found', or with the error of the load. *)
Inductive Outcome : Type :=
| Loaded (model : SceneManager.Object3D)
| NotFound
| LoadFailed.

(** ModelLoader.loadModel *)
Definition loadModel (this : t) (net : Network) (modelType : string)
    : Outcome * t :=
  match modelUrls !! modelType with
  | None => (NotFound, this)
  | Some url =>
      match models this !! modelType with
      | Some cached =>
          (Loaded cached,
           {| models := models this;
              currentModel := Some cached;
              isLoading := false;
              loadingOverlay :=
                hideLoadingOverlay (showLoadingOverlay (loadingOverlay this));
              baseMeasurements := baseMeasurements this |})
      | None =>
          match loadGLTF net url with
          | Some model =>
              (Loaded model,
               {| models := <[modelType := model]> (models this);
                  currentModel := Some model;
                  isLoading := false;
                  loadingOverlay :=
                    hideLoadingOverlay
                      (showLoadingOverlay (loadingOverlay this));
                  baseMeasurements := baseMeasurements this |})
          | None =>
              (LoadFailed,
               {| models := models this;
                  currentModel := currentModel this;
                  isLoading := false;
                  loadingOverlay :=
                    showLoadingOverlay
                      (showLoadingOverlay (loadingOverlay this));
                  baseMeasurements := baseMeasurements this |})
          end
      end
  end.

(** ModelLoader.preloadAllModels: every type whose load succeeds is stored,
    the others are skipped. *)
Definition preloadAllModels (this : t) (net : Network) : t :=
  {| models := omap (loadGLTF net) modelUrls ∪ models this;
     currentModel := currentModel this;
     isLoading := isLoading this;
     loadingOverlay :=
       hideLoadingOverlay (showLoadingOverlay (loadingOverlay this));
     baseMeasurements := baseMeasurements this |}.

(** ModelLoader.getBaseMeasurements *)
Definition getBaseMeasurements (this : t) : gmap string R :=
  baseMeasurements this.

(** ModelLoader.updateBaseMeasurements:
    [{ ...this.baseMeasurements, ...measurements }] *)
Definition updateBaseMeasurements (this : t) (measurements : gmap string R)
    : t :=
  {| models := models this;
     currentModel := currentModel this;
     isLoading := isLoading this;
     loadingOverlay := loadingOverlay this;
     baseMeasurements := measurements ∪ baseMeasurements this |}.

End ModelLoader.

(** ** The application: loading and changing the garment *)

Module TryOn.

(** What the application and its singletons hold about the garment: the
    scene, the loader and [this.currentModelType]. *)
Record t : Type := mk {
  scene : option (list SceneManager.Object3D);
  loader : ModelLoader.t;
  currentModelType : string
}.

(** What lies outside: the network, and whether
    [Customization.applyAllSettings] returns normally on a model. *)
Record Env : Type := mkEnv {
  net : ModelLoader.Network;
  settingsApply : SceneManager.Object3D -> bool
}.

(** VirtualTryOn.loadModel: the returned boolean and the new state. *)
Definition loadModel (app : t) (env : Env) (modelType : string) : bool * t :=
  let scene1 :=
    SceneManager.removeObject (scene app)
      (ModelLoader.currentModel (loader app)) in
  match ModelLoader.loadModel (loader app) (net env) modelType with
  | (ModelLoader.Loaded model, loader') =>
      let scene2 := SceneManager.addObject scene1 (Some model) in
      if settingsApply env model
      then (true, {| scene := scene2; loader := loader';
                     currentModelType := modelType |})
      else (false, {| scene := scene2; loader := loader';
                      currentModelType := currentModelType app |})
  | (_, loader') =>
      (false, {| scene := scene1; loader := loader';
                 currentModelType := currentModelType app |})
  end.

(** [modelTypes.indexOf(type)], with [None] for -1 *)
Fixpoint indexOf (modelTypes : list string) (type : string) : option nat :=
  match modelTypes with
  | [] => None
  | first :: rest =>
      if (first =? type)%string then Some O
      else S <$> indexOf rest type
  end.

(** VirtualTryOn.openModelSelection *)
Definition openModelSelection (app : t) (env : Env) : t :=
  let modelTypes := ["tshirt"; "jacket"; "hoodie"; "shirt"; "pants"]%string in
  let nextIndex :=
    match indexOf modelTypes (currentModelType app) with
    | Some currentIndex => (currentIndex + 1) mod List.length modelTypes
    | None => O
    end%nat in
  let nextModelType := default ""%string (modelTypes !! nextIndex) in
  (loadModel app env nextModelType).2.

(** The change-model button pressed [n] times, each load finishing before
    the next press. *)
Fixpoint press (n : nat) (app : t) (env : Env) : t :=
  match n with
  | O => app
  | S n' => press n' (openModelSelection app env) env
  end.



(** VirtualTryOn.loadCustomModel: [None] when it throws (the load failed),
    else the model it returns; and the new state. *)
Definition loadCustomModel (app : t) (net : ModelLoader.Network)
    (url : string) : option SceneManager.Object3D * t :=
  match ModelLoader.loadGLTF net url with
  | Some model =>
      (Some model,
       {| scene :=
            SceneManager.addObject
              (SceneManager.removeObject (scene app)
                 (ModelLoader.currentModel (loader app)))
              (Some model);
          loader :=
            {| ModelLoader.models := ModelLoader.models (loader app);
               ModelLoader.currentModel := Some model;
               ModelLoader.isLoading := ModelLoader.isLoading (loader app);
               ModelLoader.loadingOverlay :=
                 ModelLoader.loadingOverlay (loader app);
               ModelLoader.baseMeasurements :=
                 ModelLoader.baseMeasurements (loader app) |};
          currentModelType := currentModelType app |})
  | None => (None, app)
  end.

(** A call that changes the garment, with the network (and the settings)
    as they are during the call. *)
Inductive Call : Type :=
| CallLoadModel (env : Env) (modelType : string)
| CallOpenModelSelection (env : Env)
| CallLoadCustomModel (net : ModelLoader.Network) (url : string).

Definition perform (app : t) (call : Call) : t :=
  match call with
  | CallLoadModel env modelType => (loadModel app env modelType).2
  | CallOpenModelSelection env => openModelSelection app env
  | CallLoadCustomModel net url => (loadCustomModel app net url).2
  end.

Definition performAll (app : t) (calls : list Call) : t :=
  foldl perform app calls.


End TryOn.

(** ** PoseDetection: the detector object and its methods

    The fields are kept under the names the source reads and writes them
    by.  An element, context, camera or detector handle is kept as whether
    the field holds an object ([false] for [null] or [undefined]); a
    callback is kept by a name.  The frame counter, the fps, the two clock
    readings and [this.poses] are left out: no method branches on them.  What a method
    does to the outside world is the list of events it returns.  The awaits
    of [start] are taken as one step; the camera permission and the
    outcome of the MediaPipe set-up are arguments. *)

Module Detection.

Inductive OptionValue : Type :=
| ONumber (value : R)
| OBoolean (value : bool).

Inductive Event : Type :=
(** [this.onPoseDetectedCallback(keypoints3D)] *)
| CallbackCalled (callback : string) (keypoints3D : list Keypoint)
(** the landmarks drawn on [this.canvas] *)
| Drawn
(** [this.camera.start()], [this.camera.stop()] *)
| CameraStart
| CameraStop
(** [this.detector.setOptions({ name: value })] *)
| SetOptions (name : string) (value : OptionValue)
(** the [alert] of a refused camera permission *)
| Alert.

Record t : Type := mk {
  detector : bool;
  canvas : bool;
  ctx : bool;
  isRunning : bool;
  onPoseDetectedCallback : option string;
  camera : bool;
  isInitialized : bool;
  detectionConfidence : R;
  trackingConfidence : R;
  enableSmoothing : bool;
  modelType : string;
  (** the fields [initialize] adds *)
  videoElement : bool;
  canvasElement : bool;
  onPoseCallback : option string;
  canvasCtx : bool
}.

(** PoseDetection.constructor *)
Definition constructor : t :=
  {| detector := false; canvas := false; ctx := false; isRunning := false;
     onPoseDetectedCallback := None; camera := false;
     isInitialized := false;
     detectionConfidence := 0.7; trackingConfidence := 0.7;
     enableSmoothing := true; modelType := "full";
     videoElement := false; canvasElement := false; onPoseCallback := None;
     canvasCtx := false |}.

Definition set_isRunning (this : t) (value : bool) : t :=
  {| detector := detector this; canvas := canvas this; ctx := ctx this;
     isRunning := value;
     onPoseDetectedCallback := onPoseDetectedCallback this;
     camera := camera this; isInitialized := isInitialized this;
     detectionConfidence := detectionConfidence this;
     trackingConfidence := trackingConfidence this;
     enableSmoothing := enableSmoothing this; modelType := modelType this;
     videoElement := videoElement this; canvasElement := canvasElement this;
     onPoseCallback := onPoseCallback this; canvasCtx := canvasCtx this |}.

(** PoseDetection.start.  [permission] is [None] when the browser has no
    [navigator.mediaDevices.getUserMedia], else whether the user grants the
    camera; [cameraStarts] is whether [this.camera.start()] resolves when
    there is a camera.  Calling [start] on [null] throws inside the [try],
    so the [catch] resets [isRunning]. *)
Definition start (this : t) (permission : option bool) (cameraStarts : bool)
    : t * list Event :=
  if isRunning this then (this, [])
  else
    match permission with
    | Some false => (this, [Alert])
    | _ =>
        if camera this
        then (set_isRunning this cameraStarts, [CameraStart])
        else (set_isRunning this false, [])
    end.

(** PoseDetection.initialize.  [setupOk] is whether the MediaPipe set-up
    ([new Pose], [setOptions], [onResults]) completes without throwing;
    [autoStart] is [VirtualTryOn.Config.poseDetection.autoStart === true]. *)
Definition initialize (this : t) (videoElement' canvasElement' : bool)
    (callback : option string) (setupOk autoStart : bool)
    (permission : option bool) (cameraStarts : bool)
    : bool * t * list Event :=
  if isInitialized this then (true, this, [])
  else
    let stored (isInitialized' : bool) :=
      {| detector := detector this; canvas := canvas this; ctx := ctx this;
         isRunning := isRunning this;
         onPoseDetectedCallback := onPoseDetectedCallback this;
         camera := camera this; isInitialized := isInitialized';
         detectionConfidence := detectionConfidence this;
         trackingConfidence := trackingConfidence this;
         enableSmoothing := enableSmoothing this;
         modelType := modelType this;
         videoElement := videoElement'; canvasElement := canvasElement';
         onPoseCallback := callback;
         canvasCtx := if canvasElement' then true else canvasCtx this |} in
    if setupOk
    then
      if autoStart
      then let '(this', events) :=
             start (stored true) permission cameraStarts in
           (true, this', events)
      else (true, stored true, [])
    else (false, stored false, []).

(** PoseDetection.stop *)
Definition stop (this : t) : t * list Event :=
  (set_isRunning this false, if camera this then [CameraStop] else []).

(** PoseDetection.onResults: the events up to the end of the call or to the
    exception, and how the call completes.  It writes none of the fields
    kept here. *)
Definition onResults (this : t) (results : option PoseDetection.Results)
    : list Event * completion unit :=
  match results with
  | None => ([], Normal tt)
  | Some results =>
      match PoseDetection.poseLandmarks results with
      | None => ([], Normal tt)
      | Some _ =>
          let drawn := if ctx this && canvas this then [Drawn] else [] in
          match PoseDetection.extractKeypoints3D results with
          | Throw e => (drawn, Throw e)
          | Normal keypoints3D =>
              (drawn ++ match onPoseDetectedCallback this with
                        | Some callback => [CallbackCalled callback keypoints3D]
                        | None => []
                        end,
               Normal tt)
          end
      end
  end.

(** PoseDetection.isDetecting *)
Definition isDetecting (this : t) : bool := isRunning this.

(** PoseDetection.setDetectionConfidence *)
Definition setDetectionConfidence (this : t) (confidence : R)
    : t * list Event :=
  let value := Rmax 0 (Rmin 1 confidence) in
  ({| detector := detector this; canvas := canvas this; ctx := ctx this;
      isRunning := isRunning this;
      onPoseDetectedCallback := onPoseDetectedCallback this;
      camera := camera this; isInitialized := isInitialized this;
      detectionConfidence := value;
      trackingConfidence := trackingConfidence this;
      enableSmoothing := enableSmoothing this; modelType := modelType this;
      videoElement := videoElement this; canvasElement := canvasElement this;
      onPoseCallback := onPoseCallback this; canvasCtx := canvasCtx this |},
   if detector this
   then [SetOptions "minDetectionConfidence" (ONumber value)] else []).

(** PoseDetection.setTrackingConfidence *)
Definition setTrackingConfidence (this : t) (confidence : R)
    : t * list Event :=
  let value := Rmax 0 (Rmin 1 confidence) in
  ({| detector := detector this; canvas := canvas this; ctx := ctx this;
      isRunning := isRunning this;
      onPoseDetectedCallback := onPoseDetectedCallback this;
      camera := camera this; isInitialized := isInitialized this;
      detectionConfidence := detectionConfidence this;
      trackingConfidence := value;
      enableSmoothing := enableSmoothing this; modelType := modelType this;
      videoElement := videoElement this; canvasElement := canvasElement this;
      onPoseCallback := onPoseCallback this; canvasCtx := canvasCtx this |},
   if detector this
   then [SetOptions "minTrackingConfidence" (ONumber value)] else []).

(** PoseDetection.setSmoothing *)
Definition setSmoothing (this : t) (enable : bool) : t * list Event :=
  ({| detector := detector this; canvas := canvas this; ctx := ctx this;
      isRunning := isRunning this;
      onPoseDetectedCallback := onPoseDetectedCallback this;
      camera := camera this; isInitialized := isInitialized this;
      detectionConfidence := detectionConfidence this;
      trackingConfidence := trackingConfidence this;
      enableSmoothing := enable; modelType := modelType this;
      videoElement := videoElement this; canvasElement := canvasElement this;
      onPoseCallback := onPoseCallback this; canvasCtx := canvasCtx this |},
   if detector this
   then [SetOptions "smoothLandmarks" (OBoolean enable)] else []).

(** The [switch] of PoseDetection.setModelComplexity *)
Definition complexity (type : string) : R :=
  if (type =? "lite")%string then 0
  else if (type =? "full")%string then 1
  else if (type =? "heavy")%string then 2
  else 1.

(** PoseDetection.setModelComplexity *)
Definition setModelComplexity (this : t) (type : string) : t * list Event :=
  ({| detector := detector this; canvas := canvas this; ctx := ctx this;
      isRunning := isRunning this;
      onPoseDetectedCallback := onPoseDetectedCallback this;
      camera := camera this; isInitialized := isInitialized this;
      detectionConfidence := detectionConfidence this;
      trackingConfidence := trackingConfidence this;
      enableSmoothing := enableSmoothing this; modelType := type;
      videoElement := videoElement this; canvasElement := canvasElement this;
      onPoseCallback := onPoseCallback this; canvasCtx := canvasCtx this |},
   if detector this
   then [SetOptions "modelComplexity" (ONumber (complexity type))] else []).

(** A call of one of the methods from outside, with what the outside
    decides during the call. *)
Inductive Call : Type :=
| CallInitialize (videoElement canvasElement : bool)
    (callback : option string) (setupOk autoStart : bool)
    (permission : option bool) (cameraStarts : bool)
| CallStart (permission : option bool) (cameraStarts : bool)
| CallStop
| CallOnResults (results : option PoseDetection.Results)
| CallSetDetectionConfidence (confidence : R)
| CallSetTrackingConfidence (confidence : R)
| CallSetSmoothing (enable : bool)
| CallSetModelComplexity (type : string).

Definition perform (this : t) (call : Call) : t * list Event :=
  match call with
  | CallInitialize videoElement canvasElement callback setupOk autoStart
                   permission cameraStarts =>
      let '(_, this', events) :=
        initialize this videoElement canvasElement callback setupOk
                   autoStart permission cameraStarts in
      (this', events)
  | CallStart permission cameraStarts => start this permission cameraStarts
  | CallStop => stop this
  | CallOnResults results => (this, (onResults this results).1)
  | CallSetDetectionConfidence confidence =>
      setDetectionConfidence this confidence
  | CallSetTrackingConfidence confidence =>
      setTrackingConfidence this confidence
  | CallSetSmoothing enable => setSmoothing this enable
  | CallSetModelComplexity type => setModelComplexity this type
  end.

(** The calls one after the other: the final object and all events. *)
Fixpoint performAll (this : t) (calls : list Call) : t * list Event :=
  match calls with
  | [] => (this, [])
  | call :: rest =>
      let '(this', events) := perform this call in
      let '(this'', events') := performAll this' rest in
      (this'', events ++ events')
  end.


End Detection.

(** ** Customization: the current settings

    Of a model only whether it is there is kept ([false] for [null] or
    [undefined]); the traversal that writes the settings into the model's
    materials is taken to complete and is left out, as is
    [model.userData.sizeAdjustment].  The colour and texture tables are kept
    by their own keys. *)

Module Customization.

(** The keys of [this.colors] and of [this.textures] *)
Definition colors : list string :=
  ["black"; "white"; "red"; "blue"; "green"; "yellow"; "purple";
   "orange"]%string.

Definition textures : list string :=
  ["solid"; "denim"; "leather"; "cotton"]%string.

(** [this.currentSettings] *)
Record Settings : Type := mkSettings {
  color : string;
  texture : string;
  opacity : R;
  size : R
}.

(** The settings the constructor and [resetModel] write. *)
Definition constructor : Settings :=
  {| color := "black"; texture := "solid"; opacity := 1.0; size := 1.0 |}.

(** Customization.applyColor *)
Definition applyColor (this : Settings) (model : bool) (colorName : string)
    : bool * Settings :=
  if negb model || negb (bool_decide (colorName ∈ colors))
  then (false, this)
  else (true, {| color := colorName; texture := texture this;
                 opacity := opacity this; size := size this |}).

(** Customization.applyTexture *)
Definition applyTexture (this : Settings) (model : bool)
    (textureName : string) : bool * Settings :=
  if negb model || negb (bool_decide (textureName ∈ textures))
  then (false, this)
  else (true, {| color := color this; texture := textureName;
                 opacity := opacity this; size := size this |}).

(** Customization.applyOpacity *)
Definition applyOpacity (this : Settings) (model : bool) (opacity' : R)
    : bool * Settings :=
  if negb model || bool_decide (opacity' < 0) || bool_decide (opacity' > 1)
  then (false, this)
  else (true, {| color := color this; texture := texture this;
                 opacity := Rmax 0 (Rmin 1 opacity'); size := size this |}).

(** Customization.applySizeAdjustment *)
Definition applySizeAdjustment (this : Settings) (model : bool)
    (sizeAdjustment : R) : bool * Settings :=
  if negb model || bool_decide (sizeAdjustment <= 0)
  then (false, this)
  else (true, {| color := color this; texture := texture this;
                 opacity := opacity this;
                 size := Rmax 0.5 (Rmin 2.0 sizeAdjustment) |}).

(** Customization.resetModel *)
Definition resetModel (this : Settings) (model : bool) : bool * Settings :=
  if negb model then (false, this) else (true, constructor).

(** Customization.applyAllSettings: each call reads the settings as the
    call before it left them. *)
Definition applyAllSettings (this : Settings) (model : bool)
    : bool * Settings :=
  if negb model then (false, this)
  else
    let this1 := (applyColor this model (color this)).2 in
    let this2 := (applyTexture this1 model (texture this1)).2 in
    let this3 := (applyOpacity this2 model (opacity this2)).2 in
    let this4 := (applySizeAdjustment this3 model (size this3)).2 in
    (true, this4).

(** A call from outside. *)
Inductive Call : Type :=
| CallApplyColor (model : bool) (colorName : string)
| CallApplyTexture (model : bool) (textureName : string)
| CallApplyOpacity (model : bool) (opacity : R)
| CallApplySizeAdjustment (model : bool) (sizeAdjustment : R)
| CallResetModel (model : bool)
| CallApplyAllSettings (model : bool).

Definition perform (this : Settings) (call : Call) : bool * Settings :=
  match call with
  | CallApplyColor model colorName => applyColor this model colorName
  | CallApplyTexture model textureName => applyTexture this model textureName
  | CallApplyOpacity model opacity => applyOpacity this model opacity
  | CallApplySizeAdjustment model sizeAdjustment =>
      applySizeAdjustment this model sizeAdjustment
  | CallResetModel model => resetModel this model
  | CallApplyAllSettings model => applyAllSettings this model
  end.

Definition performAll (this : Settings) (calls : list Call) : Settings :=
  foldl (fun this call => (perform this call).2) this calls.


End Customization.

(** * Properties *)

(** ** Vectors *)

Lemma sqrt_of_square (c e : R) : 0 <= c -> e = c * c -> sqrt e = c.
Proof.
  intros Hc ->. now apply sqrt_square.
Qed.

Lemma sumsq_nonneg (a b c : R) : 0 <= a * a + b * b + c * c.
Proof. nra. Qed.

Lemma length_nonneg (v : THREE.Vector3) : 0 <= THREE.length v.
Proof. apply sqrt_pos. Qed.

Lemma distanceTo_nonneg (a b : THREE.Vector3) : 0 <= THREE.distanceTo a b.
Proof. apply sqrt_pos. Qed.

Lemma length_sqr (v : THREE.Vector3) :
  THREE.length v * THREE.length v = THREE.dot v v.
Proof.
  unfold THREE.length, THREE.dot. apply sqrt_sqrt, sumsq_nonneg.
Qed.

Lemma length_zero (v : THREE.Vector3) : THREE.length v = 0 -> v = THREE.zero.
Proof.
  intros H. pose proof (length_sqr v) as Hs. rewrite H in Hs.
  unfold THREE.dot in Hs. destruct v as [a b c]; cbn in *.
  assert (a = 0) by nra. assert (b = 0) by nra. assert (c = 0) by nra.
  subst. reflexivity.
Qed.

Lemma length_multiplyScalar (v : THREE.Vector3) (k : R) :
  THREE.length (THREE.multiplyScalar v k) = Rabs k * THREE.length v.
Proof.
  unfold THREE.length, THREE.multiplyScalar; cbn.
  replace (THREE.x v * k * (THREE.x v * k) + THREE.y v * k * (THREE.y v * k)
           + THREE.z v * k * (THREE.z v * k))
    with (Rsqr k * (THREE.x v * THREE.x v + THREE.y v * THREE.y v
                    + THREE.z v * THREE.z v))
    by (unfold Rsqr; ring).
  rewrite sqrt_mult by (try apply Rle_0_sqr; apply sumsq_nonneg).
  now rewrite sqrt_Rsqr_abs.
Qed.

Lemma divisor_pos (v : THREE.Vector3) : 0 < divisor v.
Proof.
  unfold divisor. destruct (Req_dec_T _ _) as [_|Hn]; [lra|].
  pose proof (length_nonneg v). lra.
Qed.

Lemma dot_normalize (a b : THREE.Vector3) :
  THREE.dot (THREE.normalize a) (THREE.normalize b)
  = THREE.dot a b / (divisor a * divisor b).
Proof.
  pose proof (divisor_pos a). pose proof (divisor_pos b).
  unfold THREE.normalize, THREE.divideScalar, THREE.multiplyScalar, THREE.dot.
  fold (divisor a) (divisor b). cbn. field. lra.
Qed.

(** Perpendicular vectors: the normalised dot product vanishes. *)
Lemma absCosine_perpendicular (a b : THREE.Vector3) :
  THREE.dot a b = 0 -> absCosine a b = 0.
Proof.
  intros H. unfold absCosine. rewrite dot_normalize, H.
  unfold Rdiv. rewrite Rmult_0_l. apply Rabs_R0.
Qed.

(** Parallel vectors: the normalised dot product is [1] or [-1]. *)
Lemma absCosine_parallel (a b : THREE.Vector3) (k : R) :
  b <> THREE.zero -> k <> 0 -> a = THREE.multiplyScalar b k ->
  absCosine a b = 1.
Proof.
  intros Hb Hk ->.
  assert (Lb : 0 < THREE.length b).
  { pose proof (length_nonneg b) as [?|E]; [assumption|].
    exfalso. apply Hb, length_zero. now symmetry. }
  assert (Ka : 0 < Rabs k) by now apply Rabs_pos_lt.
  unfold absCosine. rewrite dot_normalize.
  unfold divisor. rewrite length_multiplyScalar.
  destruct (Req_dec_T (Rabs k * THREE.length b) 0) as [E|_]; [nra|].
  destruct (Req_dec_T (THREE.length b) 0) as [E|_]; [lra|].
  replace (THREE.dot (THREE.multiplyScalar b k) b)
    with (k * (THREE.length b * THREE.length b))
    by (rewrite length_sqr; unfold THREE.dot, THREE.multiplyScalar; cbn; ring).
  replace (k * (THREE.length b * THREE.length b)
           / (Rabs k * THREE.length b * THREE.length b))
    with (k / Rabs k) by (field; lra).
  unfold Rabs at 2. unfold Rabs in Ka.
  destruct (Rcase_abs k) as [Hneg|Hpos].
  - replace (k / - k) with (-1) by (field; lra).
    unfold Rabs. destruct (Rcase_abs _); lra.
  - replace (k / k) with 1 by (field; lra). apply Rabs_R1.
Qed.

(** ** The methods, equation by equation *)

Lemma keypointToVector3_vectorOf (keypoint : Keypoint) :
  keypointToVector3 keypoint = Normal (vectorOf keypoint).
Proof.
  destruct keypoint as [| |[x| |s] y z v]; reflexivity.
Qed.

Lemma getKeyLandmarks_landmarksOf (keypoints : list Keypoint) :
  getKeyLandmarks keypoints = Normal (landmarksOf keypoints).
Proof.
  unfold getKeyLandmarks. rewrite !keypointToVector3_vectorOf. reflexivity.
Qed.

Lemma tooFew_false (keypoints : list Keypoint) :
  (33 <= List.length keypoints)%nat -> tooFew (Some keypoints) = false.
Proof.
  intros H. unfold tooFew. apply bool_decide_eq_false. lia.
Qed.

Lemma tooFew_true (keypoints : list Keypoint) :
  (List.length keypoints < 33)%nat -> tooFew (Some keypoints) = true.
Proof.
  intros H. unfold tooFew. now apply bool_decide_eq_true.
Qed.

Lemma checkTpose_eq (keypoints : list Keypoint) :
  tooFew (Some keypoints) = false ->
  checkTpose (Some keypoints)
  = Normal (bool_decide
              (absCosine (leftArm (landmarksOf keypoints))
                         (torsoAxis (landmarksOf keypoints)) < 0.3)
            && bool_decide
                 (absCosine (rightArm (landmarksOf keypoints))
                            (torsoAxis (landmarksOf keypoints)) < 0.3)).
Proof.
  intros H. unfold checkTpose. rewrite H.
  rewrite !keypointToVector3_vectorOf. reflexivity.
Qed.

Lemma checkTpose_tooFew (keypoints : option (list Keypoint)) :
  tooFew keypoints = true -> checkTpose keypoints = Normal false.
Proof.
  intros H. destruct keypoints as [kps|]; [|reflexivity].
  unfold checkTpose. now rewrite H.
Qed.

Section Methods.

Context {Q : THREE.QuaternionOps}.

Lemma calculateBodyMeasurements_eq (this : ClothingFit)
    (keypoints : list Keypoint) :
  tooFew (Some keypoints) = false ->
  calculateBodyMeasurements this (Some keypoints)
  = Normal (set_userMeasurements this (measure (landmarksOf keypoints))).
Proof.
  intros H. unfold calculateBodyMeasurements. rewrite H.
  rewrite getKeyLandmarks_landmarksOf. reflexivity.
Qed.

Lemma calculateBodyMeasurements_tooFew (this : ClothingFit)
    (keypoints : option (list Keypoint)) :
  tooFew keypoints = true ->
  calculateBodyMeasurements this keypoints = Normal this.
Proof.
  intros H. destruct keypoints as [kps|]; [|reflexivity].
  unfold calculateBodyMeasurements. now rewrite H.
Qed.

Lemma calibrate_tooFew (this : ClothingFit)
    (keypoints : option (list Keypoint)) :
  tooFew keypoints = true -> calibrate this keypoints = Normal (false, this).
Proof.
  intros H. unfold calibrate. now rewrite H.
Qed.

Lemma calibrate_eq (this : ClothingFit) (keypoints : list Keypoint) :
  tooFew (Some keypoints) = false ->
  calibrate this (Some keypoints)
  = if bool_decide
         (absCosine (leftArm (landmarksOf keypoints))
                    (torsoAxis (landmarksOf keypoints)) < 0.3)
       && bool_decide
            (absCosine (rightArm (landmarksOf keypoints))
                       (torsoAxis (landmarksOf keypoints)) < 0.3)
    then Normal (true,
                 set_isCalibrated
                   (set_userMeasurements this (measure (landmarksOf keypoints)))
                   true)
    else Normal (false, this).
Proof.
  intros H. unfold calibrate.
  rewrite H, (checkTpose_eq _ H), (calculateBodyMeasurements_eq _ _ H).
  cbn. destruct (_ && _); reflexivity.
Qed.

Lemma solveTarget_returns (modelType : string) (sizeAdjustment : R)
    (base : BodyMeasurements) (l : Landmarks) :
  returns (solveTarget modelType sizeAdjustment (Some base) l).
Proof.
  unfold solveTarget, returns.
  repeat (destruct (_ || _) || destruct (_ =? _)%string);
    cbn; eexists; reflexivity.
Qed.

Lemma calibrate_returns (this : ClothingFit)
    (keypoints : option (list Keypoint)) :
  returns (calibrate this keypoints).
Proof.
  destruct (tooFew keypoints) eqn:Hguard.
  - rewrite (calibrate_tooFew _ _ Hguard). eexists. reflexivity.
  - destruct keypoints as [kps|]; [|discriminate].
    rewrite (calibrate_eq _ _ Hguard). destruct (_ && _); eexists; reflexivity.
Qed.

End Methods.

(** ** Evaluating the concrete poses *)

Lemma length_frame (a b c d e f g h i j k l : Keypoint) :
  List.length (frame a b c d e f g h i j k l) = 33%nat.
Proof. reflexivity. Qed.

Lemma landmarksOf_frame (a b c d e f g h i j k l : Keypoint) :
  landmarksOf (frame a b c d e f g h i j k l)
  = {| leftShoulder := vectorOf a; rightShoulder := vectorOf b;
       leftHip := vectorOf g; rightHip := vectorOf h;
       leftElbow := vectorOf c; rightElbow := vectorOf d;
       leftWrist := vectorOf e; rightWrist := vectorOf f;
       leftKnee := vectorOf i; rightKnee := vectorOf j;
       leftAnkle := vectorOf k; rightAnkle := vectorOf l |}.
Proof. reflexivity. Qed.

Lemma vectorOf_point (x y z : R) :
  vectorOf (point x y z) = THREE.mkVector3 x (- y) (- z).
Proof. reflexivity. Qed.

(** Unfold the vector algebra down to real arithmetic. *)
Ltac three :=
  unfold measure, leftArm, rightArm, torsoAxis, midpoint, THREE.distanceTo,
    THREE.distanceToSquared, THREE.addVectors, THREE.subVectors,
    THREE.multiplyScalar, THREE.dot, THREE.lerp, THREE.zero;
  cbn [THREE.x THREE.y THREE.z leftShoulder rightShoulder leftHip rightHip
       leftElbow rightElbow leftWrist rightWrist leftKnee rightKnee
       leftAnkle rightAnkle shoulderWidth torsoLength armLength legLength
       hipWidth].

(** Replace each square root of a concrete square by its root, trying the
    candidates [c1], [c2], [c3] in turn. *)
Ltac roots c1 c2 c3 :=
  repeat match goal with
  | |- context [sqrt ?e] =>
      first [ rewrite (sqrt_of_square c1 e) by lra
            | rewrite (sqrt_of_square c2 e) by lra
            | rewrite (sqrt_of_square c3 e) by lra ]
  end.

(** ** C3: the fit quality score *)

(** C3.  For every ratio and every ideal band [lo <= hi], the score is
    exactly 1 inside the band, bounds included, and [max(0, 1 - 2 * deviation)]
    outside it, where the deviation is the distance to the nearest edge of
    the band.  Against the fitted-shirt band [0.9, 1.1] a ratio of 1.1 scores
    1 and a ratio of 1.2 scores 0.8. *)
Theorem C3_quality_score (ratio lo hi : R) :
  lo <= hi ->
  (lo <= ratio <= hi -> calculateQualityScore ratio lo hi = 1)
  /\ (~ (lo <= ratio <= hi) ->
      calculateQualityScore ratio lo hi
      = Rmax 0 (1 - 2 * deviation ratio lo hi))
  /\ calculateQualityScore 0.9 0.9 1.1 = 1
  /\ calculateQualityScore 1.1 0.9 1.1 = 1
  /\ calculateQualityScore 1.2 0.9 1.1 = 0.8.
Proof.
  intros Hband.
  assert (Hin : forall r a b, a <= r <= b -> calculateQualityScore r a b = 1).
  { intros r a b [H1 H2]. unfold calculateQualityScore.
    rewrite !bool_decide_eq_true_2 by lra. cbn [andb]. lra. }
  repeat split.
  - apply Hin.
  - intros Hout. unfold calculateQualityScore, deviation.
    repeat case_bool_decide; cbn [andb]; try lra; f_equal;
      unfold Rmin, Rabs;
      repeat (destruct (Rle_dec _ _) || destruct (Rcase_abs _)); lra.
  - apply Hin. lra.
  - apply Hin. lra.
  - unfold calculateQualityScore.
    rewrite bool_decide_eq_true_2 by lra.
    rewrite !bool_decide_eq_false_2 by lra. cbn [andb].
    unfold Rmax. destruct (Rle_dec _ _); lra.
Qed.

(** Against the fitted-shirt band a ratio of 1.3 lies 0.2 outside and scores
    0.6; a ratio of 1.7 scores 0. *)
Lemma C3_quality_score_witness :
  0.9 <= 1.1
  /\ deviation 1.3 0.9 1.1 = 0.2
  /\ calculateQualityScore 1.3 0.9 1.1 = 0.6
  /\ calculateQualityScore 1.7 0.9 1.1 = 0.
Proof.
  assert (Hband : 0.9 <= 1.1) by lra.
  assert (Hd : forall r, 1.1 < r -> deviation r 0.9 1.1 = r - 1.1).
  { intros r Hr. unfold deviation, Rmin, Rabs.
    repeat (destruct (Rle_dec _ _) || destruct (Rcase_abs _)); lra. }
  split; [exact Hband|]. split; [rewrite Hd; lra|]. split.
  - destruct (C3_quality_score 1.3 0.9 1.1 Hband) as (_ & Hout & _).
    rewrite Hout by lra. rewrite Hd by lra.
    unfold Rmax. destruct (Rle_dec _ _); lra.
  - destruct (C3_quality_score 1.7 0.9 1.1 Hband) as (_ & Hout & _).
    rewrite Hout by lra. rewrite Hd by lra.
    unfold Rmax. destruct (Rle_dec _ _); lra.
Defined.

(** ** C5: the measurement extractor *)

(** C5.  For every input of at least 33 landmarks the extractor stores five
    non-negative Euclidean distances: shoulder width and hip width between
    the two shoulders and the two hips, torso length between the shoulder
    midpoint and the hip midpoint, arm length as the average over both sides
    of shoulder-to-elbow plus elbow-to-wrist, and leg length as the average
    over both sides of hip-to-knee plus knee-to-ankle. *)
Theorem C5_measurements {Q : THREE.QuaternionOps} (this : ClothingFit)
    (keypoints : list Keypoint) :
  (33 <= List.length keypoints)%nat ->
  exists this',
    calculateBodyMeasurements this (Some keypoints) = Normal this'
    /\ let m := getMeasurements this' in
       let l := landmarksOf keypoints in
       let d := THREE.distanceTo in
       shoulderWidth m = d (leftShoulder l) (rightShoulder l)
       /\ hipWidth m = d (leftHip l) (rightHip l)
       /\ torsoLength m
          = d (midpoint (leftShoulder l) (rightShoulder l))
              (midpoint (leftHip l) (rightHip l))
       /\ armLength m
          = ((d (leftShoulder l) (leftElbow l) + d (leftElbow l) (leftWrist l))
             + (d (rightShoulder l) (rightElbow l)
                + d (rightElbow l) (rightWrist l))) / 2
       /\ legLength m
          = ((d (leftHip l) (leftKnee l) + d (leftKnee l) (leftAnkle l))
             + (d (rightHip l) (rightKnee l)
                + d (rightKnee l) (rightAnkle l))) / 2
       /\ (forall a b : THREE.Vector3,
             d a b = sqrt ((THREE.x a - THREE.x b) * (THREE.x a - THREE.x b)
                           + (THREE.y a - THREE.y b) * (THREE.y a - THREE.y b)
                           + (THREE.z a - THREE.z b) * (THREE.z a - THREE.z b)))
       /\ 0 <= shoulderWidth m /\ 0 <= hipWidth m /\ 0 <= torsoLength m
       /\ 0 <= armLength m /\ 0 <= legLength m.
Proof.
  intros Hlen. eexists. split.
  - apply calculateBodyMeasurements_eq, tooFew_false, Hlen.
  - cbn zeta. unfold getMeasurements, set_userMeasurements, measure.
    cbn [userMeasurements shoulderWidth hipWidth torsoLength armLength
         legLength].
    repeat split; try apply distanceTo_nonneg.
    + pose proof (distanceTo_nonneg
                    (leftShoulder (landmarksOf keypoints))
                    (leftElbow (landmarksOf keypoints))).
      pose proof (distanceTo_nonneg
                    (leftElbow (landmarksOf keypoints))
                    (leftWrist (landmarksOf keypoints))).
      pose proof (distanceTo_nonneg
                    (rightShoulder (landmarksOf keypoints))
                    (rightElbow (landmarksOf keypoints))).
      pose proof (distanceTo_nonneg
                    (rightElbow (landmarksOf keypoints))
                    (rightWrist (landmarksOf keypoints))).
      lra.
    + pose proof (distanceTo_nonneg
                    (leftHip (landmarksOf keypoints))
                    (leftKnee (landmarksOf keypoints))).
      pose proof (distanceTo_nonneg
                    (leftKnee (landmarksOf keypoints))
                    (leftAnkle (landmarksOf keypoints))).
      pose proof (distanceTo_nonneg
                    (rightHip (landmarksOf keypoints))
                    (rightKnee (landmarksOf keypoints))).
      pose proof (distanceTo_nonneg
                    (rightKnee (landmarksOf keypoints))
                    (rightAnkle (landmarksOf keypoints))).
      lra.
Qed.

(** With the forearms raised, the stored arm length is the two-segment sum
    0.3 + 0.4 = 0.7, while shoulder and wrist are only 0.5 apart. *)
Lemma C5_measurements_witness :
  (33 <= List.length bentArmFrame)%nat
  /\ exists this',
       calculateBodyMeasurements (@constructor termQuaternions)
         (Some bentArmFrame) = Normal this'
       /\ armLength (getMeasurements this') = 0.7
       /\ THREE.distanceTo (leftShoulder (landmarksOf bentArmFrame))
                           (leftWrist (landmarksOf bentArmFrame)) = 0.5
       /\ THREE.distanceTo (rightShoulder (landmarksOf bentArmFrame))
                           (rightWrist (landmarksOf bentArmFrame)) = 0.5.
Proof.
  assert (Hlen : (33 <= List.length bentArmFrame)%nat)
    by (unfold bentArmFrame; rewrite length_frame; lia).
  split; [exact Hlen|].
  destruct (C5_measurements (@constructor termQuaternions) bentArmFrame Hlen)
    as (this' & Hcall & _ & _ & _ & Harm & _).
  exists this'. split; [exact Hcall|].
  cbn zeta in Harm. rewrite Harm. clear Harm Hcall.
  unfold bentArmFrame. rewrite landmarksOf_frame, !vectorOf_point.
  three. roots 0.3 0.4 0.5. repeat split; lra.
Defined.

(** ** The two reference poses through the T-pose check *)

Lemma length_tposeFrame : (33 <= List.length tposeFrame)%nat.
Proof. unfold tposeFrame. rewrite length_frame. lia. Qed.

Lemma length_armsDownFrame : (33 <= List.length armsDownFrame)%nat.
Proof. unfold armsDownFrame. rewrite length_frame. lia. Qed.

Lemma tposeFrame_perpendicular :
  THREE.dot (leftArm (landmarksOf tposeFrame))
            (torsoAxis (landmarksOf tposeFrame)) = 0
  /\ THREE.dot (rightArm (landmarksOf tposeFrame))
               (torsoAxis (landmarksOf tposeFrame)) = 0.
Proof.
  unfold tposeFrame. rewrite landmarksOf_frame, !vectorOf_point.
  three. split; lra.
Qed.

Lemma armsDownFrame_parallel :
  torsoAxis (landmarksOf armsDownFrame) = THREE.mkVector3 0 0.6 0
  /\ leftArm (landmarksOf armsDownFrame)
     = THREE.multiplyScalar (torsoAxis (landmarksOf armsDownFrame)) (- (5 / 6))
  /\ rightArm (landmarksOf armsDownFrame)
     = THREE.multiplyScalar (torsoAxis (landmarksOf armsDownFrame)) (- (5 / 6)).
Proof.
  unfold armsDownFrame. rewrite landmarksOf_frame, !vectorOf_point.
  three. repeat split; f_equal; lra.
Qed.

Lemma checkTpose_tposeFrame : checkTpose (Some tposeFrame) = Normal true.
Proof.
  rewrite checkTpose_eq by apply tooFew_false, length_tposeFrame.
  destruct tposeFrame_perpendicular as [Hl Hr].
  rewrite !bool_decide_eq_true_2; [reflexivity| |];
    rewrite absCosine_perpendicular by assumption; lra.
Qed.

Lemma checkTpose_armsDownFrame : checkTpose (Some armsDownFrame) = Normal false.
Proof.
  rewrite checkTpose_eq by apply tooFew_false, length_armsDownFrame.
  destruct armsDownFrame_parallel as (Ht & Hl & _).
  rewrite bool_decide_eq_false_2; [reflexivity|].
  rewrite (absCosine_parallel _ _ (- (5 / 6))); [lra| |lra|exact Hl].
  rewrite Ht. intros E. apply (f_equal THREE.y) in E. cbn in E. lra.
Qed.

(** ** C2: the T-pose gate *)

(** C2.  For every input of at least 33 landmarks the T-pose check succeeds
    exactly when, for both arms, the absolute dot product of the normalised
    shoulder-to-wrist vector with the normalised hip-midpoint-to-shoulder-
    midpoint vector is strictly below 0.3.  With both arm vectors exactly
    perpendicular to the torso axis [calibrate] returns true; with both arms
    parallel to a non-degenerate torso axis it returns false. *)
Theorem C2_tpose_gate {Q : THREE.QuaternionOps} (this : ClothingFit)
    (keypoints : list Keypoint) :
  (33 <= List.length keypoints)%nat ->
  let l := landmarksOf keypoints in
  returns (checkTpose (Some keypoints))
  /\ (checkTpose (Some keypoints) = Normal true
      <-> absCosine (leftArm l) (torsoAxis l) < 0.3
          /\ absCosine (rightArm l) (torsoAxis l) < 0.3)
  /\ (THREE.dot (leftArm l) (torsoAxis l) = 0 ->
      THREE.dot (rightArm l) (torsoAxis l) = 0 ->
      exists this', calibrate this (Some keypoints) = Normal (true, this'))
  /\ (torsoAxis l <> THREE.zero ->
      (exists a, a <> 0 /\ leftArm l = THREE.multiplyScalar (torsoAxis l) a) ->
      (exists b, b <> 0 /\ rightArm l = THREE.multiplyScalar (torsoAxis l) b) ->
      calibrate this (Some keypoints) = Normal (false, this)).
Proof.
  intros Hlen l. pose proof (tooFew_false _ Hlen) as Hguard.
  repeat split.
  - rewrite (checkTpose_eq _ Hguard). eexists. reflexivity.
  - rewrite (checkTpose_eq _ Hguard) in H.
    injection H as H. apply andb_true_iff in H as [H _].
    now apply bool_decide_eq_true_1 in H.
  - rewrite (checkTpose_eq _ Hguard) in H.
    injection H as H. apply andb_true_iff in H as [_ H].
    now apply bool_decide_eq_true_1 in H.
  - intros [Hl Hr]. rewrite (checkTpose_eq _ Hguard).
    fold l. now rewrite !bool_decide_eq_true_2.
  - intros Hl Hr. rewrite (calibrate_eq _ _ Hguard). fold l.
    rewrite !bool_decide_eq_true_2
      by (rewrite absCosine_perpendicular by assumption; lra).
    eexists. reflexivity.
  - intros Ht (a & Ha & Hl) _. rewrite (calibrate_eq _ _ Hguard). fold l.
    rewrite (bool_decide_eq_false_2 (absCosine (leftArm l) _ < _));
      [reflexivity|].
    rewrite (absCosine_parallel _ _ a) by assumption. lra.
Qed.

(** The stretched-out pose calibrates; the arms-down pose does not. *)
Lemma C2_tpose_gate_witness :
  (33 <= List.length tposeFrame)%nat
  /\ (33 <= List.length armsDownFrame)%nat
  /\ (exists this',
        calibrate (@constructor termQuaternions) (Some tposeFrame)
        = Normal (true, this'))
  /\ calibrate (@constructor termQuaternions) (Some armsDownFrame)
     = Normal (false, constructor).
Proof.
  split; [exact length_tposeFrame|]. split; [exact length_armsDownFrame|].
  split.
  - destruct (C2_tpose_gate (@constructor termQuaternions) tposeFrame
                length_tposeFrame) as (_ & _ & Hperp & _).
    destruct tposeFrame_perpendicular as [Hl Hr].
    exact (Hperp Hl Hr).
  - destruct (C2_tpose_gate (@constructor termQuaternions) armsDownFrame
                length_armsDownFrame) as (_ & _ & _ & Hpar).
    destruct armsDownFrame_parallel as (Ht & Hl & Hr).
    apply Hpar.
    + rewrite Ht. intros E. apply (f_equal THREE.y) in E. cbn in E. lra.
    + exists (- (5 / 6)). split; [lra|exact Hl].
    + exists (- (5 / 6)). split; [lra|exact Hr].
Defined.

(** ** C4: calibration commits on success only *)

(** C4.  [calibrate] never throws.  If the input is missing, has fewer than
    33 entries, or fails the T-pose check, it returns false and leaves the
    whole state, measurements and [isCalibrated] included, as it was.  If
    the T-pose check succeeds on an input of at least 33 landmarks, it
    returns true, the stored measurements are those of that input and
    [isCalibrated] is true. *)
Theorem C4_calibrate_atomic {Q : THREE.QuaternionOps} (this : ClothingFit)
    (keypoints : option (list Keypoint)) :
  returns (calibrate this keypoints)
  /\ (tooFew keypoints = true \/ checkTpose keypoints = Normal false ->
      calibrate this keypoints = Normal (false, this))
  /\ (forall kps,
        keypoints = Some kps ->
        (33 <= List.length kps)%nat ->
        checkTpose keypoints = Normal true ->
        exists this',
          calibrate this keypoints = Normal (true, this')
          /\ getMeasurements this' = measure (landmarksOf kps)
          /\ isBodyCalibrated this' = true
          /\ smoothingFactor this' = smoothingFactor this
          /\ previousTransforms this' = previousTransforms this
          /\ fitQuality this' = fitQuality this).
Proof.
  destruct (tooFew keypoints) eqn:Hguard.
  - rewrite (calibrate_tooFew _ _ Hguard).
    split; [eexists; reflexivity|]. split; [reflexivity|].
    intros kps -> Hlen _. rewrite (tooFew_false _ Hlen) in Hguard. discriminate.
  - destruct keypoints as [kps|]; [|discriminate].
    rewrite (calibrate_eq _ _ Hguard), (checkTpose_eq _ Hguard).
    destruct (_ && _).
    + split; [eexists; reflexivity|]. split.
      * intros [?|?]; discriminate.
      * intros kps' [= <-] _ _. eexists. repeat split.
    + split; [eexists; reflexivity|]. split; [reflexivity|].
      intros kps' _ _ ?. discriminate.
Qed.

(** A short array and the arms-down pose leave a fresh instance untouched;
    the stretched-out pose commits shoulder width 0.4 and torso length 0.6. *)
Lemma C4_calibrate_atomic_witness :
  calibrate (@constructor termQuaternions) (Some []) = Normal (false, constructor)
  /\ calibrate (@constructor termQuaternions) (Some armsDownFrame)
     = Normal (false, constructor)
  /\ exists this',
       calibrate (@constructor termQuaternions) (Some tposeFrame)
       = Normal (true, this')
       /\ isBodyCalibrated this' = true
       /\ shoulderWidth (getMeasurements this') = 0.4
       /\ torsoLength (getMeasurements this') = 0.6.
Proof.
  split; [|split].
  - apply (C4_calibrate_atomic (@constructor termQuaternions) (Some [])).
    left. reflexivity.
  - apply (C4_calibrate_atomic (@constructor termQuaternions)
             (Some armsDownFrame)).
    right. exact checkTpose_armsDownFrame.
  - destruct (C4_calibrate_atomic (@constructor termQuaternions)
                (Some tposeFrame)) as (_ & _ & Hok).
    destruct (Hok tposeFrame eq_refl length_tposeFrame checkTpose_tposeFrame)
      as (this' & Hcall & Hm & Hc & _).
    exists this'. split; [exact Hcall|]. split; [exact Hc|].
    rewrite Hm. unfold tposeFrame. rewrite landmarksOf_frame, !vectorOf_point.
    three. roots 0.4 0.6 0.6. split; lra.
Defined.

(** ** C8: too few landmarks for the extractor *)

(** C8, as amended.  For every landmark sequence with fewer than 33 entries
    (and for a missing one) the extractor returns without a result and
    without an exception and leaves the stored measurements as they were:
    the measurements observable afterwards are those of the latest earlier
    call that had at least 33 landmarks, and the zeroed initial ones only
    when there was none. *)
Theorem C8_too_few_keeps_measurements {Q : THREE.QuaternionOps}
    (this : ClothingFit) (keypoints : list Keypoint) :
  (List.length keypoints < 33)%nat ->
  calculateBodyMeasurements this (Some keypoints) = Normal this
  /\ calculateBodyMeasurements this None = Normal this
  /\ getMeasurements (@constructor Q)
     = {| shoulderWidth := 0; torsoLength := 0; armLength := 0;
          legLength := 0; hipWidth := 0 |}.
Proof.
  intros Hlen. split; [|split].
  - apply calculateBodyMeasurements_tooFew, tooFew_true, Hlen.
  - reflexivity.
  - reflexivity.
Qed.

Lemma C8_too_few_keeps_measurements_witness :
  (List.length (@nil Keypoint) < 33)%nat
  /\ calculateBodyMeasurements (@constructor termQuaternions) (Some [])
     = Normal constructor.
Proof.
  assert (Hlen : (List.length (@nil Keypoint) < 33)%nat) by (cbn; lia).
  split; [exact Hlen|].
  apply (C8_too_few_keeps_measurements (@constructor termQuaternions) [] Hlen).
Defined.

(** C8 as stated fails: after measurements were stored from the stretched-out
    pose, a call with an empty array leaves shoulder width 0.4 observable,
    not the zeroed default. *)
Lemma C8_stale_measurements_counterexample :
  exists this1 this2 : @ClothingFit termQuaternions,
    calculateBodyMeasurements constructor (Some tposeFrame) = Normal this1
    /\ calculateBodyMeasurements this1 (Some []) = Normal this2
    /\ shoulderWidth (getMeasurements this2) = 0.4
    /\ shoulderWidth (getMeasurements this2) <> 0.
Proof.
  eexists. eexists. split; [|split].
  - apply calculateBodyMeasurements_eq, tooFew_false, length_tposeFrame.
  - apply calculateBodyMeasurements_tooFew. reflexivity.
  - assert (E : shoulderWidth (measure (landmarksOf tposeFrame)) = 0.4).
    { unfold tposeFrame. rewrite landmarksOf_frame, !vectorOf_point.
      three. roots 0.4 0.4 0.4. lra. }
    unfold getMeasurements, set_userMeasurements. cbn [userMeasurements].
    rewrite E. split; lra.
Qed.

(** ** updateModelFit, guard and body *)

Section UpdateModelFit.

Context {Q : THREE.QuaternionOps}.

Lemma updateModelFit_guard (this : ClothingFit) (model : option THREE.Object3D)
    (keypoints : option (list Keypoint)) (base : option BodyMeasurements)
    (options : Options) :
  model = None \/ tooFew keypoints = true ->
  updateModelFit this model keypoints base options = Normal (None, this, model).
Proof.
  intros [->|H]; [reflexivity|].
  unfold updateModelFit. destruct model as [model|]; [|reflexivity].
  destruct keypoints as [kps|]; [|reflexivity]. now rewrite H.
Qed.

(** Past the guard: measure, solve, smooth, score. *)
Lemma updateModelFit_body (this : ClothingFit) (model : THREE.Object3D)
    (keypoints : list Keypoint) (base : option BodyMeasurements)
    (options : Options) (target : Transform) :
  tooFew (Some keypoints) = false ->
  solveTarget (default "tshirt"%string (modelType options))
              (default 1.0 (sizeAdjustment options)) base
              (landmarksOf keypoints) = Normal target ->
  let modelType := default "tshirt"%string (modelType options) in
  let this1 := set_userMeasurements this (measure (landmarksOf keypoints)) in
  let smoothed :=
    applySmoothing (smoothingFactor this) (previousTransforms this)
                   model target in
  let this3 :=
    calculateFitQuality (set_previousTransforms this1 smoothed.1) modelType
                        (Some keypoints) (Some smoothed.2) in
  updateModelFit this (Some model) (Some keypoints) base options
  = Normal (Some {| applied :=
                      mkTransform (THREE.position smoothed.2)
                                  (THREE.quaternion smoothed.2)
                                  (THREE.scale smoothed.2);
                    resultFitQuality := fitQuality this3 |},
            this3, Some smoothed.2).
Proof.
  intros Hguard Htarget. unfold updateModelFit.
  rewrite Hguard, getKeyLandmarks_landmarksOf,
    (calculateBodyMeasurements_eq _ _ Hguard).
  cbn [mbind completion_bind]. rewrite Htarget.
  cbn [mbind completion_bind set_userMeasurements smoothingFactor
       previousTransforms].
  destruct (applySmoothing _ _ _ _) as [m' model']. reflexivity.
Qed.

Lemma previousTransforms_calculateFitQuality (this : ClothingFit)
    (modelType : string) (keypoints : option (list Keypoint))
    (model : option THREE.Object3D) :
  previousTransforms (calculateFitQuality this modelType keypoints model)
  = previousTransforms this.
Proof.
  unfold calculateFitQuality. destruct model as [model|]; [|reflexivity].
  destruct (tooFew keypoints); [reflexivity|].
  repeat (destruct (_ || _) || destruct (_ =? _)%string); reflexivity.
Qed.

Lemma userMeasurements_calculateFitQuality (this : ClothingFit)
    (modelType : string) (keypoints : option (list Keypoint))
    (model : option THREE.Object3D) :
  userMeasurements (calculateFitQuality this modelType keypoints model)
  = userMeasurements this.
Proof.
  unfold calculateFitQuality. destruct model as [model|]; [|reflexivity].
  destruct (tooFew keypoints); [reflexivity|].
  repeat (destruct (_ || _) || destruct (_ =? _)%string); reflexivity.
Qed.

(** What a call past the guard applies, stores and leaves on the mesh. *)
Lemma updateModelFit_applied (this : ClothingFit) (model : THREE.Object3D)
    (keypoints : list Keypoint) (base : option BodyMeasurements)
    (options : Options) (target : Transform) :
  tooFew (Some keypoints) = false ->
  solveTarget (default "tshirt"%string (modelType options))
              (default 1.0 (sizeAdjustment options)) base
              (landmarksOf keypoints) = Normal target ->
  exists result this' model',
    updateModelFit this (Some model) (Some keypoints) base options
    = Normal (Some result, this', Some model')
    /\ applied result
       = mkTransform
           (THREE.lerp (THREE.position model) (position target)
                       (1 - smoothingFactor this))
           (THREE.slerp (THREE.quaternion model) (rotation target)
                        (1 - smoothingFactor this))
           (THREE.lerp (THREE.scale model) (scale target)
                       (1 - smoothingFactor this))
    /\ previousTransforms this' !! THREE.uuid model = Some (applied result)
    /\ model'
       = THREE.mkObject3D (THREE.uuid model) (position (applied result))
                          (rotation (applied result)) (scale (applied result))
    /\ getMeasurements this' = measure (landmarksOf keypoints).
Proof.
  intros Hguard Htarget. do 3 eexists. split.
  - apply (updateModelFit_body this model keypoints base options target);
      assumption.
  - unfold getMeasurements.
    rewrite previousTransforms_calculateFitQuality,
      userMeasurements_calculateFitQuality.
    unfold applySmoothing.
    cbn [fst snd applied position rotation scale THREE.position
         THREE.quaternion THREE.scale THREE.uuid set_previousTransforms
         set_userMeasurements previousTransforms userMeasurements].
    split; [reflexivity|]. split; [apply lookup_insert_eq|].
    split; reflexivity.
Qed.

Lemma updateModelFit_returns (this : ClothingFit) (model : THREE.Object3D)
    (keypoints : option (list Keypoint)) (base : BodyMeasurements)
    (options : Options) :
  returns (updateModelFit this (Some model) keypoints (Some base) options).
Proof.
  destruct (tooFew keypoints) eqn:Hguard.
  - rewrite updateModelFit_guard by now right. eexists. reflexivity.
  - destruct keypoints as [kps|]; [|discriminate].
    destruct (solveTarget_returns
                (default "tshirt"%string (modelType options))
                (default 1.0 (sizeAdjustment options)) base
                (landmarksOf kps)) as [target Htarget].
    rewrite (updateModelFit_body _ _ _ _ _ _ Hguard Htarget).
    eexists. reflexivity.
Qed.

End UpdateModelFit.

(** ** C9: too few landmarks for the solver *)

(** C9, as amended.  For every call with a missing model, a missing landmark
    array or fewer than 33 landmarks, [updateModelFit] returns [undefined]
    (no transform at all), throws no exception even when the base
    measurements are missing, and leaves the mesh, the stored measurements
    and the rest of its state unchanged. *)
Theorem C9_solver_guard {Q : THREE.QuaternionOps} (this : ClothingFit)
    (model : option THREE.Object3D) (keypoints : option (list Keypoint))
    (base : option BodyMeasurements) (options : Options) :
  model = None \/ keypoints = None
  \/ (exists kps, keypoints = Some kps /\ (List.length kps < 33)%nat) ->
  updateModelFit this model keypoints base options = Normal (None, this, model).
Proof.
  intros [H|[->|(kps & -> & Hlen)]]; apply updateModelFit_guard.
  - now left.
  - now right.
  - right. now apply tooFew_true.
Qed.

Lemma C9_solver_guard_witness :
  updateModelFit constructor (Some freshMesh) (Some [KNull; KUndefined])
                 None noOptions
  = Normal (None, constructor, Some freshMesh).
Proof.
  apply (C9_solver_guard constructor (Some freshMesh)
           (Some [KNull; KUndefined]) None noOptions).
  right. right. exists [KNull; KUndefined]. split; [reflexivity|cbn; lia].
Defined.

(** C9 as stated fails: on an empty landmark array the call returns
    [undefined], not a default transform. *)
Lemma C9_no_default_transform_counterexample :
  updateModelFit constructor (Some freshMesh) (Some [])
                 (Some defaultBase) noOptions
  = Normal (None, constructor, Some freshMesh)
  /\ ~ (exists result this' model',
          updateModelFit constructor (Some freshMesh) (Some [])
                         (Some defaultBase) noOptions
          = Normal (Some result, this', model')).
Proof.
  split; [reflexivity|].
  intros (result & this' & model' & H). discriminate H.
Qed.

(** ** C10: the keypoint conversion is total *)

(** C10.  [keypointToVector3] returns the zero vector for [null], for
    [undefined] and for an entry whose [x] is not a number, and
    [(x, -y, -z)] for a well-formed entry; it never throws.  Consequently,
    on every array of at least 33 entries, whatever the entries are,
    extraction, calibration and solving (with a mesh and base measurements
    present) complete without an exception, and an invalid entry enters the
    measurements as the zero position: an array of 33 [null]s even passes
    calibration, with all-zero measurements. *)
Theorem C10_conversion_total {Q : THREE.QuaternionOps} :
  keypointToVector3 KNull = Normal THREE.zero
  /\ keypointToVector3 KUndefined = Normal THREE.zero
  /\ (forall y z v,
        keypointToVector3 (KObject VUndefined y z v) = Normal THREE.zero)
  /\ (forall s y z v,
        keypointToVector3 (KObject (VString s) y z v) = Normal THREE.zero)
  /\ (forall x y z v,
        keypointToVector3 (KObject (VNumber x) y z v)
        = Normal (THREE.mkVector3 x (- y) (- z)))
  /\ (forall keypoint, returns (keypointToVector3 keypoint))
  /\ (forall (this : ClothingFit) (keypoints : list Keypoint),
        (33 <= List.length keypoints)%nat ->
        calculateBodyMeasurements this (Some keypoints)
        = Normal (set_userMeasurements this (measure (landmarksOf keypoints)))
        /\ returns (calibrate this (Some keypoints))
        /\ forall model base options,
             returns (updateModelFit this (Some model) (Some keypoints)
                                     (Some base) options))
  /\ (forall this : ClothingFit,
        calibrate this (Some (repeat KNull 33))
        = Normal (true,
                  set_isCalibrated
                    (set_userMeasurements this
                       {| shoulderWidth := 0; torsoLength := 0; armLength := 0;
                          legLength := 0; hipWidth := 0 |})
                    true)).
Proof.
  split; [reflexivity|]. split; [reflexivity|].
  split; [reflexivity|]. split; [reflexivity|]. split; [reflexivity|].
  split; [|split].
  - intros keypoint. rewrite keypointToVector3_vectorOf. eexists. reflexivity.
  - intros this keypoints Hlen. split; [|split].
    + apply calculateBodyMeasurements_eq, tooFew_false, Hlen.
    + apply calibrate_returns.
    + intros model base options. apply updateModelFit_returns.
  - intros this. rewrite calibrate_eq by reflexivity.
    assert (Hl : landmarksOf (repeat KNull 33)
                 = mkLandmarks THREE.zero THREE.zero THREE.zero THREE.zero
                     THREE.zero THREE.zero THREE.zero THREE.zero
                     THREE.zero THREE.zero THREE.zero THREE.zero)
      by reflexivity.
    rewrite Hl.
    rewrite !bool_decide_eq_true_2.
    + cbn [andb]. do 3 f_equal. three.
      replace ((0 - 0) * (0 - 0) + (0 - 0) * (0 - 0) + (0 - 0) * (0 - 0))
        with 0 by lra.
      replace ((0 + 0) * 0.5 - (0 + 0) * 0.5) with 0 by lra.
      replace (0 * 0 + 0 * 0 + 0 * 0) with 0 by lra.
      rewrite sqrt_0. do 2 f_equal; lra.
    + rewrite absCosine_perpendicular; [lra|]. three. lra.
    + rewrite absCosine_perpendicular; [lra|]. three. lra.
Qed.

Lemma C10_conversion_total_witness :
  (33 <= List.length (repeat KNull 33))%nat
  /\ returns (calibrate (@constructor termQuaternions) (Some (repeat KNull 33)))
  /\ returns (updateModelFit constructor (Some freshMesh)
                (Some (repeat KNull 33)) (Some defaultBase) noOptions).
Proof.
  assert (Hlen : (33 <= List.length (repeat KNull 33))%nat)
    by (rewrite repeat_length; lia).
  split; [exact Hlen|].
  destruct (@C10_conversion_total termQuaternions)
    as (_ & _ & _ & _ & _ & _ & Hall & _).
  destruct (Hall constructor (repeat KNull 33) Hlen) as (_ & Hcal & Hfit).
  split; [exact Hcal|apply Hfit].
Defined.

(** ** C1: the target scale of the upper-torso categories *)

(** C1.  For every input of at least 33 landmarks and non-zero base
    measurements, the target scale solved for 'tshirt' and 'shirt' is
    x = (shoulderWidth / baseShoulderWidth) * sizeAdjustment,
    y = (torsoLength / baseTorsoLength) * sizeAdjustment and
    z = the average of the two ratios times sizeAdjustment; for 'jacket' and
    'hoodie' the same holds with the shoulder ratio multiplied by 1.1 and
    the torso ratio by 1.05 beforehand.  This target is what
    [updateModelFit] hands to the smoothing step. *)
Theorem C1_target_scale {Q : THREE.QuaternionOps} (keypoints : list Keypoint)
    (base : BodyMeasurements) (size : R) (category : string) :
  (33 <= List.length keypoints)%nat ->
  shoulderWidth base <> 0 ->
  torsoLength base <> 0 ->
  let l := landmarksOf keypoints in
  let shoulderRatio := shoulderWidth (measure l) / shoulderWidth base in
  let torsoRatio := torsoLength (measure l) / torsoLength base in
  (category = "tshirt"%string \/ category = "shirt"%string ->
   exists target,
     solveTarget category size (Some base) l = Normal target
     /\ THREE.x (scale target) = shoulderRatio * size
     /\ THREE.y (scale target) = torsoRatio * size
     /\ THREE.z (scale target) = (shoulderRatio + torsoRatio) / 2 * size)
  /\ (category = "jacket"%string \/ category = "hoodie"%string ->
      exists target,
        solveTarget category size (Some base) l = Normal target
        /\ THREE.x (scale target) = shoulderRatio * 1.1 * size
        /\ THREE.y (scale target) = torsoRatio * 1.05 * size
        /\ THREE.z (scale target)
           = (shoulderRatio * 1.1 + torsoRatio * 1.05) / 2 * size)
  /\ (forall (this : ClothingFit) (model : THREE.Object3D),
      exists target result this' model',
        solveTarget category size (Some base) l = Normal target
        /\ updateModelFit this (Some model) (Some keypoints) (Some base)
             (mkOptions (Some size) (Some category))
           = Normal (Some result, this', Some model')
        /\ scale (applied result)
           = THREE.lerp (THREE.scale model) (scale target)
                        (1 - smoothingFactor this)
        /\ getMeasurements this' = measure l).
Proof.
  intros Hlen _ _ l shoulderRatio torsoRatio. split; [|split].
  - intros [->| ->]; eexists; (split; [reflexivity|]);
      repeat split; reflexivity.
  - intros [->| ->]; eexists; (split; [reflexivity|]);
      repeat split; reflexivity.
  - intros this model.
    destruct (solveTarget_returns category size base l) as [target Htarget].
    exists target. do 3 eexists. split; [exact Htarget|].
    split; [|split].
    + apply (updateModelFit_body this model keypoints (Some base)
               (mkOptions (Some size) (Some category)) target).
      * apply tooFew_false, Hlen.
      * exact Htarget.
    + reflexivity.
    + unfold calculateFitQuality, getMeasurements.
      rewrite (tooFew_false _ Hlen).
      repeat (destruct (_ || _) || destruct (_ =? _)%string); reflexivity.
Qed.

Lemma measure_tposeFrame :
  shoulderWidth (measure (landmarksOf tposeFrame)) = 0.4
  /\ torsoLength (measure (landmarksOf tposeFrame)) = 0.6.
Proof.
  unfold tposeFrame. rewrite landmarksOf_frame, !vectorOf_point.
  three. roots 0.4 0.6 0.6. split; lra.
Qed.

(** In the stretched-out pose against the default base the fitted target
    scale is (1, 1, 1) and the loose one (1.1, 1.05, 1.075). *)
Lemma C1_target_scale_witness :
  (33 <= List.length tposeFrame)%nat
  /\ shoulderWidth defaultBase <> 0
  /\ torsoLength defaultBase <> 0
  /\ (exists target,
        @solveTarget termQuaternions "tshirt" 1 (Some defaultBase)
                     (landmarksOf tposeFrame) = Normal target
        /\ THREE.x (scale target) = 1
        /\ THREE.y (scale target) = 1
        /\ THREE.z (scale target) = 1)
  /\ (exists target,
        @solveTarget termQuaternions "jacket" 1 (Some defaultBase)
                     (landmarksOf tposeFrame) = Normal target
        /\ THREE.x (scale target) = 1.1
        /\ THREE.y (scale target) = 1.05
        /\ THREE.z (scale target) = 1.075).
Proof.
  assert (Hs : shoulderWidth defaultBase <> 0) by (cbn; lra).
  assert (Ht : torsoLength defaultBase <> 0) by (cbn; lra).
  split; [exact length_tposeFrame|]. split; [exact Hs|]. split; [exact Ht|].
  destruct measure_tposeFrame as [Es Et].
  split.
  - destruct (@C1_target_scale termQuaternions tposeFrame defaultBase 1
                "tshirt" length_tposeFrame Hs Ht) as (Hfit & _ & _).
    destruct (Hfit (or_introl eq_refl)) as (target & Hcall & Hx & Hy & Hz).
    exists target. split; [exact Hcall|].
    rewrite Hx, Hy, Hz, Es, Et. cbn [shoulderWidth torsoLength defaultBase].
    repeat split; lra.
  - destruct (@C1_target_scale termQuaternions tposeFrame defaultBase 1
                "jacket" length_tposeFrame Hs Ht) as (_ & Hloose & _).
    destruct (Hloose (or_introl eq_refl)) as (target & Hcall & Hx & Hy & Hz).
    exists target. split; [exact Hcall|].
    rewrite Hx, Hy, Hz, Es, Et. cbn [shoulderWidth torsoLength defaultBase].
    repeat split; lra.
Defined.

(** ** C6: the first call of the smoother *)

Lemma lerp_same (v : THREE.Vector3) (alpha : R) : THREE.lerp v v alpha = v.
Proof.
  destruct v as [a b c]. unfold THREE.lerp; cbn. f_equal; lra.
Qed.

Lemma lerp_one (v target : THREE.Vector3) : THREE.lerp v target (1 - 0) = target.
Proof.
  destruct v as [a b c], target as [a' b' c'].
  unfold THREE.lerp; cbn. f_equal; lra.
Qed.

(** C6, as amended.  For every garment key not seen before, the first call
    creates the persisted entry and then smooths as on any other call: the
    applied position and scale are the mesh's pre-existing ones moved toward
    the target by linear interpolation with weight [1 - smoothingFactor],
    the applied rotation is the mesh's pre-existing one slerped toward the
    target with the same weight, and the persisted entry ends as a copy of
    the applied transform.  The applied position (scale) equals the target
    when the mesh already had the target position (scale), or when
    [smoothingFactor] is 0. *)
Theorem C6_first_call_smooths {Q : THREE.QuaternionOps} (this : ClothingFit)
    (model : THREE.Object3D) (keypoints : list Keypoint)
    (base : option BodyMeasurements) (options : Options) (target : Transform) :
  (33 <= List.length keypoints)%nat ->
  previousTransforms this !! THREE.uuid model = None ->
  solveTarget (default "tshirt"%string (modelType options))
              (default 1.0 (sizeAdjustment options)) base
              (landmarksOf keypoints) = Normal target ->
  exists result this' model',
    updateModelFit this (Some model) (Some keypoints) base options
    = Normal (Some result, this', Some model')
    /\ position (applied result)
       = THREE.lerp (THREE.position model) (position target)
                    (1 - smoothingFactor this)
    /\ rotation (applied result)
       = THREE.slerp (THREE.quaternion model) (rotation target)
                     (1 - smoothingFactor this)
    /\ scale (applied result)
       = THREE.lerp (THREE.scale model) (scale target)
                    (1 - smoothingFactor this)
    /\ previousTransforms this' !! THREE.uuid model = Some (applied result)
    /\ THREE.position model' = position (applied result)
    /\ THREE.quaternion model' = rotation (applied result)
    /\ THREE.scale model' = scale (applied result)
    /\ (THREE.position model = position target ->
        position (applied result) = position target)
    /\ (THREE.scale model = scale target ->
        scale (applied result) = scale target)
    /\ (smoothingFactor this = 0 ->
        position (applied result) = position target
        /\ scale (applied result) = scale target).
Proof.
  intros Hlen _ Htarget.
  destruct (updateModelFit_applied this model keypoints base options target
              (tooFew_false _ Hlen) Htarget)
    as (result & this' & model' & Hcall & Happlied & Hentry & Hmodel & _).
  exists result, this', model'. split; [exact Hcall|].
  rewrite Hmodel, Happlied.
  cbn [position rotation scale THREE.position THREE.quaternion THREE.scale].
  split; [reflexivity|]. split; [reflexivity|]. split; [reflexivity|].
  split; [now rewrite <- Happlied|].
  split; [reflexivity|]. split; [reflexivity|]. split; [reflexivity|].
  split; [|split].
  - intros ->. apply lerp_same.
  - intros ->. apply lerp_same.
  - intros ->. split; apply lerp_one.
Qed.

(** The fitted target of the stretched-out pose sits at height 0.2. *)
Lemma solveTarget_tposeFrame :
  exists target,
    @solveTarget termQuaternions "tshirt" 1.0 (Some defaultBase)
                 (landmarksOf tposeFrame) = Normal target
    /\ position target = THREE.mkVector3 0 0.2 0.
Proof.
  eexists. split; [reflexivity|].
  cbn [position]. unfold tposeFrame.
  rewrite landmarksOf_frame, !vectorOf_point. three. f_equal; lra.
Qed.

(** A fresh mesh at the origin meets the stretched-out pose: the first call
    moves it a fifth of the way, to height 0.04. *)
Lemma C6_first_call_smooths_witness :
  (33 <= List.length tposeFrame)%nat
  /\ previousTransforms (@constructor termQuaternions) !! THREE.uuid freshMesh
     = None
  /\ exists result this' model',
       updateModelFit constructor (Some freshMesh) (Some tposeFrame)
                      (Some defaultBase) noOptions
       = Normal (Some result, this', Some model')
       /\ position (applied result) = THREE.mkVector3 0 0.04 0
       /\ previousTransforms this' !! THREE.uuid freshMesh
          = Some (applied result).
Proof.
  split; [exact length_tposeFrame|]. split; [reflexivity|].
  destruct solveTarget_tposeFrame as (target & Htarget & Hpos).
  destruct (@C6_first_call_smooths termQuaternions constructor freshMesh
              tposeFrame (Some defaultBase) noOptions target
              length_tposeFrame eq_refl Htarget)
    as (result & this' & model' & Hcall & Hp & _ & _ & Hentry & _).
  exists result, this', model'. split; [exact Hcall|]. split; [|exact Hentry].
  rewrite Hp, Hpos. unfold THREE.lerp; cbn. f_equal; lra.
Defined.

(** C6 as stated fails: the garment key is new, the target position is
    (0, 0.2, 0), and the position applied by the first call is (0, 0.04, 0),
    a blend with the mesh's pre-existing position at the origin. *)
Lemma C6_first_call_counterexample :
  exists target result this' model',
    previousTransforms (@constructor termQuaternions) !! THREE.uuid freshMesh
    = None
    /\ @solveTarget termQuaternions "tshirt" 1.0 (Some defaultBase)
                    (landmarksOf tposeFrame) = Normal target
    /\ updateModelFit constructor (Some freshMesh) (Some tposeFrame)
                      (Some defaultBase) noOptions
       = Normal (Some result, this', Some model')
    /\ position target = THREE.mkVector3 0 0.2 0
    /\ position (applied result) = THREE.mkVector3 0 0.04 0
    /\ position (applied result) <> position target.
Proof.
  destruct solveTarget_tposeFrame as (target & Htarget & Hpos).
  destruct (updateModelFit_applied constructor freshMesh tposeFrame
              (Some defaultBase) noOptions target
              (tooFew_false _ length_tposeFrame) Htarget)
    as (result & this' & model' & Hcall & Happlied & _).
  exists target, result, this', model'.
  split; [reflexivity|]. split; [exact Htarget|]. split; [exact Hcall|].
  split; [exact Hpos|].
  assert (E : position (applied result) = THREE.mkVector3 0 0.04 0).
  { rewrite Happlied, Hpos. unfold THREE.lerp; cbn. f_equal; lra. }
  split; [exact E|]. rewrite E, Hpos.
  intros H. apply (f_equal THREE.y) in H. cbn in H. lra.
Qed.

(** ** C7: the calibration polling *)

Section Polling.

Context {Q : THREE.QuaternionOps}.

(** The poll converts an empty result, so [ClothingFit.calibrate] receives an
    empty array, refuses it, and the callback changes nothing. *)
Lemma pollCallback_identity (app : VirtualTryOn) : pollCallback app = Normal app.
Proof.
  unfold pollCallback. cbn [PoseDetection.extractKeypoints3D
    PoseDetection.poseLandmarks PoseDetection.poseWorldLandmarks
    PoseDetection.mapFrom mbind completion_bind].
  rewrite calibrate_tooFew by reflexivity.
  destruct app; reflexivity.
Qed.

Lemma fire_preserves (app : VirtualTryOn) (e : TimerEvent) :
  exists app',
    fire app e = Normal app'
    /\ clothingFit app' = clothingFit app
    /\ appIsCalibrated app' = appIsCalibrated app
    /\ loaderBaseMeasurements app' = loaderBaseMeasurements app.
Proof.
  destruct e; cbn [fire].
  - destruct (checkInterval app); [rewrite pollCallback_identity|];
      exists app; repeat split.
  - destruct (timeoutPending app); eexists; repeat split.
Qed.

Lemma run_preserves (events : list TimerEvent) (app : VirtualTryOn) :
  exists app',
    run app events = Normal app'
    /\ clothingFit app' = clothingFit app
    /\ appIsCalibrated app' = appIsCalibrated app
    /\ loaderBaseMeasurements app' = loaderBaseMeasurements app.
Proof.
  revert app. induction events as [|e events IH]; intros app.
  - exists app. repeat split.
  - destruct (fire_preserves app e) as (app1 & Hfire & Hc & Ha & Hb).
    destruct (IH app1) as (app2 & Hrun & Hc2 & Ha2 & Hb2).
    exists app2. cbn [run]. rewrite Hfire. cbn [mbind completion_bind].
    rewrite Hrun. repeat split; congruence.
Qed.

Lemma run_polls (polls : nat) (app : VirtualTryOn) (events : list TimerEvent) :
  checkInterval app = true ->
  run app (repeat IntervalFires polls ++ events) = run app events.
Proof.
  intros Harmed. induction polls as [|n IH]; [reflexivity|].
  cbn [repeat List.app run fire]. rewrite Harmed, pollCallback_identity.
  exact IH.
Qed.

End Polling.

(** C7, evaluated on the code.  The T-pose gate accepts the stretched-out
    pose when it is handed that pose; the poll, however, never hands it any
    pose: it calibrates against the conversion of an empty result, so every
    poll is refused and changes nothing.  Whatever the timers do, the
    calibration state of [ClothingFit], of the application and the base
    measurements stay as they were, and one [calibrate()] left alone always
    ends in the timeout branch reporting "Calibration timed out". *)
Theorem C7_polling_ignores_the_pose {Q : THREE.QuaternionOps}
    (app : VirtualTryOn) (events : list TimerEvent) (polls : nat) :
  (exists this',
     calibrate (clothingFit app) (Some tposeFrame) = Normal (true, this'))
  /\ PoseDetection.extractKeypoints3D
       {| PoseDetection.poseLandmarks := Some [];
          PoseDetection.poseWorldLandmarks := Some [] |} = Normal []
  /\ pollCallback app = Normal app
  /\ (exists app',
        run app events = Normal app'
        /\ clothingFit app' = clothingFit app
        /\ appIsCalibrated app' = appIsCalibrated app
        /\ loaderBaseMeasurements app' = loaderBaseMeasurements app)
  /\ (isRunning app = true ->
      appIsCalibrated app = false ->
      exists app',
        run (startCalibration app) (pollingSchedule polls) = Normal app'
        /\ status app' = ("ready", "Ready")%string
        /\ console app' = console app ++ ["Calibration timed out"%string]
        /\ guideHidden app' = true
        /\ checkInterval app' = false
        /\ appIsCalibrated app' = false
        /\ clothingFit app' = clothingFit app).
Proof.
  split; [|split; [reflexivity|split; [apply pollCallback_identity|split]]].
  - rewrite calibrate_eq by apply tooFew_false, length_tposeFrame.
    destruct tposeFrame_perpendicular as [Hl Hr].
    rewrite !bool_decide_eq_true_2
      by (rewrite absCosine_perpendicular by assumption; lra).
    eexists. reflexivity.
  - apply run_preserves.
  - intros Hrunning Hnot. unfold pollingSchedule, startCalibration.
    rewrite Hrunning. cbn [negb].
    rewrite run_polls by reflexivity.
    cbn [run fire timeoutPending mbind completion_bind].
    eexists. split; [reflexivity|].
    unfold timeoutCallback.
    cbn [status console guideHidden checkInterval appIsCalibrated clothingFit].
    rewrite Hnot. cbn [negb]. repeat split.
Qed.

(** Twenty polls and the timeout on a running, uncalibrated application:
    nothing is calibrated and the timeout is reported. *)
Lemma C7_polling_ignores_the_pose_witness :
  isRunning runningApp = true
  /\ appIsCalibrated runningApp = false
  /\ exists app',
       run (startCalibration runningApp) (pollingSchedule 20) = Normal app'
       /\ console app' = ["Calibration timed out"%string]
       /\ appIsCalibrated app' = false
       /\ isBodyCalibrated (clothingFit app') = false.
Proof.
  split; [reflexivity|]. split; [reflexivity|].
  destruct (@C7_polling_ignores_the_pose termQuaternions runningApp [] 20)
    as (_ & _ & _ & _ & Hschedule).
  destruct (Hschedule eq_refl eq_refl)
    as (app' & Hrun & _ & Hconsole & _ & _ & Hnot & Hfit).
  exists app'. split; [exact Hrun|]. split; [exact Hconsole|].
  split; [exact Hnot|]. rewrite Hfit. reflexivity.
Defined.

(** * Further properties of the code *)

(** ** The score function *)

Ltac score_cases :=
  unfold calculateQualityScore, Rmax;
  repeat (case_bool_decide || destruct (Rle_dec _ _));
  cbn [andb] in *.

Lemma calculateQualityScore_inUnit (ratio lo hi : R) :
  inUnit (calculateQualityScore ratio lo hi).
Proof. unfold inUnit. score_cases; lra. Qed.

(** X1.  The score is a trapezoid over the ratio: always within [0, 1], equal
    to
    1 exactly on the band, equal to 0 exactly from half a unit outside the
    band on, and never lower for a ratio closer to the band. *)
Theorem calculateQualityScore_shape (ratio lo hi : R) :
  lo <= hi ->
  inUnit (calculateQualityScore ratio lo hi)
  /\ (calculateQualityScore ratio lo hi = 1 <-> lo <= ratio <= hi)
  /\ (calculateQualityScore ratio lo hi = 0
      <-> ratio <= lo - 0.5 \/ hi + 0.5 <= ratio)
  /\ (forall closer,
        ratio <= closer <= lo \/ hi <= closer <= ratio ->
        calculateQualityScore ratio lo hi
        <= calculateQualityScore closer lo hi).
Proof.
  intros Hband. split; [apply calculateQualityScore_inUnit|].
  split; [|split].
  - split; score_cases; intros; lra.
  - split.
    + score_cases; intros; lra.
    + intros [E|E]; revert E; score_cases; intros; lra.
  - intros closer [E|E]; revert E; score_cases; intros; lra.
Qed.

Lemma calculateQualityScore_shape_witness :
  0.9 <= 1.1
  /\ calculateQualityScore 0.4 0.9 1.1 = 0
  /\ calculateQualityScore 1.6 0.9 1.1 = 0
  /\ calculateQualityScore 0.4 0.9 1.1 <= calculateQualityScore 0.7 0.9 1.1.
Proof.
  assert (Hband : 0.9 <= 1.1) by lra.
  split; [exact Hband|]. split; [|split].
  - apply (calculateQualityScore_shape 0.4 0.9 1.1 Hband). left. lra.
  - apply (calculateQualityScore_shape 1.6 0.9 1.1 Hband). right. lra.
  - apply (calculateQualityScore_shape 0.4 0.9 1.1 Hband). left. lra.
Defined.

(** ** State invariants of ClothingFit *)


Section Invariants.

Context {Q : THREE.QuaternionOps}.

Lemma calculateFitQuality_frame (this : ClothingFit) (modelType : string)
    (keypoints : option (list Keypoint)) (model : option THREE.Object3D) :
  smoothingFactor (calculateFitQuality this modelType keypoints model)
  = smoothingFactor this
  /\ isCalibrated (calculateFitQuality this modelType keypoints model)
     = isCalibrated this.
Proof.
  unfold calculateFitQuality. destruct model as [model|]; [|now split].
  destruct (tooFew keypoints); [now split|].
  repeat (destruct (_ || _) || destruct (_ =? _)%string); now split.
Qed.



Lemma updateModelFit_throws (this : ClothingFit) (model : THREE.Object3D)
    (keypoints : list Keypoint) (base : option BodyMeasurements)
    (options : Options) (e : error) :
  tooFew (Some keypoints) = false ->
  solveTarget (default "tshirt"%string (modelType options))
              (default 1.0 (sizeAdjustment options)) base
              (landmarksOf keypoints) = Throw e ->
  updateModelFit this (Some model) (Some keypoints) base options = Throw e.
Proof.
  intros Hguard Htarget. unfold updateModelFit.
  rewrite Hguard, getKeyLandmarks_landmarksOf,
    (calculateBodyMeasurements_eq _ _ Hguard).
  cbn [mbind completion_bind]. rewrite Htarget. reflexivity.
Qed.

(** A call of [updateModelFit] that returns either took the guard and
    changed nothing, or solved a target and went through the whole body. *)
Lemma updateModelFit_inversion (this : ClothingFit)
    (model : option THREE.Object3D) (keypoints : option (list Keypoint))
    (base : option BodyMeasurements) (options : Options)
    (r : option FitResult * ClothingFit * option THREE.Object3D) :
  updateModelFit this model keypoints base options = Normal r ->
  ((model = None \/ tooFew keypoints = true) /\ r = (None, this, model))
  \/ exists mesh kps target result this' mesh',
       model = Some mesh /\ keypoints = Some kps
       /\ tooFew (Some kps) = false
       /\ solveTarget (default "tshirt"%string (modelType options))
                      (default 1.0 (sizeAdjustment options)) base
                      (landmarksOf kps) = Normal target
       /\ r = (Some result, this', Some mesh')
       /\ this'
          = calculateFitQuality
              (set_previousTransforms
                 (set_userMeasurements this (measure (landmarksOf kps)))
                 (applySmoothing (smoothingFactor this)
                    (previousTransforms this) mesh target).1)
              (default "tshirt"%string (modelType options)) (Some kps)
              (Some mesh')
       /\ mesh'
          = (applySmoothing (smoothingFactor this) (previousTransforms this)
               mesh target).2
       /\ resultFitQuality result = fitQuality this'.
Proof.
  intros Hcall.
  destruct model as [mesh|];
    [|left; split; [now left|]; cbn in Hcall; congruence].
  destruct (tooFew keypoints) eqn:Hguard.
  - left. split; [now right|].
    rewrite updateModelFit_guard in Hcall by now right. congruence.
  - right. destruct keypoints as [kps|]; [|discriminate].
    destruct (solveTarget (default "tshirt"%string (modelType options))
                (default 1.0 (sizeAdjustment options)) base
                (landmarksOf kps)) as [target|e] eqn:Htarget.
    + rewrite (updateModelFit_body _ _ _ _ _ _ Hguard Htarget) in Hcall.
      cbn zeta in Hcall. injection Hcall as <-.
      exists mesh, kps, target. do 3 eexists.
      split; [reflexivity|]. split; [reflexivity|]. split; [exact Hguard|].
      split; [exact Htarget|]. split; [reflexivity|]. split; [reflexivity|].
      split; reflexivity.
    + rewrite (updateModelFit_throws _ _ _ _ _ _ Hguard Htarget) in Hcall.
      discriminate.
Qed.


End Invariants.


Lemma calibrate_tposeFrame {Q : THREE.QuaternionOps} (this : ClothingFit) :
  calibrate this (Some tposeFrame)
  = Normal (true,
            set_isCalibrated
              (set_userMeasurements this (measure (landmarksOf tposeFrame)))
              true).
Proof.
  rewrite calibrate_eq by apply tooFew_false, length_tposeFrame.
  destruct tposeFrame_perpendicular as [Hl Hr].
  rewrite !bool_decide_eq_true_2
    by (rewrite absCosine_perpendicular by assumption; lra).
  reflexivity.
Qed.


(** ** The calibration flag *)

Section CalibrationFlag.

Context {Q : THREE.QuaternionOps}.

Lemma perform_isCalibrated (this this' : ClothingFit) (c : Call) :
  perform this c = Normal this' ->
  isCalibrated this' = isCalibrated this
  \/ (isCalibrated this' = true
      /\ exists keypoints,
           c = CallCalibrate keypoints /\ checkTpose keypoints = Normal true).
Proof.
  intros Hcall. destruct c; cbn [perform] in Hcall.
  - destruct (updateModelFit this model keypoints baseMeasurements options)
      as [r|e] eqn:Hfit; [|discriminate].
    cbn in Hcall. injection Hcall as <-. left.
    destruct (updateModelFit_inversion _ _ _ _ _ _ Hfit)
      as [[_ ->]|(mesh & kps & target & result & t & mesh' & -> & -> & Hguard
                  & _ & -> & -> & _ & _)]; [reflexivity|].
    cbn [fst snd]. now rewrite (proj2 (calculateFitQuality_frame _ _ _ _)).
  - left. destruct (tooFew keypoints) eqn:Hguard.
    + rewrite (calculateBodyMeasurements_tooFew _ _ Hguard) in Hcall.
      now injection Hcall as <-.
    + destruct keypoints as [kps|]; [|discriminate].
      rewrite (calculateBodyMeasurements_eq _ _ Hguard) in Hcall.
      now injection Hcall as <-.
  - destruct (tooFew keypoints) eqn:Hguard.
    + rewrite (calibrate_tooFew _ _ Hguard) in Hcall.
      left. now injection Hcall as <-.
    + destruct keypoints as [kps|]; [|discriminate].
      rewrite (calibrate_eq _ _ Hguard) in Hcall.
      destruct (_ && _) eqn:Hpose; injection Hcall as <-; [|now left].
      right. split; [reflexivity|]. eexists. split; [reflexivity|].
      now rewrite (checkTpose_eq _ Hguard), Hpose.
  - injection Hcall as <-. left.
    apply (proj2 (calculateFitQuality_frame _ _ _ _)).
  - injection Hcall as <-. now left.
Qed.

End CalibrationFlag.

(** X3.  Over any sequence of calls the calibration flag is never reset, and it
    is set only by a [calibrate] whose landmarks pass the T-pose check:
    measuring, fitting, scoring and changing the smoothing factor leave it
    alone. *)
Theorem isCalibrated_set_once {Q : THREE.QuaternionOps}
    (calls : list Call) (this this' : ClothingFit) :
  performAll this calls = Normal this' ->
  (isCalibrated this = true -> isCalibrated this' = true)
  /\ (isCalibrated this' = true ->
      isCalibrated this = true
      \/ exists keypoints,
           CallCalibrate keypoints ∈ calls
           /\ checkTpose keypoints = Normal true).
Proof.
  revert this. induction calls as [|c calls IH]; intros this Hrun.
  - cbn in Hrun. injection Hrun as <-. split; [tauto|now left].
  - cbn [performAll] in Hrun.
    destruct (perform this c) as [this1|e] eqn:Hc; [|discriminate].
    cbn in Hrun. destruct (IH _ Hrun) as [Hkeep Hfrom].
    destruct (perform_isCalibrated _ _ _ Hc)
      as [E|(E & keypoints & -> & Hpose)].
    + rewrite E in *. split; [exact Hkeep|].
      intros H. destruct (Hfrom H) as [?|(kps & Hin & Hp)]; [now left|].
      right. exists kps. split; [apply elem_of_cons; now right|exact Hp].
    + split; [intros _; now apply Hkeep|].
      intros _. right. exists keypoints.
      split; [apply elem_of_cons; now left|exact Hpose].
Qed.

(** A calibrated singleton stays calibrated through a failed calibration on
    the arms-down pose and a later fit. *)
Lemma isCalibrated_set_once_witness :
  exists this1 this2 : @ClothingFit termQuaternions,
    calibrate constructor (Some tposeFrame) = Normal (true, this1)
    /\ performAll this1
         [CallCalibrate (Some armsDownFrame);
          CallUpdateModelFit (Some freshMesh) (Some []) None noOptions]
       = Normal this2
    /\ isCalibrated this2 = true.
Proof.
  eexists. eexists. split; [apply calibrate_tposeFrame|].
  assert (Hrun : performAll
            (set_isCalibrated
               (set_userMeasurements (@constructor termQuaternions)
                  (measure (landmarksOf tposeFrame))) true)
            [CallCalibrate (Some armsDownFrame);
             CallUpdateModelFit (Some freshMesh) (Some []) None noOptions]
          = Normal
              (set_isCalibrated
                 (set_userMeasurements constructor
                    (measure (landmarksOf tposeFrame))) true)).
  { cbn [performAll perform].
    rewrite calibrate_eq by apply tooFew_false, length_armsDownFrame.
    destruct armsDownFrame_parallel as (Ht & Hl & _).
    rewrite (bool_decide_eq_false_2
               (absCosine (leftArm (landmarksOf armsDownFrame)) _ < _)).
    - reflexivity.
    - rewrite (absCosine_parallel _ _ (- (5 / 6))); [lra| |lra|exact Hl].
      rewrite Ht. intros E. apply (f_equal THREE.y) in E. cbn in E. lra. }
  split; [exact Hrun|].
  apply (isCalibrated_set_once _ _ _ Hrun). reflexivity.
Defined.

(** ** The smoother over one and over many frames *)

Lemma lerp_between (v t a : R) :
  0 <= a <= 1 -> between v (v + (t - v) * a) t.
Proof.
  intros [H0 H1]. unfold between, Rmin, Rmax.
  destruct (Rle_dec v t); nra.
Qed.

Lemma lerp_betweenVectors (v t : THREE.Vector3) (a : R) :
  0 <= a <= 1 -> betweenVectors v (THREE.lerp v t a) t.
Proof.
  intros Ha. unfold betweenVectors, THREE.lerp; cbn [THREE.x THREE.y THREE.z].
  repeat split; apply lerp_between; assumption.
Qed.

Lemma lerp_zero (v t : THREE.Vector3) : THREE.lerp v t 0 = v.
Proof.
  destruct v as [a b c]. unfold THREE.lerp; cbn. f_equal; lra.
Qed.

Lemma lerp_full (v t : THREE.Vector3) : THREE.lerp v t 1 = t.
Proof.
  destruct v as [a b c], t as [a' b' c'].
  unfold THREE.lerp; cbn. f_equal; lra.
Qed.

Section Smoother.

Context {Q : THREE.QuaternionOps}.

(** One call past the guard, with everything the later proofs need. *)
Lemma updateModelFit_step (this : ClothingFit) (model : THREE.Object3D)
    (keypoints : list Keypoint) (base : option BodyMeasurements)
    (options : Options) (target : Transform) :
  tooFew (Some keypoints) = false ->
  solveTarget (default "tshirt"%string (modelType options))
              (default 1.0 (sizeAdjustment options)) base
              (landmarksOf keypoints) = Normal target ->
  exists result this' model',
    updateModelFit this (Some model) (Some keypoints) base options
    = Normal (Some result, this', Some model')
    /\ applied result
       = mkTransform
           (THREE.lerp (THREE.position model) (position target)
                       (1 - smoothingFactor this))
           (THREE.slerp (THREE.quaternion model) (rotation target)
                        (1 - smoothingFactor this))
           (THREE.lerp (THREE.scale model) (scale target)
                       (1 - smoothingFactor this))
    /\ model'
       = THREE.mkObject3D (THREE.uuid model) (position (applied result))
                          (rotation (applied result)) (scale (applied result))
    /\ smoothingFactor this' = smoothingFactor this
    /\ isCalibrated this' = isCalibrated this
    /\ getMeasurements this' = measure (landmarksOf keypoints)
    /\ resultFitQuality result = fitQuality this'
    /\ fitQuality this'
       = fitQuality
           (calculateFitQuality
              (set_userMeasurements this (measure (landmarksOf keypoints)))
              (default "tshirt"%string (modelType options)) (Some keypoints)
              (Some model'))
    /\ forall id,
         previousTransforms this' !! id
         = if decide (id = THREE.uuid model) then Some (applied result)
           else previousTransforms this !! id.
Proof.
  intros Hguard Htarget. do 3 eexists. split.
  - apply (updateModelFit_body this model keypoints base options target);
      assumption.
  - unfold getMeasurements.
    rewrite previousTransforms_calculateFitQuality,
      userMeasurements_calculateFitQuality,
      (proj1 (calculateFitQuality_frame _ _ _ _)),
      (proj2 (calculateFitQuality_frame _ _ _ _)).
    unfold applySmoothing.
    cbn [fst snd applied position rotation scale THREE.position
         THREE.quaternion THREE.scale THREE.uuid set_previousTransforms
         set_userMeasurements previousTransforms userMeasurements
         smoothingFactor isCalibrated resultFitQuality].
    repeat (split; [reflexivity|]). split.
    + unfold calculateFitQuality. rewrite Hguard.
      repeat (destruct (_ || _) || destruct (_ =? _)%string); reflexivity.
    + intros id. destruct (decide (id = THREE.uuid model)) as [->|Hne].
      * apply lookup_insert_eq.
      * rewrite lookup_insert_ne by congruence.
        destruct (previousTransforms this !! THREE.uuid model);
          [reflexivity|]. apply lookup_insert_ne. congruence.
Qed.

End Smoother.

(** X4.  Whatever factor is handed to [setSmoothingFactor], the next fit moves
    the mesh's position and scale to a point between where they were and the
    target, never beyond either.  A factor of 1 or more freezes the mesh; a
    factor of 0 or less puts it on the target at once. *)
Theorem smoothing_never_overshoots {Q : THREE.QuaternionOps}
    (this : ClothingFit) (factor : R) (model : THREE.Object3D)
    (keypoints : list Keypoint) (base : option BodyMeasurements)
    (options : Options) (target : Transform) :
  (33 <= List.length keypoints)%nat ->
  solveTarget (default "tshirt"%string (modelType options))
              (default 1.0 (sizeAdjustment options)) base
              (landmarksOf keypoints) = Normal target ->
  exists result this' model',
    updateModelFit (setSmoothingFactor this factor) (Some model)
                   (Some keypoints) base options
    = Normal (Some result, this', Some model')
    /\ betweenVectors (THREE.position model) (position (applied result))
                      (position target)
    /\ betweenVectors (THREE.scale model) (scale (applied result))
                      (scale target)
    /\ (1 <= factor ->
        position (applied result) = THREE.position model
        /\ scale (applied result) = THREE.scale model)
    /\ (factor <= 0 ->
        position (applied result) = position target
        /\ scale (applied result) = scale target).
Proof.
  intros Hlen Htarget.
  destruct (updateModelFit_step (setSmoothingFactor this factor) model
              keypoints base options target (tooFew_false _ Hlen) Htarget)
    as (result & this' & model' & Hcall & Happlied & _).
  exists result, this', model'. split; [exact Hcall|].
  rewrite Happlied. cbn [position scale smoothingFactor setSmoothingFactor].
  assert (Hclamp : 0 <= 1 - Rmax 0 (Rmin 1 factor) <= 1)
    by (unfold Rmax, Rmin; repeat destruct (Rle_dec _ _); lra).
  split; [now apply lerp_betweenVectors|].
  split; [now apply lerp_betweenVectors|]. split.
  - intros H. replace (1 - Rmax 0 (Rmin 1 factor)) with 0
      by (unfold Rmax, Rmin; repeat destruct (Rle_dec _ _); lra).
    split; apply lerp_zero.
  - intros H. replace (1 - Rmax 0 (Rmin 1 factor)) with 1
      by (unfold Rmax, Rmin; repeat destruct (Rle_dec _ _); lra).
    split; apply lerp_full.
Qed.

(** A factor of 3 is clamped to 1: the fresh mesh stays at the origin
    although the target of the stretched-out pose is at height 0.2. *)
Lemma smoothing_never_overshoots_witness :
  (33 <= List.length tposeFrame)%nat
  /\ exists target result this' model',
       @solveTarget termQuaternions "tshirt" 1.0 (Some defaultBase)
                    (landmarksOf tposeFrame) = Normal target
       /\ position target = THREE.mkVector3 0 0.2 0
       /\ updateModelFit (setSmoothingFactor constructor 3) (Some freshMesh)
                         (Some tposeFrame) (Some defaultBase) noOptions
          = Normal (Some result, this', Some model')
       /\ position (applied result) = THREE.zero.
Proof.
  split; [exact length_tposeFrame|].
  destruct solveTarget_tposeFrame as (target & Htarget & Hpos).
  destruct (@smoothing_never_overshoots termQuaternions constructor 3
              freshMesh tposeFrame (Some defaultBase) noOptions target
              length_tposeFrame Htarget)
    as (result & this' & model' & Hcall & _ & _ & Hfreeze & _).
  exists target, result, this', model'.
  split; [exact Htarget|]. split; [exact Hpos|]. split; [exact Hcall|].
  apply Hfreeze. lra.
Defined.

Lemma lerp_lerp (t v : THREE.Vector3) (s p : R) :
  THREE.lerp t (THREE.lerp v t (1 - s)) p = THREE.lerp t v (s * p).
Proof.
  destruct t as [a b c], v as [a' b' c'].
  unfold THREE.lerp; cbn. f_equal; ring.
Qed.

(** X5.  For a user who stands still, [n] fits in a row leave the mesh's
    position
    and scale at [target + (start - target) * smoothingFactor ^ n]: the
    distance to the target shrinks by the factor [smoothingFactor] with each
    frame, component by component. *)
Theorem fitTimes_converges {Q : THREE.QuaternionOps} (n : nat)
    (this : ClothingFit) (model : THREE.Object3D) (keypoints : list Keypoint)
    (base : option BodyMeasurements) (options : Options) (target : Transform) :
  (33 <= List.length keypoints)%nat ->
  solveTarget (default "tshirt"%string (modelType options))
              (default 1.0 (sizeAdjustment options)) base
              (landmarksOf keypoints) = Normal target ->
  exists this' model',
    fitTimes n this model (Some keypoints) base options = Normal (this', model')
    /\ THREE.position model'
       = THREE.lerp (position target) (THREE.position model)
                    (smoothingFactor this ^ n)
    /\ THREE.scale model'
       = THREE.lerp (scale target) (THREE.scale model)
                    (smoothingFactor this ^ n)
    /\ THREE.x (THREE.position model') - THREE.x (position target)
       = (THREE.x (THREE.position model) - THREE.x (position target))
         * smoothingFactor this ^ n
    /\ THREE.uuid model' = THREE.uuid model
    /\ smoothingFactor this' = smoothingFactor this.
Proof.
  intros Hlen Htarget. revert this model.
  induction n as [|n IH]; intros this model.
  - exists this, model. split; [reflexivity|].
    cbn [pow]. rewrite !lerp_full. repeat split. lra.
  - destruct (updateModelFit_step this model keypoints base options target
                (tooFew_false _ Hlen) Htarget)
      as (result & this1 & model1 & Hcall & Happlied & Hmodel & Hs & _).
    destruct (IH this1 model1) as (this' & model' & Hrun & Hp & Hsc & _ & Hu & Hs').
    exists this', model'. split.
    { cbn [fitTimes]. rewrite Hcall. exact Hrun. }
    rewrite Hs in Hp, Hsc, Hs'.
    rewrite Hmodel, Happlied in Hp, Hsc, Hu.
    cbn [THREE.position THREE.scale THREE.uuid position scale] in Hp, Hsc, Hu.
    rewrite lerp_lerp in Hp, Hsc. cbn [pow].
    split; [exact Hp|]. split; [exact Hsc|].
    split; [|split; assumption].
    rewrite Hp. unfold THREE.lerp. cbn [THREE.x]. ring.
Qed.

(** With the default factor 0.8, fifty frames in the stretched-out pose
    bring the fresh mesh to within a thousandth of its initial distance from
    the target height 0.2. *)
Lemma fitTimes_converges_witness :
  (33 <= List.length tposeFrame)%nat
  /\ exists (this' : @ClothingFit termQuaternions) model',
       fitTimes 50 constructor freshMesh (Some tposeFrame) (Some defaultBase)
                noOptions = Normal (this', model')
       /\ Rabs (THREE.y (THREE.position model') - 0.2) < 0.001 * Rabs (0 - 0.2).
Proof.
  split; [exact length_tposeFrame|].
  destruct solveTarget_tposeFrame as (target & Htarget & Hpos).
  destruct (@fitTimes_converges termQuaternions 50 constructor freshMesh
              tposeFrame (Some defaultBase) noOptions target
              length_tposeFrame Htarget)
    as (this' & model' & Hrun & Hp & _).
  exists this', model'. split; [exact Hrun|].
  rewrite Hp, Hpos. unfold THREE.lerp.
  cbn [THREE.y THREE.position freshMesh THREE.zero smoothingFactor constructor].
  assert (Hpow : 0 < 0.8 ^ 50 < 0.001) by (split; [apply pow_lt|]; lra).
  set (p := 0.8 ^ 50) in *. clearbody p.
  unfold Rabs. destruct (Rcase_abs _), (Rcase_abs _); nra.
Defined.

(** ** Categories the solver does not know, and missing base measurements *)

Section Categories.

Context {Q : THREE.QuaternionOps}.

Lemma solveTarget_fallback (modelType : string) (size : R)
    (base : option BodyMeasurements) (l : Landmarks) :
  ~ knownCategory modelType ->
  solveTarget modelType size base l
  = Normal (mkTransform (midpoint (leftShoulder l) (rightShoulder l))
              THREE.identity
              (THREE.multiplyScalar (THREE.mkVector3 1 1 1) size)).
Proof.
  intros Hunknown. unfold knownCategory in Hunknown.
  rewrite !not_elem_of_cons in Hunknown.
  destruct Hunknown as (H1 & H2 & H3 & H4 & H5 & _).
  unfold solveTarget.
  rewrite (proj2 (String.eqb_neq _ _) H1), (proj2 (String.eqb_neq _ _) H2),
    (proj2 (String.eqb_neq _ _) H3), (proj2 (String.eqb_neq _ _) H4),
    (proj2 (String.eqb_neq _ _) H5).
  reflexivity.
Qed.

Lemma solveTarget_missing_base (modelType : string) (size : R) (l : Landmarks) :
  knownCategory modelType ->
  solveTarget modelType size None l = Throw TypeError.
Proof.
  unfold knownCategory. rewrite !elem_of_cons, elem_of_nil.
  intros [->|[->|[->|[->|[->|[]]]]]]; reflexivity.
Qed.

Lemma calculateFitQuality_fallback (this : ClothingFit) (modelType : string)
    (keypoints : option (list Keypoint)) (model : THREE.Object3D) :
  ~ knownCategory modelType ->
  tooFew keypoints = false ->
  fitQuality (calculateFitQuality this modelType keypoints (Some model))
  = {| overall := 0; shoulders := 0; torso := 0; arms := 0; legs := 0 |}.
Proof.
  intros Hunknown Hguard. unfold knownCategory in Hunknown.
  rewrite !not_elem_of_cons in Hunknown.
  destruct Hunknown as (H1 & H2 & H3 & H4 & H5 & _).
  unfold calculateFitQuality. rewrite Hguard.
  rewrite (proj2 (String.eqb_neq _ _) H1), (proj2 (String.eqb_neq _ _) H2),
    (proj2 (String.eqb_neq _ _) H3), (proj2 (String.eqb_neq _ _) H4),
    (proj2 (String.eqb_neq _ _) H5).
  reflexivity.
Qed.

End Categories.

(** X6.  For a category name other than 'tshirt', 'shirt', 'jacket', 'hoodie'
    and
    'pants', a fit on at least 33 landmarks never reads the base
    measurements (so it completes even when they are missing), aims at the
    shoulder midpoint with identity rotation and the uniform scale
    [sizeAdjustment], and reports all five fit scores as 0. *)
Theorem unknown_category_falls_back {Q : THREE.QuaternionOps}
    (this : ClothingFit) (model : THREE.Object3D) (keypoints : list Keypoint)
    (base : option BodyMeasurements) (category : string) (size : R) :
  (33 <= List.length keypoints)%nat ->
  ~ knownCategory category ->
  exists result this' model',
    updateModelFit this (Some model) (Some keypoints) base
                   (mkOptions (Some size) (Some category))
    = Normal (Some result, this', Some model')
    /\ position (applied result)
       = THREE.lerp (THREE.position model)
           (midpoint (leftShoulder (landmarksOf keypoints))
                     (rightShoulder (landmarksOf keypoints)))
           (1 - smoothingFactor this)
    /\ rotation (applied result)
       = THREE.slerp (THREE.quaternion model) THREE.identity
                     (1 - smoothingFactor this)
    /\ scale (applied result)
       = THREE.lerp (THREE.scale model) (THREE.mkVector3 size size size)
                    (1 - smoothingFactor this)
    /\ resultFitQuality result
       = {| overall := 0; shoulders := 0; torso := 0; arms := 0; legs := 0 |}.
Proof.
  intros Hlen Hunknown.
  pose proof (tooFew_false _ Hlen) as Hguard.
  destruct (updateModelFit_step this model keypoints base
              (mkOptions (Some size) (Some category)) _ Hguard
              (solveTarget_fallback category size base _ Hunknown))
    as (result & this' & model' & Hcall & Happlied & _ & _ & _ & _ & Hq & Hfq
        & _).
  exists result, this', model'. split; [exact Hcall|].
  rewrite Happlied, Hq, Hfq. cbn [position rotation scale].
  split; [reflexivity|]. split; [reflexivity|]. split.
  - unfold THREE.multiplyScalar; cbn [THREE.x THREE.y THREE.z].
    rewrite !Rmult_1_l. reflexivity.
  - now apply calculateFitQuality_fallback.
Qed.

(** A 'necklace', one of the assets the loader offers, is fitted without
    base measurements and scores 0. *)
Lemma unknown_category_falls_back_witness :
  (33 <= List.length tposeFrame)%nat
  /\ ~ knownCategory "necklace"
  /\ exists result this' model',
       updateModelFit constructor (Some freshMesh) (Some tposeFrame) None
                      (mkOptions (Some 1) (Some "necklace"%string))
       = Normal (Some result, this', Some model')
       /\ overall (resultFitQuality result) = 0.
Proof.
  assert (Hunknown : ~ knownCategory "necklace").
  { unfold knownCategory. rewrite !not_elem_of_cons.
    repeat split; try discriminate. apply not_elem_of_nil. }
  split; [exact length_tposeFrame|]. split; [exact Hunknown|].
  destruct (@unknown_category_falls_back termQuaternions constructor freshMesh
              tposeFrame None "necklace" 1 length_tposeFrame Hunknown)
    as (result & this' & model' & Hcall & _ & _ & _ & Hq).
  exists result, this', model'. split; [exact Hcall|]. now rewrite Hq.
Defined.

(** X7.  For each of the five categories the solver knows, a fit on at least 33
    landmarks with a mesh but without base measurements throws a TypeError:
    only the guard for too few landmarks is silent. *)
Theorem missing_base_throws {Q : THREE.QuaternionOps} (this : ClothingFit)
    (model : THREE.Object3D) (keypoints : list Keypoint) (options : Options) :
  (33 <= List.length keypoints)%nat ->
  knownCategory (default "tshirt"%string (modelType options)) ->
  updateModelFit this (Some model) (Some keypoints) None options
  = Throw TypeError.
Proof.
  intros Hlen Hknown. apply updateModelFit_throws.
  - apply tooFew_false, Hlen.
  - now apply solveTarget_missing_base.
Qed.

Lemma missing_base_throws_witness :
  (33 <= List.length tposeFrame)%nat
  /\ knownCategory (default "tshirt"%string (modelType noOptions))
  /\ updateModelFit constructor (Some freshMesh) (Some tposeFrame) None
                    noOptions = Throw TypeError.
Proof.
  assert (Hknown : knownCategory (default "tshirt"%string (modelType noOptions)))
    by (unfold knownCategory; cbn; apply elem_of_cons; now left).
  split; [exact length_tposeFrame|]. split; [exact Hknown|].
  exact (@missing_base_throws termQuaternions constructor freshMesh tposeFrame
           noOptions length_tposeFrame Hknown).
Defined.

(** ** What a fit writes *)

(** X8.  A fit that returns a result has rewritten exactly one entry of
    [previousTransforms], the one of the mesh it was handed: that entry, the
    mesh's own transform and the returned transform are then the same, and
    the entries of all other garments are as before.  A fit that returns
    nothing has changed neither the singleton nor the mesh. *)
Theorem fit_writes_one_entry {Q : THREE.QuaternionOps} (this : ClothingFit)
    (model : option THREE.Object3D) (keypoints : option (list Keypoint))
    (base : option BodyMeasurements) (options : Options)
    (r : option FitResult) (this' : ClothingFit)
    (model' : option THREE.Object3D) :
  updateModelFit this model keypoints base options = Normal (r, this', model') ->
  (forall id,
     (forall mesh, model = Some mesh -> id <> THREE.uuid mesh) ->
     previousTransforms this' !! id = previousTransforms this !! id)
  /\ (forall result,
        r = Some result ->
        exists mesh mesh',
          model = Some mesh /\ model' = Some mesh'
          /\ THREE.uuid mesh' = THREE.uuid mesh
          /\ applied result
             = mkTransform (THREE.position mesh') (THREE.quaternion mesh')
                           (THREE.scale mesh')
          /\ previousTransforms this' !! THREE.uuid mesh
             = Some (applied result))
  /\ (r = None -> this' = this /\ model' = model).
Proof.
  intros Hcall.
  destruct (updateModelFit_inversion _ _ _ _ _ _ Hcall)
    as [[_ E]|(mesh & kps & target & result & t & mesh' & -> & -> & Hguard
               & Htarget & E & _)].
  - injection E as -> -> ->. split; [reflexivity|]. split; [discriminate|].
    now split.
  - destruct (updateModelFit_step this mesh kps base options target Hguard
                Htarget)
      as (result1 & this1 & mesh1 & Hstep & Happlied & Hmesh & _ & _ & _ & _
          & _ & Hentries).
    rewrite Hstep in Hcall. injection Hcall as <- <- <-.
    split; [|split].
    + intros id Hid. rewrite Hentries.
      destruct (decide (id = THREE.uuid mesh)) as [->|_]; [|reflexivity].
      now destruct (Hid mesh eq_refl).
    + intros result2 [= <-]. exists mesh, mesh1.
      split; [reflexivity|]. split; [reflexivity|].
      rewrite Hmesh. cbn [THREE.uuid THREE.position THREE.quaternion THREE.scale].
      split; [reflexivity|]. split; [now destruct (applied result1)|].
      rewrite Hentries. now destruct (decide _).
    + discriminate.
Qed.

(** Fitting the fresh mesh leaves the entry of another garment absent and
    stores the returned transform under the mesh's own key. *)
Lemma fit_writes_one_entry_witness :
  exists result this' mesh',
    updateModelFit constructor (Some freshMesh) (Some tposeFrame)
                   (Some defaultBase) noOptions
    = Normal (Some result, this', Some mesh')
    /\ previousTransforms this' !! "mesh-2"%string = None
    /\ previousTransforms this' !! "mesh-1"%string = Some (applied result).
Proof.
  destruct solveTarget_tposeFrame as (target & Htarget & _).
  destruct (updateModelFit_applied constructor freshMesh tposeFrame
              (Some defaultBase) noOptions target
              (tooFew_false _ length_tposeFrame) Htarget)
    as (result & this' & mesh' & Hcall & _).
  exists result, this', mesh'. split; [exact Hcall|].
  destruct (fit_writes_one_entry _ _ _ _ _ _ _ _ Hcall) as (Hother & Hown & _).
  split.
  - rewrite Hother; [reflexivity|]. intros mesh [= <-]. discriminate.
  - destruct (Hown result eq_refl) as (mesh & mesh1 & [= <-] & _ & _ & _ & H).
    exact H.
Defined.

(** ** Moving and resizing the pose *)

Lemma at_index_fmap (f : Keypoint -> Keypoint) (keypoints : list Keypoint)
    (i : nat) :
  f KUndefined = KUndefined ->
  at_index (f <$> keypoints) i = f (at_index keypoints i).
Proof.
  intros Hf. unfold at_index. rewrite list_lookup_fmap.
  destruct (keypoints !! i); [reflexivity|]. cbn. now rewrite Hf.
Qed.

Lemma at_index_wellFormed (keypoints : list Keypoint) (i : nat) :
  Forall wellFormed keypoints -> (i < List.length keypoints)%nat ->
  wellFormed (at_index keypoints i).
Proof.
  intros Hall Hi. unfold at_index.
  destruct (lookup_lt_is_Some_2 keypoints i Hi) as [k Hk]. rewrite Hk. cbn.
  exact (proj1 (Forall_lookup _ _) Hall i k Hk).
Qed.

Lemma vectorOf_translate (dx dy dz : R) (keypoint : Keypoint) :
  wellFormed keypoint ->
  vectorOf (translate dx dy dz keypoint)
  = THREE.addVectors (vectorOf keypoint) (THREE.mkVector3 dx (- dy) (- dz)).
Proof.
  destruct keypoint as [| |[x| |s] y z v]; cbn; try contradiction.
  intros _. unfold THREE.addVectors; cbn. f_equal; ring.
Qed.

Lemma vectorOf_magnify (c : R) (keypoint : Keypoint) :
  vectorOf (magnify c keypoint) = THREE.multiplyScalar (vectorOf keypoint) c.
Proof.
  destruct keypoint as [| |[x| |s] y z v];
    unfold THREE.multiplyScalar; cbn; f_equal; ring.
Qed.

Lemma landmarksOf_translate (dx dy dz : R) (keypoints : list Keypoint) :
  (33 <= List.length keypoints)%nat ->
  Forall wellFormed keypoints ->
  landmarksOf (translate dx dy dz <$> keypoints)
  = mapLandmarks
      (fun v => THREE.addVectors v (THREE.mkVector3 dx (- dy) (- dz)))
      (landmarksOf keypoints).
Proof.
  intros Hlen Hall. unfold landmarksOf, mapLandmarks.
  cbn [leftShoulder rightShoulder leftHip rightHip leftElbow rightElbow
       leftWrist rightWrist leftKnee rightKnee leftAnkle rightAnkle].
  rewrite !at_index_fmap by reflexivity.
  rewrite !vectorOf_translate by (apply at_index_wellFormed; [assumption|lia]).
  reflexivity.
Qed.

Lemma landmarksOf_magnify (c : R) (keypoints : list Keypoint) :
  landmarksOf (magnify c <$> keypoints)
  = mapLandmarks (fun v => THREE.multiplyScalar v c) (landmarksOf keypoints).
Proof.
  unfold landmarksOf, mapLandmarks.
  cbn [leftShoulder rightShoulder leftHip rightHip leftElbow rightElbow
       leftWrist rightWrist leftKnee rightKnee leftAnkle rightAnkle].
  rewrite !at_index_fmap by reflexivity.
  rewrite !vectorOf_magnify. reflexivity.
Qed.

Lemma distanceTo_shift (a b d : THREE.Vector3) :
  THREE.distanceTo (THREE.addVectors a d) (THREE.addVectors b d)
  = THREE.distanceTo a b.
Proof.
  unfold THREE.distanceTo, THREE.distanceToSquared, THREE.addVectors; cbn.
  f_equal. ring.
Qed.

Lemma midpoint_shift (a b d : THREE.Vector3) :
  midpoint (THREE.addVectors a d) (THREE.addVectors b d)
  = THREE.addVectors (midpoint a b) d.
Proof.
  unfold midpoint, THREE.addVectors, THREE.multiplyScalar; cbn. f_equal; lra.
Qed.

Lemma subVectors_shift (a b d : THREE.Vector3) :
  THREE.subVectors (THREE.addVectors a d) (THREE.addVectors b d)
  = THREE.subVectors a b.
Proof.
  unfold THREE.subVectors, THREE.addVectors; cbn. f_equal; ring.
Qed.

Lemma measure_shift (d : THREE.Vector3) (l : Landmarks) :
  measure (mapLandmarks (fun v => THREE.addVectors v d) l) = measure l.
Proof.
  unfold measure, mapLandmarks.
  cbn [leftShoulder rightShoulder leftHip rightHip leftElbow rightElbow
       leftWrist rightWrist leftKnee rightKnee leftAnkle rightAnkle].
  now rewrite !midpoint_shift, !distanceTo_shift.
Qed.

Lemma arms_shift (d : THREE.Vector3) (l : Landmarks) :
  leftArm (mapLandmarks (fun v => THREE.addVectors v d) l) = leftArm l
  /\ rightArm (mapLandmarks (fun v => THREE.addVectors v d) l) = rightArm l
  /\ torsoAxis (mapLandmarks (fun v => THREE.addVectors v d) l) = torsoAxis l.
Proof.
  unfold leftArm, rightArm, torsoAxis, mapLandmarks.
  cbn [leftShoulder rightShoulder leftHip rightHip leftElbow rightElbow
       leftWrist rightWrist leftKnee rightKnee leftAnkle rightAnkle].
  now rewrite !midpoint_shift, !subVectors_shift.
Qed.

(** X9.  Measurements and the T-pose check do not depend on where the user
    stands: moving every landmark of a well-formed frame by the same offset
    changes neither what [calculateBodyMeasurements] stores, nor what
    [checkTpose] answers, nor what [calibrate] does. *)
Theorem translation_invariant {Q : THREE.QuaternionOps} (this : ClothingFit)
    (dx dy dz : R) (keypoints : list Keypoint) :
  (33 <= List.length keypoints)%nat ->
  Forall wellFormed keypoints ->
  calculateBodyMeasurements this (Some (translate dx dy dz <$> keypoints))
  = calculateBodyMeasurements this (Some keypoints)
  /\ checkTpose (Some (translate dx dy dz <$> keypoints))
     = checkTpose (Some keypoints)
  /\ calibrate this (Some (translate dx dy dz <$> keypoints))
     = calibrate this (Some keypoints).
Proof.
  intros Hlen Hall.
  assert (Hlen' : (33 <= List.length (translate dx dy dz <$> keypoints))%nat)
    by now rewrite length_fmap.
  pose proof (tooFew_false _ Hlen) as Hg.
  pose proof (tooFew_false _ Hlen') as Hg'.
  destruct (arms_shift (THREE.mkVector3 dx (- dy) (- dz))
              (landmarksOf keypoints)) as (El & Er & Et).
  split; [|split].
  - rewrite !calculateBodyMeasurements_eq by assumption.
    now rewrite landmarksOf_translate, measure_shift.
  - rewrite !checkTpose_eq by assumption.
    now rewrite landmarksOf_translate, El, Er, Et.
  - rewrite !calibrate_eq by assumption.
    now rewrite landmarksOf_translate, El, Er, Et, measure_shift.
Qed.

Lemma wellFormed_tposeFrame : Forall wellFormed tposeFrame.
Proof.
  unfold tposeFrame, frame. cbn [repeat List.app]. repeat constructor.
Qed.

(** The stretched-out pose calibrates just the same one unit to the side,
    two down and three back, with the same shoulder width 0.4. *)
Lemma translation_invariant_witness :
  (33 <= List.length tposeFrame)%nat
  /\ Forall wellFormed tposeFrame
  /\ exists this',
       calibrate (@constructor termQuaternions)
                 (Some (translate 1 2 3 <$> tposeFrame)) = Normal (true, this')
       /\ shoulderWidth (getMeasurements this') = 0.4.
Proof.
  split; [exact length_tposeFrame|]. split; [exact wellFormed_tposeFrame|].
  destruct (@translation_invariant termQuaternions constructor 1 2 3
              tposeFrame length_tposeFrame wellFormed_tposeFrame)
    as (_ & _ & Hcal).
  eexists. split.
  - rewrite Hcal. apply calibrate_tposeFrame.
  - exact (proj1 measure_tposeFrame).
Defined.

Lemma distanceTo_magnify (a b : THREE.Vector3) (c : R) :
  THREE.distanceTo (THREE.multiplyScalar a c) (THREE.multiplyScalar b c)
  = Rabs c * THREE.distanceTo a b.
Proof.
  unfold THREE.distanceTo, THREE.distanceToSquared, THREE.multiplyScalar; cbn.
  replace ((THREE.x a * c - THREE.x b * c) * (THREE.x a * c - THREE.x b * c)
           + (THREE.y a * c - THREE.y b * c) * (THREE.y a * c - THREE.y b * c)
           + (THREE.z a * c - THREE.z b * c) * (THREE.z a * c - THREE.z b * c))
    with (Rsqr c
          * ((THREE.x a - THREE.x b) * (THREE.x a - THREE.x b)
             + (THREE.y a - THREE.y b) * (THREE.y a - THREE.y b)
             + (THREE.z a - THREE.z b) * (THREE.z a - THREE.z b)))
    by (unfold Rsqr; ring).
  rewrite sqrt_mult by (try apply Rle_0_sqr; apply sumsq_nonneg).
  now rewrite sqrt_Rsqr_abs.
Qed.

Lemma midpoint_magnify (a b : THREE.Vector3) (c : R) :
  midpoint (THREE.multiplyScalar a c) (THREE.multiplyScalar b c)
  = THREE.multiplyScalar (midpoint a b) c.
Proof.
  unfold midpoint, THREE.addVectors, THREE.multiplyScalar; cbn. f_equal; ring.
Qed.

Lemma subVectors_magnify (a b : THREE.Vector3) (c : R) :
  THREE.subVectors (THREE.multiplyScalar a c) (THREE.multiplyScalar b c)
  = THREE.multiplyScalar (THREE.subVectors a b) c.
Proof.
  unfold THREE.subVectors, THREE.multiplyScalar; cbn. f_equal; ring.
Qed.

Lemma measure_magnify (c : R) (l : Landmarks) :
  measure (mapLandmarks (fun v => THREE.multiplyScalar v c) l)
  = scaleMeasurements (Rabs c) (measure l).
Proof.
  unfold measure, mapLandmarks, scaleMeasurements.
  cbn [leftShoulder rightShoulder leftHip rightHip leftElbow rightElbow
       leftWrist rightWrist leftKnee rightKnee leftAnkle rightAnkle
       shoulderWidth torsoLength armLength legLength hipWidth].
  rewrite !midpoint_magnify, !distanceTo_magnify. f_equal; field.
Qed.

Lemma dot_zero_l (b : THREE.Vector3) : THREE.dot THREE.zero b = 0.
Proof. unfold THREE.dot; cbn. ring. Qed.

Lemma dot_zero_r (a : THREE.Vector3) : THREE.dot a THREE.zero = 0.
Proof. unfold THREE.dot; cbn. ring. Qed.

Lemma multiplyScalar_zero (c : R) :
  THREE.multiplyScalar THREE.zero c = THREE.zero.
Proof. unfold THREE.multiplyScalar, THREE.zero; cbn. f_equal; ring. Qed.

(** The normalised dot product does not see a common non-zero factor. *)
Lemma absCosine_magnify (a b : THREE.Vector3) (c : R) :
  c <> 0 ->
  absCosine (THREE.multiplyScalar a c) (THREE.multiplyScalar b c)
  = absCosine a b.
Proof.
  intros Hc.
  destruct (Req_dec_T (THREE.length a) 0) as [Ea|Na].
  { apply length_zero in Ea. subst a.
    rewrite multiplyScalar_zero, !absCosine_perpendicular;
      [reflexivity|apply dot_zero_l|apply dot_zero_l]. }
  destruct (Req_dec_T (THREE.length b) 0) as [Eb|Nb].
  { apply length_zero in Eb. subst b.
    rewrite multiplyScalar_zero, !absCosine_perpendicular;
      [reflexivity|apply dot_zero_r|apply dot_zero_r]. }
  assert (Kc : 0 < Rabs c) by now apply Rabs_pos_lt.
  pose proof (length_nonneg a). pose proof (length_nonneg b).
  unfold absCosine. rewrite !dot_normalize. unfold divisor.
  rewrite !length_multiplyScalar.
  destruct (Req_dec_T (Rabs c * THREE.length a) 0) as [E|_]; [nra|].
  destruct (Req_dec_T (Rabs c * THREE.length b) 0) as [E|_]; [nra|].
  destruct (Req_dec_T (THREE.length a) 0) as [E|_]; [contradiction|].
  destruct (Req_dec_T (THREE.length b) 0) as [E|_]; [contradiction|].
  f_equal.
  replace (THREE.dot (THREE.multiplyScalar a c) (THREE.multiplyScalar b c))
    with (Rabs c * Rabs c * THREE.dot a b).
  - field. lra.
  - replace (Rabs c * Rabs c) with (c * c)
      by (unfold Rabs; destruct (Rcase_abs c); ring).
    unfold THREE.dot, THREE.multiplyScalar; cbn. ring.
Qed.

(** X10.  Seen from nearer or farther away (every landmark magnified by the
    same
    non-zero factor about the oracle's origin), a pose passes the T-pose
    check exactly as before, while all five measurements grow by the
    absolute value of the factor: the check is about the shape of the pose,
    the measurements about its size. *)
Theorem magnification {Q : THREE.QuaternionOps} (this : ClothingFit) (c : R)
    (keypoints : list Keypoint) :
  (33 <= List.length keypoints)%nat ->
  c <> 0 ->
  checkTpose (Some (magnify c <$> keypoints)) = checkTpose (Some keypoints)
  /\ calculateBodyMeasurements this (Some (magnify c <$> keypoints))
     = Normal (set_userMeasurements this
                 (scaleMeasurements (Rabs c)
                    (measure (landmarksOf keypoints)))).
Proof.
  intros Hlen Hc.
  assert (Hlen' : (33 <= List.length (magnify c <$> keypoints))%nat)
    by now rewrite length_fmap.
  pose proof (tooFew_false _ Hlen) as Hg.
  pose proof (tooFew_false _ Hlen') as Hg'.
  split.
  - rewrite !checkTpose_eq by assumption. rewrite landmarksOf_magnify.
    unfold leftArm, rightArm, torsoAxis, mapLandmarks.
    cbn [leftShoulder rightShoulder leftHip rightHip leftElbow rightElbow
         leftWrist rightWrist leftKnee rightKnee leftAnkle rightAnkle].
    rewrite !midpoint_magnify, !subVectors_magnify.
    now rewrite !absCosine_magnify.
  - rewrite calculateBodyMeasurements_eq by assumption.
    now rewrite landmarksOf_magnify, measure_magnify.
Qed.

(** The stretched-out pose at twice the size, mirrored: still a T-pose, with
    shoulder width 0.8. *)
Lemma magnification_witness :
  (33 <= List.length tposeFrame)%nat
  /\ -2 <> 0
  /\ checkTpose (Some (magnify (-2) <$> tposeFrame)) = Normal true
  /\ exists this',
       calculateBodyMeasurements (@constructor termQuaternions)
         (Some (magnify (-2) <$> tposeFrame)) = Normal this'
       /\ shoulderWidth (getMeasurements this') = 0.8.
Proof.
  assert (Hc : -2 <> 0) by lra.
  split; [exact length_tposeFrame|]. split; [exact Hc|].
  destruct (@magnification termQuaternions constructor (-2) tposeFrame
              length_tposeFrame Hc) as [Hpose Hmeasure].
  split; [rewrite Hpose; exact checkTpose_tposeFrame|].
  eexists. split; [exact Hmeasure|].
  unfold getMeasurements.
  cbn [userMeasurements set_userMeasurements scaleMeasurements shoulderWidth].
  rewrite (proj1 measure_tposeFrame).
  unfold Rabs. destruct (Rcase_abs _); lra.
Defined.

(** ** Two segments against the straight line *)

Lemma cauchy_schwarz (u1 u2 u3 v1 v2 v3 : R) :
  (u1 * v1 + u2 * v2 + u3 * v3) * (u1 * v1 + u2 * v2 + u3 * v3)
  <= (u1 * u1 + u2 * u2 + u3 * u3) * (v1 * v1 + v2 * v2 + v3 * v3).
Proof.
  pose proof (Rle_0_sqr (u1 * v2 - u2 * v1)) as H1.
  pose proof (Rle_0_sqr (u1 * v3 - u3 * v1)) as H2.
  pose proof (Rle_0_sqr (u2 * v3 - u3 * v2)) as H3.
  unfold Rsqr in *. lra.
Qed.

Lemma dot_le_lengths (u1 u2 u3 v1 v2 v3 : R) :
  u1 * v1 + u2 * v2 + u3 * v3
  <= sqrt (u1 * u1 + u2 * u2 + u3 * u3) * sqrt (v1 * v1 + v2 * v2 + v3 * v3).
Proof.
  pose proof (sumsq_nonneg u1 u2 u3) as HU.
  pose proof (sumsq_nonneg v1 v2 v3) as HV.
  rewrite <- sqrt_mult by assumption.
  destruct (Rle_dec (u1 * v1 + u2 * v2 + u3 * v3) 0) as [Hneg|Hpos].
  - pose proof (sqrt_pos ((u1 * u1 + u2 * u2 + u3 * u3)
                          * (v1 * v1 + v2 * v2 + v3 * v3))). lra.
  - rewrite <- (sqrt_square (u1 * v1 + u2 * v2 + u3 * v3)) at 1 by lra.
    apply sqrt_le_1_alt, cauchy_schwarz.
Qed.

Lemma distanceTo_triangle (a b c : THREE.Vector3) :
  THREE.distanceTo a c <= THREE.distanceTo a b + THREE.distanceTo b c.
Proof.
  pose proof (distanceTo_nonneg a b) as Hab.
  pose proof (distanceTo_nonneg b c) as Hbc.
  apply Rsqr_incr_0_var; [|lra].
  unfold Rsqr, THREE.distanceTo, THREE.distanceToSquared in *. cbn zeta in *.
  set (u1 := THREE.x a - THREE.x b) in *. set (u2 := THREE.y a - THREE.y b) in *.
  set (u3 := THREE.z a - THREE.z b) in *. set (v1 := THREE.x b - THREE.x c) in *.
  set (v2 := THREE.y b - THREE.y c) in *. set (v3 := THREE.z b - THREE.z c) in *.
  replace (THREE.x a - THREE.x c) with (u1 + v1) by (unfold u1, v1; ring).
  replace (THREE.y a - THREE.y c) with (u2 + v2) by (unfold u2, v2; ring).
  replace (THREE.z a - THREE.z c) with (u3 + v3) by (unfold u3, v3; ring).
  rewrite sqrt_sqrt by apply sumsq_nonneg.
  pose proof (dot_le_lengths u1 u2 u3 v1 v2 v3) as Hdot.
  pose proof (sqrt_sqrt _ (sumsq_nonneg u1 u2 u3)) as HU.
  pose proof (sqrt_sqrt _ (sumsq_nonneg v1 v2 v3)) as HV.
  set (P := sqrt (u1 * u1 + u2 * u2 + u3 * u3)) in *.
  set (S := sqrt (v1 * v1 + v2 * v2 + v3 * v3)) in *.
  nra.
Qed.

(** X11.  The stored arm length is never shorter than the straight shoulder-to-
    wrist distance averaged over both sides, and the stored leg length never
    shorter than the straight hip-to-ankle distance averaged over both
    sides, which is the leg length the pants branch of the solver computes
    for itself. *)
Theorem segments_dominate_chord {Q : THREE.QuaternionOps} (this : ClothingFit)
    (keypoints : list Keypoint) :
  (33 <= List.length keypoints)%nat ->
  exists this',
    calculateBodyMeasurements this (Some keypoints) = Normal this'
    /\ (THREE.distanceTo (leftShoulder (landmarksOf keypoints))
                         (leftWrist (landmarksOf keypoints))
        + THREE.distanceTo (rightShoulder (landmarksOf keypoints))
                           (rightWrist (landmarksOf keypoints))) / 2
       <= armLength (getMeasurements this')
    /\ (THREE.distanceTo (leftHip (landmarksOf keypoints))
                         (leftAnkle (landmarksOf keypoints))
        + THREE.distanceTo (rightHip (landmarksOf keypoints))
                           (rightAnkle (landmarksOf keypoints))) / 2
       <= legLength (getMeasurements this').
Proof.
  intros Hlen. eexists. split.
  - apply calculateBodyMeasurements_eq, tooFew_false, Hlen.
  - set (l := landmarksOf keypoints).
    unfold getMeasurements, set_userMeasurements, measure.
    cbn [userMeasurements armLength legLength].
    pose proof (distanceTo_triangle (leftShoulder l) (leftElbow l) (leftWrist l)).
    pose proof (distanceTo_triangle (rightShoulder l) (rightElbow l)
                  (rightWrist l)).
    pose proof (distanceTo_triangle (leftHip l) (leftKnee l) (leftAnkle l)).
    pose proof (distanceTo_triangle (rightHip l) (rightKnee l) (rightAnkle l)).
    split; lra.
Qed.

Lemma segments_dominate_chord_witness :
  (33 <= List.length bentArmFrame)%nat
  /\ exists this',
       calculateBodyMeasurements (@constructor termQuaternions)
         (Some bentArmFrame) = Normal this'
       /\ (THREE.distanceTo (leftShoulder (landmarksOf bentArmFrame))
                            (leftWrist (landmarksOf bentArmFrame))
           + THREE.distanceTo (rightShoulder (landmarksOf bentArmFrame))
                              (rightWrist (landmarksOf bentArmFrame))) / 2
          <= armLength (getMeasurements this').
Proof.
  assert (Hlen : (33 <= List.length bentArmFrame)%nat)
    by (unfold bentArmFrame; rewrite length_frame; lia).
  split; [exact Hlen|].
  destruct (@segments_dominate_chord termQuaternions constructor bentArmFrame
              Hlen) as (this' & Hcall & Harm & _).
  exists this'. split; [exact Hcall|exact Harm].
Defined.

(** X12.  Pants fitted against the wearer's own measurements (the base a
    committed
    calibration would provide) get x and z scale exactly [sizeAdjustment]
    but a y scale of at most [sizeAdjustment]: the solver divides the
    straight hip-to-ankle distance by a base leg length that was measured
    through the knee. *)
Theorem pants_against_own_measurements {Q : THREE.QuaternionOps}
    (keypoints : list Keypoint) (size : R) :
  (33 <= List.length keypoints)%nat ->
  0 <= size ->
  hipWidth (measure (landmarksOf keypoints)) <> 0 ->
  0 < legLength (measure (landmarksOf keypoints)) ->
  exists target,
    solveTarget "pants" size (Some (measure (landmarksOf keypoints)))
                (landmarksOf keypoints) = Normal target
    /\ THREE.x (scale target) = size
    /\ THREE.z (scale target) = size
    /\ THREE.y (scale target) <= size.
Proof.
  intros Hlen Hsize Hhip Hleg. eexists. split; [reflexivity|].
  set (l := landmarksOf keypoints) in *.
  cbn [scale THREE.x THREE.y THREE.z].
  unfold read. cbn [hipWidth legLength measure] in *.
  split; [field; exact Hhip|]. split; [field; exact Hhip|].
  pose proof (distanceTo_triangle (leftHip l) (leftKnee l) (leftAnkle l)).
  pose proof (distanceTo_triangle (rightHip l) (rightKnee l) (rightAnkle l)).
  set (direct := (THREE.distanceTo (leftHip l) (leftAnkle l)
                  + THREE.distanceTo (rightHip l) (rightAnkle l)) / 2) in *.
  set (through := (THREE.distanceTo (leftHip l) (leftKnee l)
                   + THREE.distanceTo (leftKnee l) (leftAnkle l)
                   + (THREE.distanceTo (rightHip l) (rightKnee l)
                      + THREE.distanceTo (rightKnee l) (rightAnkle l))) / 2)
    in *.
  assert (Hle : direct <= through) by (unfold direct, through; lra).
  assert (Hratio : direct / through <= 1).
  { apply (Rmult_le_reg_r through); [exact Hleg|].
    unfold Rdiv. rewrite Rmult_assoc, Rinv_l by lra. lra. }
  nra.
Qed.

Lemma lower_body_tposeFrame :
  hipWidth (measure (landmarksOf tposeFrame)) = 0.3
  /\ legLength (measure (landmarksOf tposeFrame)) = 0.8.
Proof.
  unfold tposeFrame. rewrite landmarksOf_frame, !vectorOf_point.
  three. roots 0.3 0.4 0.4. split; lra.
Qed.

Lemma pants_against_own_measurements_witness :
  (33 <= List.length tposeFrame)%nat
  /\ 0 <= 1.5
  /\ hipWidth (measure (landmarksOf tposeFrame)) <> 0
  /\ 0 < legLength (measure (landmarksOf tposeFrame))
  /\ exists target,
       @solveTarget termQuaternions "pants" 1.5
         (Some (measure (landmarksOf tposeFrame))) (landmarksOf tposeFrame)
       = Normal target
       /\ THREE.x (scale target) = 1.5
       /\ THREE.y (scale target) <= 1.5.
Proof.
  destruct lower_body_tposeFrame as [Eh El].
  assert (Hs : 0 <= 1.5) by lra.
  assert (Hh : hipWidth (measure (landmarksOf tposeFrame)) <> 0)
    by (rewrite Eh; lra).
  assert (Hl : 0 < legLength (measure (landmarksOf tposeFrame)))
    by (rewrite El; lra).
  split; [exact length_tposeFrame|]. split; [exact Hs|]. split; [exact Hh|].
  split; [exact Hl|].
  destruct (@pants_against_own_measurements termQuaternions tposeFrame 1.5
              length_tposeFrame Hs Hh Hl) as (target & Hcall & Hx & _ & Hy).
  exists target. split; [exact Hcall|]. split; [exact Hx|exact Hy].
Defined.

(** ** PoseDetection.extractKeypoints3D *)

Lemma mapFrom_enough (world pose : list PoseDetection.Landmark) (i : nat) :
  (i + List.length world <= List.length pose)%nat ->
  PoseDetection.mapFrom i pose world
  = Normal (zip_with pairLandmarks world (drop i pose)).
Proof.
  revert i. induction world as [|w world IH]; intros i Hlen; [reflexivity|].
  cbn [List.length] in Hlen. cbn [PoseDetection.mapFrom].
  destruct (lookup_lt_is_Some_2 pose i ltac:(lia)) as [p Hp]. rewrite Hp.
  rewrite IH by lia. cbn [mbind completion_bind].
  rewrite (drop_S _ _ _ Hp). reflexivity.
Qed.

Lemma mapFrom_short (world pose : list PoseDetection.Landmark) (i : nat) :
  (i <= List.length pose < i + List.length world)%nat ->
  PoseDetection.mapFrom i pose world = Throw TypeError.
Proof.
  revert i. induction world as [|w world IH]; intros i Hlen;
    [cbn in Hlen; lia|].
  cbn [List.length] in Hlen. cbn [PoseDetection.mapFrom].
  destruct (pose !! i) as [p|] eqn:Hp; [|reflexivity].
  rewrite IH; [reflexivity|].
  apply lookup_lt_Some in Hp. lia.
Qed.

Lemma wellFormed_pairs (world pose : list PoseDetection.Landmark) :
  Forall wellFormed (zip_with pairLandmarks world pose).
Proof.
  revert pose. induction world as [|w world IH]; intros [|p pose]; cbn;
    constructor; [exact I|apply IH].
Qed.

(** X13.  [extractKeypoints3D] returns the empty array when either landmark
    array
    is missing.  When both are there it pairs them index by index: with at
    least as many image landmarks as world landmarks it returns one
    well-formed keypoint per world landmark, carrying that landmark's
    coordinates and the visibility of the image landmark of the same index;
    with fewer image landmarks than world landmarks it throws a TypeError. *)
Theorem extractKeypoints3D_pairs (results : PoseDetection.Results) :
  (PoseDetection.poseLandmarks results = None
   \/ PoseDetection.poseWorldLandmarks results = None ->
   PoseDetection.extractKeypoints3D results = Normal [])
  /\ (forall pose world,
        PoseDetection.poseLandmarks results = Some pose ->
        PoseDetection.poseWorldLandmarks results = Some world ->
        (List.length world <= List.length pose)%nat ->
        exists keypoints,
          PoseDetection.extractKeypoints3D results = Normal keypoints
          /\ keypoints = zip_with pairLandmarks world pose
          /\ List.length keypoints = List.length world
          /\ Forall wellFormed keypoints
          /\ forall i w,
               world !! i = Some w ->
               vectorOf (at_index keypoints i)
               = THREE.mkVector3 (PoseDetection.x w) (- PoseDetection.y w)
                                 (- PoseDetection.z w))
  /\ (forall pose world,
        PoseDetection.poseLandmarks results = Some pose ->
        PoseDetection.poseWorldLandmarks results = Some world ->
        (List.length pose < List.length world)%nat ->
        PoseDetection.extractKeypoints3D results = Throw TypeError).
Proof.
  unfold PoseDetection.extractKeypoints3D. split; [|split].
  - intros [->| ->]; [reflexivity|].
    now destruct (PoseDetection.poseLandmarks results).
  - intros pose world -> -> Hlen. eexists. split.
    { rewrite mapFrom_enough by (cbn; lia). rewrite drop_0. reflexivity. }
    split; [reflexivity|]. split; [|split].
    + rewrite length_zip_with. lia.
    + apply wellFormed_pairs.
    + intros i w Hw. unfold at_index.
      destruct (lookup_lt_is_Some_2 pose i) as [p Hp].
      { apply lookup_lt_Some in Hw. lia. }
      rewrite lookup_zip_with, Hw. cbn. rewrite Hp. reflexivity.
  - intros pose world -> -> Hlen. apply mapFrom_short. cbn. lia.
Qed.

(** One world landmark against two image landmarks gives one keypoint; two
    world landmarks against one image landmark throw. *)
Lemma extractKeypoints3D_pairs_witness :
  PoseDetection.extractKeypoints3D
    {| PoseDetection.poseLandmarks :=
         Some [PoseDetection.mkLandmark 0.5 0.5 0 0.9;
               PoseDetection.mkLandmark 0.6 0.5 0 0.8];
       PoseDetection.poseWorldLandmarks :=
         Some [PoseDetection.mkLandmark 0.1 0.2 0.3 0] |}
  = Normal [KObject (VNumber 0.1) 0.2 0.3 0.9]
  /\ PoseDetection.extractKeypoints3D
       {| PoseDetection.poseLandmarks :=
            Some [PoseDetection.mkLandmark 0.5 0.5 0 0.9];
          PoseDetection.poseWorldLandmarks :=
            Some [PoseDetection.mkLandmark 0.1 0.2 0.3 0;
                  PoseDetection.mkLandmark 0.1 0.2 0.3 0] |}
     = Throw TypeError.
Proof.
  split.
  - destruct (extractKeypoints3D_pairs
                {| PoseDetection.poseLandmarks :=
                     Some [PoseDetection.mkLandmark 0.5 0.5 0 0.9;
                           PoseDetection.mkLandmark 0.6 0.5 0 0.8];
                   PoseDetection.poseWorldLandmarks :=
                     Some [PoseDetection.mkLandmark 0.1 0.2 0.3 0] |})
      as (_ & Hpairs & _).
    destruct (Hpairs _ _ eq_refl eq_refl ltac:(cbn; lia))
      as (keypoints & Hcall & -> & _).
    exact Hcall.
  - destruct (extractKeypoints3D_pairs
                {| PoseDetection.poseLandmarks :=
                     Some [PoseDetection.mkLandmark 0.5 0.5 0 0.9];
                   PoseDetection.poseWorldLandmarks :=
                     Some [PoseDetection.mkLandmark 0.1 0.2 0.3 0;
                           PoseDetection.mkLandmark 0.1 0.2 0.3 0] |})
      as (_ & _ & Hshort).
    apply (Hshort _ _ eq_refl eq_refl). cbn. lia.
Defined.

(** ** SceneManager *)

Lemma remove_not_in (object : SceneManager.Object3D)
    (children : list SceneManager.Object3D) :
  object ∉ children -> SceneManager.remove object children = children.
Proof.
  induction children as [|child rest IH]; [reflexivity|].
  rewrite not_elem_of_cons. intros [Hne Hrest]. cbn.
  destruct (decide (child = object)) as [E|_]; [congruence|].
  now rewrite IH.
Qed.

Lemma elem_of_remove (object other : SceneManager.Object3D)
    (children : list SceneManager.Object3D) :
  other <> object ->
  other ∈ SceneManager.remove object children <-> other ∈ children.
Proof.
  intros Hne. induction children as [|child rest IH]; [reflexivity|].
  cbn. destruct (decide (child = object)) as [->|_].
  - rewrite elem_of_cons. split; [tauto|]. intros [?|?]; [congruence|assumption].
  - rewrite !elem_of_cons, IH. reflexivity.
Qed.

Lemma remove_subset (object other : SceneManager.Object3D)
    (children : list SceneManager.Object3D) :
  other ∈ SceneManager.remove object children -> other ∈ children.
Proof.
  induction children as [|child rest IH]; [trivial|].
  cbn. destruct (decide (child = object)) as [->|_].
  - intros H. apply elem_of_cons. now right.
  - rewrite !elem_of_cons. intros [?|?]; [now left|right; now apply IH].
Qed.

Lemma NoDup_remove (object : SceneManager.Object3D)
    (children : list SceneManager.Object3D) :
  NoDup children ->
  NoDup (SceneManager.remove object children)
  /\ object ∉ SceneManager.remove object children.
Proof.
  induction children as [|child rest IH]; intros Hnd.
  - split; [constructor|apply not_elem_of_nil].
  - apply NoDup_cons in Hnd as [Hchild Hrest]. cbn.
    destruct (decide (child = object)) as [->|Hne].
    + now split.
    + destruct (IH Hrest) as [Hnd' Hout]. split.
      * apply NoDup_cons. split; [|exact Hnd'].
        intros Hin. apply Hchild. now apply remove_subset in Hin.
      * rewrite not_elem_of_cons. split; [congruence|exact Hout].
Qed.

(** X14.  Adding and removing keep the children free of duplicates.  An added
    object is the last child, however often it is added; removing it again
    gives back the children as they were when it was not among them before;
    and both calls do nothing on a scene that is not initialised or for a
    missing object. *)
Theorem scene_add_remove (children : list SceneManager.Object3D)
    (object : SceneManager.Object3D) :
  NoDup children ->
  NoDup (SceneManager.add object children)
  /\ NoDup (SceneManager.remove object children)
  /\ (object ∉ SceneManager.remove object children)
  /\ last (SceneManager.add object children) = Some object
  /\ SceneManager.add object (SceneManager.add object children)
     = SceneManager.add object children
  /\ (object ∉ children ->
      SceneManager.removeObject
        (SceneManager.addObject (Some children) (Some object)) (Some object)
      = Some children)
  /\ SceneManager.addObject None (Some object) = None
  /\ SceneManager.removeObject None (Some object) = None
  /\ SceneManager.addObject (Some children) None = Some children
  /\ SceneManager.removeObject (Some children) None = Some children.
Proof.
  intros Hnd. destruct (NoDup_remove object children Hnd) as [Hnd' Hout].
  assert (Hdrop : SceneManager.remove object
                    (SceneManager.remove object children ++ [object])
                  = SceneManager.remove object children).
  { generalize (SceneManager.remove object children) Hout.
    intros l. induction l as [|child rest IH]; intros Hl.
    - cbn. now destruct (decide (object = object)).
    - apply not_elem_of_cons in Hl as [Hne Hrest]. cbn.
      destruct (decide (child = object)) as [E|_]; [congruence|].
      now rewrite IH. }
  split; [|split; [exact Hnd'|split; [exact Hout|split; [|split; [|split]]]]].
  - unfold SceneManager.add. apply NoDup_app. split; [exact Hnd'|]. split.
    + intros x Hx Hx'. apply list_elem_of_singleton in Hx'. now subst.
    + apply NoDup_singleton.
  - unfold SceneManager.add. apply last_snoc.
  - unfold SceneManager.add. now rewrite Hdrop.
  - intros Hnew. cbn. unfold SceneManager.add.
    rewrite (remove_not_in _ _ Hnew). f_equal.
    rewrite <- (remove_not_in _ _ Hnew) at 1. rewrite Hdrop.
    now apply remove_not_in.
  - repeat split.
Qed.

Lemma scene_add_remove_witness :
  NoDup [SceneManager.ambientLight]
  /\ SceneManager.removeObject
       (SceneManager.addObject (Some [SceneManager.ambientLight])
          (Some (SceneManager.mkObject "mesh-1" false)))
       (Some (SceneManager.mkObject "mesh-1" false))
     = Some [SceneManager.ambientLight].
Proof.
  assert (Hnd : NoDup [SceneManager.ambientLight]) by apply NoDup_singleton.
  split; [exact Hnd|].
  destruct (scene_add_remove [SceneManager.ambientLight]
              (SceneManager.mkObject "mesh-1" false) Hnd)
    as (_ & _ & _ & _ & _ & Hround & _).
  apply Hround. rewrite list_elem_of_singleton. discriminate.
Defined.

Lemma elem_of_add (object : SceneManager.Object3D)
    (children : list SceneManager.Object3D) :
  object ∈ SceneManager.add object children.
Proof.
  unfold SceneManager.add. apply elem_of_app. right.
  now apply list_elem_of_singleton.
Qed.

Lemma clearLoop_light (fuel : nat) (children : list SceneManager.Object3D)
    (light : SceneManager.Object3D) :
  light ∈ children -> SceneManager.isLight light = true ->
  SceneManager.clearLoop fuel children = None.
Proof.
  revert children light.
  induction fuel as [|fuel IH]; intros children light Hin Hlight.
  - destruct children; [now apply elem_of_nil in Hin|reflexivity].
  - destruct children as [|object rest]; [now apply elem_of_nil in Hin|].
    cbn [SceneManager.clearLoop]. unfold SceneManager.clearStep.
    destruct (SceneManager.isLight object) eqn:Hobject.
    + apply (IH _ object (elem_of_add _ _) Hobject).
    + apply (IH _ light); [|exact Hlight]. apply elem_of_remove; [|exact Hin].
      intros ->. congruence.
Qed.

(** X15.  [clearScene] empties a scene without lights in one iteration per
    child,
    but its loop never ends on a scene that holds a light: each light is
    taken out and put back at the end, so the children never run out.  Every
    scene the manager has set up holds its three lights, so [clearScene],
    and [dispose] which calls it, do not return on it. *)
Theorem clearScene_loops_on_lights (children : list SceneManager.Object3D) :
  (Forall (fun object => SceneManager.isLight object = false) children ->
   SceneManager.clearLoop (List.length children) children = Some [])
  /\ (forall light fuel,
        light ∈ children -> SceneManager.isLight light = true ->
        SceneManager.clearLoop fuel children = None)
  /\ (forall fuel,
        SceneManager.clearLoop fuel (SceneManager.setupLights children) = None).
Proof.
  split; [|split].
  - induction children as [|object rest IH]; intros Hall; [reflexivity|].
    apply Forall_cons in Hall as [Hobject Hrest].
    cbn [List.length SceneManager.clearLoop]. unfold SceneManager.clearStep.
    rewrite Hobject. cbn [SceneManager.remove].
    destruct (decide (object = object)); [|congruence]. now apply IH.
  - intros light fuel. apply clearLoop_light.
  - intros fuel.
    apply (clearLoop_light fuel _ SceneManager.fillLight);
      [apply elem_of_add|reflexivity].
Qed.

(** Two garments are cleared in two iterations; with the ambient light in
    front of them a thousand iterations are not enough. *)
Lemma clearScene_loops_on_lights_witness :
  SceneManager.clearLoop 2
    [SceneManager.mkObject "mesh-1" false; SceneManager.mkObject "mesh-2" false]
  = Some []
  /\ SceneManager.clearLoop 1000
       [SceneManager.ambientLight; SceneManager.mkObject "mesh-1" false]
     = None.
Proof.
  split.
  - apply (clearScene_loops_on_lights
             [SceneManager.mkObject "mesh-1" false;
              SceneManager.mkObject "mesh-2" false]).
    repeat constructor.
  - apply (clearScene_loops_on_lights
             [SceneManager.ambientLight; SceneManager.mkObject "mesh-1" false]
          ) with (light := SceneManager.ambientLight);
      [apply elem_of_cons; now left|reflexivity].
Defined.

(** ** ModelLoader *)


Ltac loader_fields :=
  cbn [ModelLoader.models ModelLoader.currentModel ModelLoader.isLoading
       ModelLoader.loadingOverlay ModelLoader.baseMeasurements].



(** X17.  When the URL of a garment other than the T-shirt fails to load but
    the
    T-shirt's URL loads, [loadModel] reports success with the T-shirt asset:
    the asset becomes the current model and is cached under the requested
    type, so that type keeps yielding the T-shirt even after the network
    recovers.  The T-shirt's own URL has no fallback. *)
Theorem fallback_is_cached (this : ModelLoader.t) (net : ModelLoader.Network)
    (modelType url : string) (tshirt : SceneManager.Object3D) :
  ModelLoader.modelUrls !! modelType = Some url ->
  url <> ModelLoader.tshirtUrl ->
  ModelLoader.models this !! modelType = None ->
  net url = None ->
  net ModelLoader.tshirtUrl = Some tshirt ->
  exists this',
    ModelLoader.loadModel this net modelType = (ModelLoader.Loaded tshirt, this')
    /\ ModelLoader.currentModel this' = Some tshirt
    /\ ModelLoader.models this' !! modelType = Some tshirt
    /\ (forall net',
          (ModelLoader.loadModel this' net' modelType).1
          = ModelLoader.Loaded tshirt)
    /\ (forall that,
          ModelLoader.models that !! "tshirt"%string = None ->
          (ModelLoader.loadModel that (fun _ => None) "tshirt").1
          = ModelLoader.LoadFailed).
Proof.
  intros Hurl Hne Hcold Hfail Hfallback.
  assert (Hload : ModelLoader.loadGLTF net url = Some tshirt).
  { unfold ModelLoader.loadGLTF. rewrite Hfail.
    rewrite (proj2 (String.eqb_neq _ _) Hne). exact Hfallback. }
  eexists. split.
  { unfold ModelLoader.loadModel. rewrite Hurl, Hcold, Hload. reflexivity. }
  loader_fields. split; [reflexivity|]. split; [apply lookup_insert_eq|].
  split.
  - intros net'. unfold ModelLoader.loadModel. rewrite Hurl. loader_fields.
    now rewrite lookup_insert_eq.
  - intros that Hthat. unfold ModelLoader.loadModel.
    replace (ModelLoader.modelUrls !! "tshirt"%string)
      with (Some ModelLoader.tshirtUrl) by reflexivity.
    rewrite Hthat. unfold ModelLoader.loadGLTF.
    now rewrite String.eqb_refl.
Qed.

(** The hoodie's URL is down, the T-shirt's is up: the hoodie request is
    answered with the T-shirt asset. *)
Lemma fallback_is_cached_witness :
  exists url this',
    ModelLoader.modelUrls !! "hoodie"%string = Some url
    /\ url <> ModelLoader.tshirtUrl
    /\ ModelLoader.loadModel ModelLoader.constructor
         (fun u => if (u =? ModelLoader.tshirtUrl)%string
                   then Some (SceneManager.mkObject "tshirt-asset" false)
                   else None) "hoodie"
       = (ModelLoader.Loaded (SceneManager.mkObject "tshirt-asset" false),
          this')
    /\ ModelLoader.models this' !! "hoodie"%string
       = Some (SceneManager.mkObject "tshirt-asset" false).
Proof.
  assert (Hurl : ModelLoader.modelUrls !! "hoodie"%string
                 = Some "https://res.cloudinary.com/customxshop/image/upload/v1744041395/hoodie.compressed.glb"%string)
    by reflexivity.
  assert (Hne : "https://res.cloudinary.com/customxshop/image/upload/v1744041395/hoodie.compressed.glb"%string
                <> ModelLoader.tshirtUrl) by discriminate.
  destruct (fallback_is_cached ModelLoader.constructor
              (fun u => if (u =? ModelLoader.tshirtUrl)%string
                        then Some (SceneManager.mkObject "tshirt-asset" false)
                        else None)
              "hoodie" _ (SceneManager.mkObject "tshirt-asset" false)
              Hurl Hne eq_refl eq_refl eq_refl)
    as (this' & Hcall & _ & Hcache & _).
  eexists. exists this'. split; [exact Hurl|]. split; [exact Hne|].
  split; [exact Hcall|exact Hcache].
Defined.

(** X18.  After [preloadAllModels], every garment type whose load succeeded is
    served from the cache: [loadModel] returns the preloaded model whatever
    the network does by then. *)
Theorem preloaded_models_are_served (this : ModelLoader.t)
    (net net' : ModelLoader.Network) (modelType url : string)
    (model : SceneManager.Object3D) :
  ModelLoader.modelUrls !! modelType = Some url ->
  ModelLoader.loadGLTF net url = Some model ->
  (ModelLoader.loadModel (ModelLoader.preloadAllModels this net) net'
                         modelType).1
  = ModelLoader.Loaded model.
Proof.
  intros Hurl Hload. unfold ModelLoader.loadModel. rewrite Hurl.
  unfold ModelLoader.preloadAllModels. loader_fields.
  assert (Hcache : (omap (ModelLoader.loadGLTF net) ModelLoader.modelUrls
                    ∪ ModelLoader.models this) !! modelType = Some model).
  { apply lookup_union_Some_l. rewrite lookup_omap, Hurl. exact Hload. }
  now rewrite Hcache.
Qed.

Lemma preloaded_models_are_served_witness :
  exists url,
    ModelLoader.modelUrls !! "scarf"%string = Some url
    /\ ModelLoader.loadGLTF
         (fun _ => Some (SceneManager.mkObject "asset" false)) url
       = Some (SceneManager.mkObject "asset" false)
    /\ (ModelLoader.loadModel
          (ModelLoader.preloadAllModels ModelLoader.constructor
             (fun _ => Some (SceneManager.mkObject "asset" false)))
          (fun _ => None) "scarf").1
       = ModelLoader.Loaded (SceneManager.mkObject "asset" false).
Proof.
  eexists. split; [reflexivity|]. split; [reflexivity|].
  apply (preloaded_models_are_served ModelLoader.constructor
           (fun _ => Some (SceneManager.mkObject "asset" false))
           (fun _ => None) "scarf" _ _ eq_refl eq_refl).
Defined.

(** ** The change-model button *)

Lemma loadModel_missing_type (app : TryOn.t) (env : TryOn.Env)
    (modelType : string) :
  ModelLoader.modelUrls !! modelType = None ->
  TryOn.loadModel app env modelType
  = (false,
     {| TryOn.scene :=
          SceneManager.removeObject (TryOn.scene app)
            (ModelLoader.currentModel (TryOn.loader app));
        TryOn.loader := TryOn.loader app;
        TryOn.currentModelType := TryOn.currentModelType app |}).
Proof.
  intros Hurl. unfold TryOn.loadModel, ModelLoader.loadModel.
  now rewrite Hurl.
Qed.

Lemma loadModel_currentModelType (app : TryOn.t) (env : TryOn.Env)
    (modelType : string) :
  TryOn.currentModelType (TryOn.loadModel app env modelType).2
  = TryOn.currentModelType app
  \/ (TryOn.currentModelType (TryOn.loadModel app env modelType).2 = modelType
      /\ (TryOn.loadModel app env modelType).1 = true
      /\ is_Some (ModelLoader.modelUrls !! modelType)).
Proof.
  destruct (ModelLoader.modelUrls !! modelType) as [url|] eqn:Hurl.
  - unfold TryOn.loadModel, ModelLoader.loadModel. rewrite Hurl.
    destruct (ModelLoader.models (TryOn.loader app) !! modelType) as [cached|].
    + destruct (TryOn.settingsApply env cached); [right|left]; now eauto.
    + destruct (ModelLoader.loadGLTF (TryOn.net env) url) as [model|];
        [|now left].
      destruct (TryOn.settingsApply env model); [right|left]; now eauto.
  - rewrite loadModel_missing_type by exact Hurl. now left.
Qed.

Lemma press_currentModelType (n : nat) (app : TryOn.t) (env : TryOn.Env) :
  TryOn.currentModelType (TryOn.press n app env) = TryOn.currentModelType app
  \/ is_Some (ModelLoader.modelUrls
              !! TryOn.currentModelType (TryOn.press n app env)).
Proof.
  revert app. induction n as [|n IH]; intros app; [now left|].
  cbn [TryOn.press]. destruct (IH (TryOn.openModelSelection app env))
    as [Hsame|Hknown]; [|now right].
  rewrite Hsame. unfold TryOn.openModelSelection.
  destruct (loadModel_currentModelType app env
              (default ""%string
                 (["tshirt"; "jacket"; "hoodie"; "shirt"; "pants"]%string
                  !! match TryOn.indexOf
                             ["tshirt"; "jacket"; "hoodie"; "shirt"; "pants"]%string
                             (TryOn.currentModelType app) with
                     | Some currentIndex =>
                         ((currentIndex + 1) mod 5)%nat
                     | None => O
                     end)))
    as [Hkeep|(Hset & _ & Hknown)].
  - left. exact Hkeep.
  - right. cbn [List.length] in *. rewrite Hset. exact Hknown.
Qed.

(** X19.  The change-model button cycles through a list that ends in 'pants', a
    type the loader has no URL for.  So however often the button is pressed
    and whatever the network serves, 'pants' never becomes the current model
    type: the only types the button can move to are keys of the loader's URL
    table. *)
Theorem button_never_selects_pants (n : nat) (app : TryOn.t)
    (env : TryOn.Env) :
  TryOn.currentModelType app <> "pants"%string ->
  TryOn.currentModelType (TryOn.press n app env) <> "pants"%string
  /\ (TryOn.currentModelType (TryOn.press n app env)
      = TryOn.currentModelType app
      \/ is_Some (ModelLoader.modelUrls
                  !! TryOn.currentModelType (TryOn.press n app env))).
Proof.
  intros Hstart. split; [|apply press_currentModelType].
  destruct (press_currentModelType n app env) as [Hsame|Hknown].
  - now rewrite Hsame.
  - intros Hpants. rewrite Hpants in Hknown.
    destruct Hknown as [url Hurl]. discriminate Hurl.
Qed.

(** X20.  Once the current type is 'shirt', the button is stuck: every press
    asks
    for 'pants', the loader refuses it and stays as it is, and the type
    stays 'shirt'.  The first press has already taken the garment out of the
    scene, so from then on the loader's current model is no longer a child of
    the scene. *)
Theorem button_sticks_at_shirt (n : nat) (app : TryOn.t) (env : TryOn.Env) :
  TryOn.currentModelType app = "shirt"%string ->
  TryOn.currentModelType (TryOn.press n app env) = "shirt"%string
  /\ TryOn.loader (TryOn.press n app env) = TryOn.loader app
  /\ forall children garment,
       TryOn.scene app = Some children ->
       ModelLoader.currentModel (TryOn.loader app) = Some garment ->
       NoDup children ->
       (1 <= n)%nat ->
       TryOn.scene (TryOn.press n app env)
       = Some (SceneManager.remove garment children)
       /\ garment ∉ SceneManager.remove garment children.
Proof.
  intros Hshirt.
  assert (Hstep : forall app',
            TryOn.currentModelType app' = "shirt"%string ->
            TryOn.openModelSelection app' env
            = {| TryOn.scene :=
                   SceneManager.removeObject (TryOn.scene app')
                     (ModelLoader.currentModel (TryOn.loader app'));
                 TryOn.loader := TryOn.loader app';
                 TryOn.currentModelType := "shirt" |}).
  { intros app' Happ'. unfold TryOn.openModelSelection. rewrite Happ'.
    replace (default ""%string _) with "pants"%string by reflexivity.
    rewrite loadModel_missing_type by reflexivity.
    cbn [snd]. now rewrite Happ'. }
  revert app Hshirt. induction n as [|n IH]; intros app Hshirt.
  - split; [exact Hshirt|]. split; [reflexivity|]. intros; lia.
  - cbn [TryOn.press]. rewrite (Hstep app Hshirt).
    match goal with |- context [TryOn.press n ?a env] => set (app1 := a) end.
    destruct (IH app1 eq_refl) as (Htype & Hloader & Hscene).
    split; [exact Htype|]. split; [exact Hloader|].
    intros children garment Hchildren Hgarment Hnd _.
    destruct (NoDup_remove garment children Hnd) as [Hnd' Hout].
    split; [|exact Hout].
    destruct n as [|n'].
    + subst app1. cbn [TryOn.press TryOn.scene].
      now rewrite Hchildren, Hgarment.
    + destruct (Hscene (SceneManager.remove garment children) garment)
        as [Hafter _].
      * subst app1. cbn [TryOn.scene]. now rewrite Hchildren, Hgarment.
      * subst app1. cbn [TryOn.loader]. exact Hgarment.
      * exact Hnd'.
      * lia.
      * rewrite Hafter. f_equal. now apply remove_not_in.
Qed.

(** The application as it starts ('tshirt', the three lights in the scene,
    nothing loaded) on a network that serves every asset. *)
Lemma button_never_selects_pants_witness :
  exists app env,
    TryOn.currentModelType app = "tshirt"%string
    /\ TryOn.currentModelType (TryOn.press 7 app env) <> "pants"%string.
Proof.
  exists {| TryOn.scene := Some (SceneManager.setupLights []);
            TryOn.loader := ModelLoader.constructor;
            TryOn.currentModelType := "tshirt" |},
         {| TryOn.net := fun url => Some (SceneManager.mkObject url false);
            TryOn.settingsApply := fun _ => true |}.
  split; [reflexivity|].
  apply (button_never_selects_pants 7). discriminate.
Defined.

(** Three presses take the starting application from 'tshirt' over 'jacket'
    and 'hoodie' to 'shirt'; it stays there for the next five. *)
Lemma button_sticks_at_shirt_witness :
  exists start env,
    TryOn.currentModelType start = "tshirt"%string
    /\ TryOn.currentModelType (TryOn.press 3 start env) = "shirt"%string
    /\ TryOn.currentModelType (TryOn.press 5 (TryOn.press 3 start env) env)
       = "shirt"%string.
Proof.
  exists {| TryOn.scene := Some (SceneManager.setupLights []);
            TryOn.loader := ModelLoader.constructor;
            TryOn.currentModelType := "tshirt" |},
         {| TryOn.net := fun url => Some (SceneManager.mkObject url false);
            TryOn.settingsApply := fun _ => true |}.
  split; [reflexivity|].
  assert (Hshirt :
    TryOn.currentModelType
      (TryOn.press 3
         {| TryOn.scene := Some (SceneManager.setupLights []);
            TryOn.loader := ModelLoader.constructor;
            TryOn.currentModelType := "tshirt" |}
         {| TryOn.net := fun url => Some (SceneManager.mkObject url false);
            TryOn.settingsApply := fun _ => true |}) = "shirt"%string)
    by (vm_compute; reflexivity).
  split; [exact Hshirt|].
  apply (button_sticks_at_shirt 5 _ _ Hshirt).
Defined.

(** ** The pose detector *)








(** X22.  What [onResults] does when there is a callback to call.  With at
    least
    as many image landmarks as world landmarks it calls the callback once, as
    the last thing it does, with the keypoints of [extractKeypoints3D] (one
    per world landmark), and returns.  With fewer image landmarks it throws a
    TypeError before the callback is reached.  Without image landmarks, or
    without results, it does nothing at all. *)
Theorem onResults_delivery (this : Detection.t) (callback : string)
    (pose world : list PoseDetection.Landmark) :
  Detection.onPoseDetectedCallback this = Some callback ->
  ((List.length world <= List.length pose)%nat ->
   exists drawn,
     Detection.onResults this
       (Some (PoseDetection.mkResults (Some pose) (Some world)))
     = (drawn ++ [Detection.CallbackCalled callback
                    (zip_with pairLandmarks world pose)],
        Normal tt)
     /\ Forall (fun event => event = Detection.Drawn) drawn)
  /\ ((List.length pose < List.length world)%nat ->
      (Detection.onResults this
         (Some (PoseDetection.mkResults (Some pose) (Some world)))).2
      = Throw TypeError
      /\ forall keypoints3D,
           Detection.CallbackCalled callback keypoints3D
           ∉ (Detection.onResults this
                (Some (PoseDetection.mkResults (Some pose) (Some world)))).1)
  /\ Detection.onResults this
       (Some (PoseDetection.mkResults (Some pose) None))
     = ((if Detection.ctx this && Detection.canvas this
         then [Detection.Drawn] else [])
        ++ [Detection.CallbackCalled callback []], Normal tt)
  /\ Detection.onResults this
       (Some (PoseDetection.mkResults None (Some world))) = ([], Normal tt)
  /\ Detection.onResults this None = ([], Normal tt).
Proof.
  intros Hcb. split; [|split; [|split; [|split]]].
  - intros Hlen. unfold Detection.onResults, PoseDetection.extractKeypoints3D.
    cbn [PoseDetection.poseLandmarks PoseDetection.poseWorldLandmarks].
    rewrite mapFrom_enough by (cbn; lia). rewrite drop_0, Hcb.
    eexists. split; [reflexivity|].
    destruct (_ && _); now repeat constructor.
  - intros Hlen. unfold Detection.onResults, PoseDetection.extractKeypoints3D.
    cbn [PoseDetection.poseLandmarks PoseDetection.poseWorldLandmarks].
    rewrite mapFrom_short by (cbn; lia). cbn [fst snd].
    split; [reflexivity|]. intros keypoints3D Hin.
    destruct (_ && _).
    + apply list_elem_of_singleton in Hin. discriminate Hin.
    + now apply elem_of_nil in Hin.
  - unfold Detection.onResults, PoseDetection.extractKeypoints3D.
    cbn [PoseDetection.poseLandmarks PoseDetection.poseWorldLandmarks].
    now rewrite Hcb.
  - reflexivity.
  - reflexivity.
Qed.

(** A detector that holds a callback, handed two image and two world
    landmarks. *)
Lemma onResults_delivery_witness :
  exists events,
    Detection.onResults
      {| Detection.detector := false; Detection.canvas := false;
         Detection.ctx := false; Detection.isRunning := true;
         Detection.onPoseDetectedCallback := Some "onPoseDetected"%string;
         Detection.camera := true; Detection.isInitialized := true;
         Detection.detectionConfidence := 0.7;
         Detection.trackingConfidence := 0.7;
         Detection.enableSmoothing := true; Detection.modelType := "full";
         Detection.videoElement := true; Detection.canvasElement := true;
         Detection.onPoseCallback := None; Detection.canvasCtx := true |}
      (Some (PoseDetection.mkResults
               (Some [PoseDetection.mkLandmark 0.5 0.5 0 0.9;
                      PoseDetection.mkLandmark 0.6 0.5 0 0.8])
               (Some [PoseDetection.mkLandmark 0.1 0.2 0.3 1;
                      PoseDetection.mkLandmark (-0.1) 0.2 0.3 1])))
    = (events ++ [Detection.CallbackCalled "onPoseDetected"
                    [KObject (VNumber 0.1) 0.2 0.3 0.9;
                     KObject (VNumber (-0.1)) 0.2 0.3 0.8]],
       Normal tt).
Proof.
  destruct (onResults_delivery
              {| Detection.detector := false; Detection.canvas := false;
                 Detection.ctx := false; Detection.isRunning := true;
                 Detection.onPoseDetectedCallback :=
                   Some "onPoseDetected"%string;
                 Detection.camera := true; Detection.isInitialized := true;
                 Detection.detectionConfidence := 0.7;
                 Detection.trackingConfidence := 0.7;
                 Detection.enableSmoothing := true;
                 Detection.modelType := "full";
                 Detection.videoElement := true;
                 Detection.canvasElement := true;
                 Detection.onPoseCallback := None;
                 Detection.canvasCtx := true |}
              "onPoseDetected"
              [PoseDetection.mkLandmark 0.5 0.5 0 0.9;
               PoseDetection.mkLandmark 0.6 0.5 0 0.8]
              [PoseDetection.mkLandmark 0.1 0.2 0.3 1;
               PoseDetection.mkLandmark (-0.1) 0.2 0.3 1]
              eq_refl) as [Hcall _].
  destruct (Hcall ltac:(cbn; lia)) as (drawn & Hdrawn & _).
  exists drawn. exact Hdrawn.
Defined.

(** ** Customization *)







(** ** What the scene shows *)









